(** * State tax pipeline: normalisation and ingestion

    A shallow embedding of [scripts/normalize-census-sources.mjs] and
    [scripts/ingest-state-tax-data.mjs], and the properties of the
    natural-language specification checked against it.

    Conventions of the embedding.
    - A JavaScript string is a [string]: a sequence of UTF-16 code units,
      each below 256 (one [ascii] per code unit).
    - A JavaScript Number is an IEEE-754 binary64 value, a [spec_float] of
      the Standard Library with [prec = 53] and [emax = 1024]; arithmetic
      is the library's correctly rounded arithmetic, comparison is the
      comparison of the exact values.
    - A JavaScript [Map] is an association list in insertion order; an
      object used as a record is an association list of its own
      properties (the prototype chain is not modelled).
    - The two libraries the scripts call, [JSON.parse] and [Papa.parse],
      are parameters of the functions that use them. *)

From Stdlib Require Import ZArith QArith Qpower List String Ascii Bool Lia Permutation Sorted.
From Stdlib Require Import SpecFloat.
From Stdlib Require DecimalString.
Import ListNotations.

Local Open Scope string_scope.
Local Open Scope Z_scope.

(* ================================================================== *)
(** * Part 1. Strings *)
(* ================================================================== *)

Module Str.

Definition code (c : ascii) : N := N_of_ascii c.

(** WhiteSpace and LineTerminator code units below 256: TAB, LF, VT, FF,
    CR, SP and NBSP.  These are what [String.prototype.trim] removes. *)
Definition isWhiteSpace (c : ascii) : bool :=
  let n := code c in
  ((9 <=? n) && (n <=? 13) || (n =? 32) || (n =? 160))%N.

(** LineTerminator code units below 256: LF and CR.  The regular
    expression atom [.] matches every code unit but these. *)
Definition isLineTerminator (c : ascii) : bool :=
  let n := code c in ((n =? 10) || (n =? 13))%N.

Definition isDigit (c : ascii) : bool :=
  let n := code c in ((48 <=? n) && (n <=? 57))%N.

Definition isLower (c : ascii) : bool :=
  let n := code c in ((97 <=? n) && (n <=? 122))%N.

Definition isEmpty (s : string) : bool :=
  match s with EmptyString => true | _ => false end.

Fixpoint trimStart (s : string) : string :=
  match s with
  | String c s' => if isWhiteSpace c then trimStart s' else s
  | EmptyString => EmptyString
  end.

Fixpoint trimEnd (s : string) : string :=
  match s with
  | String c s' =>
      let r := trimEnd s' in
      if isEmpty r && isWhiteSpace c then EmptyString else String c r
  | EmptyString => EmptyString
  end.

(** [s.trim()] *)
Definition trim (s : string) : string := trimEnd (trimStart s).

(** [s.startsWith(p)] *)
Fixpoint startsWith (p s : string) : bool :=
  match p, s with
  | EmptyString, _ => true
  | String a p', String b s' => Ascii.eqb a b && startsWith p' s'
  | String _ _, EmptyString => false
  end.

(** [s.replace(/[$,]/g, '')] *)
Fixpoint removeCurrency (s : string) : string :=
  match s with
  | String c s' =>
      if Ascii.eqb c "$" || Ascii.eqb c ","
      then removeCurrency s' else String c (removeCurrency s')
  | EmptyString => EmptyString
  end.

(** The tail of a match of the pattern of [replaceParens] once the
    opening parenthesis is consumed: the group is greedy and stays on
    the line, so the closing parenthesis is the last one before the
    first line terminator.  Returns the captured group and the text
    after the match. *)
Fixpoint lastClose (s : string) : option (string * string) :=
  match s with
  | String c s' =>
      if isLineTerminator c then None
      else match lastClose s' with
           | Some (inner, rest) => Some (String c inner, rest)
           | None => if Ascii.eqb c ")" then Some (EmptyString, s') else None
           end
  | EmptyString => None
  end.

(** [s.replace(re, '-$1')] where [re] is: an escaped opening
    parenthesis, the group "any run of [.]", an escaped closing
    parenthesis; without the [g] flag, so the leftmost match only. *)
Fixpoint replaceParens (s : string) : string :=
  match s with
  | String c s' =>
      if Ascii.eqb c "("
      then match lastClose s' with
           | Some (inner, rest) => "-" ++ inner ++ rest
           | None => String c (replaceParens s')
           end
      else String c (replaceParens s')
  | EmptyString => EmptyString
  end.

(** [s.toLowerCase()] on code units below 256: A-Z, and the Latin-1
    capitals 192-222 other than the multiplication sign 215. *)
Definition lowerChar (c : ascii) : ascii :=
  let n := code c in
  if ((65 <=? n) && (n <=? 90)
      || (192 <=? n) && (n <=? 222) && negb (n =? 215))%N
  then ascii_of_N (n + 32) else c.

Fixpoint toLowerCase (s : string) : string :=
  match s with
  | String c s' => String (lowerChar c) (toLowerCase s')
  | EmptyString => EmptyString
  end.

Definition isKeyChar (c : ascii) : bool := isLower c || isDigit c.

(** [s.replace(/[^a-z0-9]+/g, '_')]: [inRun] tells that the previous
    code unit already belonged to the run being replaced. *)
Fixpoint collapseRuns (inRun : bool) (s : string) : string :=
  match s with
  | String c s' =>
      if isKeyChar c then String c (collapseRuns false s')
      else if inRun then collapseRuns true s'
           else String "_" (collapseRuns true s')
  | EmptyString => EmptyString
  end.

Fixpoint dropUnderscores (s : string) : string :=
  match s with
  | String c s' => if Ascii.eqb c "_" then dropUnderscores s' else s
  | EmptyString => EmptyString
  end.

Fixpoint dropTrailingUnderscores (s : string) : string :=
  match s with
  | String c s' =>
      let r := dropTrailingUnderscores s' in
      if isEmpty r && Ascii.eqb c "_" then EmptyString else String c r
  | EmptyString => EmptyString
  end.

(** [s.replace(/^_+|_+$/g, '')] *)
Definition stripUnderscores (s : string) : string :=
  dropTrailingUnderscores (dropUnderscores s).

(** [xs.join(sep)] *)
Fixpoint join (sep : string) (xs : list string) : string :=
  match xs with
  | [] => EmptyString
  | [x] => x
  | x :: rest => x ++ sep ++ join sep rest
  end.

Fixpoint repeat0 (n : nat) : string :=
  match n with O => EmptyString | S k => String "0" (repeat0 k) end.

(** [xs.includes(s)] and [set.has(s)] on strings *)
Definition mem (s : string) (xs : list string) : bool :=
  existsb (String.eqb s) xs.

End Str.

(* ================================================================== *)
(** * Part 2. Numbers *)
(* ================================================================== *)

Module Num.

(** A JavaScript Number: IEEE-754 binary64. *)
Definition number : Type := spec_float.

Definition prec : Z := 53.
Definition emax : Z := 1024.

Definition NaN : number := S754_nan.
Definition Infinity : number := S754_infinity false.
Definition zero : number := S754_zero false.

Definition add : number -> number -> number := SFadd prec emax.
Definition sub : number -> number -> number := SFsub prec emax.
Definition div : number -> number -> number := SFdiv prec emax.

(** The Number nearest to an integer (ties to even). *)
Definition ofZ (z : Z) : number := binary_normalize prec emax z 0 false.

(** The Number nearest to [(-1)^neg * p / q] (ties to even). *)
Definition ofRatio (neg : bool) (p q : positive) : number :=
  SFdiv prec emax (S754_finite neg p 0) (S754_finite false q 0).

(** [Number.isFinite(x)] on a Number *)
Definition isFinite (x : number) : bool :=
  match x with
  | S754_zero _ | S754_finite _ _ _ => true
  | S754_infinity _ | S754_nan => false
  end.

Definition isNaN (x : number) : bool :=
  match x with S754_nan => true | _ => false end.

(** The exact value of a finite Number. *)
Definition toQ (x : number) : Q :=
  match x with
  | S754_finite s m e => inject_Z (cond_Zopp s (Zpos m)) * (2 ^ e)
  | _ => 0
  end%Q.

(** The comparison of two Numbers by their exact values; [None] when
    one of them is NaN (IsLessThan gives undefined). *)
Definition compare (x y : number) : option comparison :=
  match x, y with
  | S754_nan, _ | _, S754_nan => None
  | S754_infinity sx, S754_infinity sy =>
      Some (match sx, sy with
            | true, false => Lt
            | false, true => Gt
            | _, _ => Eq
            end)
  | S754_infinity s, _ => Some (if s then Lt else Gt)
  | _, S754_infinity s => Some (if s then Gt else Lt)
  | _, _ => Some (toQ x ?= toQ y)%Q
  end.

(** [x < y], [x > y], [x === y] and [x !== y] on Numbers *)
Definition ltb (x y : number) : bool :=
  match compare x y with Some Lt => true | _ => false end.
Definition gtb (x y : number) : bool := ltb y x.
Definition eqb (x y : number) : bool :=
  match compare x y with Some Eq => true | _ => false end.
Definition neqb (x y : number) : bool := negb (eqb x y).

(** ** Decimal digits *)

Definition digitsOfN (n : N) : string :=
  DecimalString.NilZero.string_of_uint (N.to_uint n).

Definition digitVal (c : ascii) : Z := Z.of_N (Str.code c) - 48.

(** The integer a string of decimal digits denotes. *)
Fixpoint digitsValue (acc : Z) (s : string) : Z :=
  match s with
  | String c s' => digitsValue (10 * acc + digitVal c) s'
  | EmptyString => acc
  end.

(** Splits a string into its longest prefix of decimal digits and the
    rest. *)
Fixpoint spanDigits (s : string) : string * string :=
  match s with
  | String c s' =>
      if Str.isDigit c
      then let '(d, r) := spanDigits s' in (String c d, r)
      else (EmptyString, s)
  | EmptyString => (EmptyString, EmptyString)
  end.

(** The Number nearest to [(-1)^neg * m * 10^e].  A value of at least
    [10^400] is beyond every finite Number and one below [10^(-400)]
    is below half the least positive Number, so powers of ten are only
    computed for exponents of moderate size. *)
Definition ofDecimal (neg : bool) (m : Z) (e : Z) : number :=
  match m with
  | Zpos p =>
      let d := Z.of_nat (String.length (digitsOfN (Npos p))) in
      if 400 <? e + d - 1 then S754_infinity neg
      else if e + d <? -400 then S754_zero neg
      else if 0 <=? e
           then binary_normalize prec emax (cond_Zopp neg (m * 10 ^ e)) 0 neg
           else ofRatio neg p (Z.to_pos (10 ^ (- e)))
  | _ => S754_zero neg
  end.

(** ** StringToNumber (the conversion [Number(s)] applies to a string) *)

Definition radixDigit (radix : Z) (c : ascii) : option Z :=
  let n := Z.of_N (Str.code c) in
  let v := if (48 <=? n) && (n <=? 57) then n - 48
           else if (97 <=? n) && (n <=? 102) then n - 87
           else if (65 <=? n) && (n <=? 70) then n - 55
           else 16 in
  if v <? radix then Some v else None.

Fixpoint radixValue (radix : Z) (acc : Z) (s : string) : option Z :=
  match s with
  | String c s' =>
      match radixDigit radix c with
      | Some v => radixValue radix (radix * acc + v) s'
      | None => None
      end
  | EmptyString => Some acc
  end.

(** [0x], [0o] and [0b] literals: at least one digit, no sign. *)
Definition parseRadix (radix : Z) (digits : string) : number :=
  match digits with
  | EmptyString => NaN
  | _ => match radixValue radix 0 digits with
         | Some v => ofZ v
         | None => NaN
         end
  end.

(** The exponent part of a decimal literal: empty, or [e] or [E], an
    optional sign and at least one digit, up to the end of the string. *)
Definition parseExponent (s : string) : option Z :=
  match s with
  | EmptyString => Some 0
  | String c s' =>
      if Ascii.eqb c "e" || Ascii.eqb c "E" then
        let '(neg, s'') :=
          match s' with
          | String "-" t => (true, t)
          | String "+" t => (false, t)
          | _ => (false, s')
          end in
        let '(d, r) := spanDigits s'' in
        if Str.isEmpty d || negb (Str.isEmpty r) then None
        else Some (cond_Zopp neg (digitsValue 0 d))
      else None
  end.

(** An unsigned decimal literal: digits with an optional fraction, or
    a fraction alone, then the exponent part. *)
Definition parseUnsignedDecimal (neg : bool) (s : string) : number :=
  let '(ip, r1) := spanDigits s in
  let '(fp, r2, dot) :=
    match r1 with
    | String "." t => let '(f, r) := spanDigits t in (f, r, true)
    | _ => (EmptyString, r1, false)
    end in
  if Str.isEmpty ip && Str.isEmpty fp then NaN
  else match parseExponent r2 with
       | Some ex =>
           ofDecimal neg (digitsValue 0 (ip ++ fp))
                     (ex - Z.of_nat (String.length fp))
       | None => NaN
       end.

Definition parseSigned (neg : bool) (s : string) : number :=
  if String.eqb s "Infinity" then S754_infinity neg
  else parseUnsignedDecimal neg s.

Definition StringToNumber (str : string) : number :=
  match Str.trim str with
  | EmptyString => zero
  | String "0" (String "x" d) | String "0" (String "X" d) => parseRadix 16 d
  | String "0" (String "o" d) | String "0" (String "O" d) => parseRadix 8 d
  | String "0" (String "b" d) | String "0" (String "B" d) => parseRadix 2 d
  | String "+" s => parseSigned false s
  | String "-" s => parseSigned true s
  | s => parseSigned false s
  end.

(** ** Number::toString (radix 10) *)

(** The exact value of a finite non-zero Number as a fraction [a / b]
    of positive integers. *)
Definition fraction (m : positive) (e : Z) : Z * Z :=
  if 0 <=? e then (Zpos m * 2 ^ e, 1) else (Zpos m, 2 ^ (- e)).

Definition nbDigits (z : Z) : Z :=
  Z.of_nat (String.length (digitsOfN (Z.to_N z))).

(** The [n] with [10^(n-1) <= a / b < 10^n]. *)
Definition decimalExponent (a b : Z) : Z :=
  if b <=? a then nbDigits (a / b)
  else let j := nbDigits b - nbDigits a in
       if b <=? a * 10 ^ j then 1 - j else - j.

(** [floor ((a / b) / 10^p)] *)
Definition scaledFloor (a b p : Z) : Z :=
  if 0 <=? p then a / (b * 10 ^ p) else (a * 10 ^ (- p)) / b.

(** Whether [a / b] is nearer to [(s + 1) * 10^p] than to [s * 10^p]
    (on a tie, whether [s] is odd). *)
Definition upperIsCloser (a b p s : Z) : bool :=
  let '(l, r) := if 0 <=? p then (2 * a, (2 * s + 1) * 10 ^ p * b)
                 else (2 * a * 10 ^ (- p), (2 * s + 1) * b) in
  match l ?= r with
  | Gt => true
  | Eq => Z.odd s
  | Lt => false
  end.

(** The least [k] and the [k]-digit integer [s] for which
    [s * 10^(n-k)] converts back to [x], nearest to [x]'s value. *)
Fixpoint shortestDigits (fuel : nat) (x : number) (a b n k : Z) : Z * Z :=
  let p := n - k in
  let s := scaledFloor a b p in
  let lo := eqb (ofDecimal false s p) x in
  let hi := eqb (ofDecimal false (s + 1) p) x in
  if lo && hi then (if upperIsCloser a b p s then s + 1 else s, k)
  else if lo then (s, k)
  else if hi then (s + 1, k)
  else match fuel with
       | S f => shortestDigits f x a b n (k + 1)
       | O => (s, k)
       end.

Definition splitAt (n : nat) (s : string) : string * string :=
  (String.substring 0 n s, String.substring n (String.length s - n) s).

Definition formatExponent (e : Z) : string :=
  (if e <? 0 then "-" else "+") ++ digitsOfN (Z.to_N (Z.abs e)).

(** The digits [ds] of [s] (there are [k] of them) laid out for the
    decimal exponent [n]. *)
Definition layoutDigits (ds : string) (k n : Z) : string :=
  if (k <=? n) && (n <=? 21) then ds ++ Str.repeat0 (Z.to_nat (n - k))
  else if (0 <? n) && (n <=? 21) then
    let '(ip, fp) := splitAt (Z.to_nat n) ds in ip ++ "." ++ fp
  else if (-6 <? n) && (n <=? 0) then
    "0." ++ Str.repeat0 (Z.to_nat (- n)) ++ ds
  else if k =? 1 then ds ++ "e" ++ formatExponent (n - 1)
  else let '(d, rest) := splitAt 1 ds in
       d ++ "." ++ rest ++ "e" ++ formatExponent (n - 1).

Definition positiveToString (m : positive) (e : Z) : string :=
  let '(a, b) := fraction m e in
  let n := decimalExponent a b in
  let '(s, k) := shortestDigits 17 (S754_finite false m e) a b n 1 in
  if s =? 10 ^ k then layoutDigits "1" 1 (n + 1)
  else layoutDigits (digitsOfN (Z.to_N s)) k n.

(** [String(x)] for a Number [x] *)
Definition toString (x : number) : string :=
  match x with
  | S754_nan => "NaN"
  | S754_zero _ => "0"
  | S754_infinity s => if s then "-Infinity" else "Infinity"
  | S754_finite s m e =>
      (if s then "-" else "") ++ positiveToString m e
  end.

(** ** Math.round and toFixed(2) *)

(** [Math.round(x)]: the integer nearest to [x], ties towards
    +Infinity; [floor (x + 1/2)] computed exactly. *)
Definition round (x : number) : number :=
  match x with
  | S754_finite s m e =>
      if 0 <=? e then x
      else let n := Z.shiftr (2 * cond_Zopp s (Zpos m) + 2 ^ (- e)) (1 - e) in
           if n =? 0 then S754_zero s else ofZ n
  | _ => x
  end.

(** [x.toFixed(2)]: for a magnitude below [10^21], the integer [n]
    nearest to [100 * |x|] (the larger on a tie) written with two
    decimals; otherwise [String(x)]. *)
Definition toFixed2 (x : number) : string :=
  match x with
  | S754_finite s m e =>
      let '(a, b) := fraction m e in
      if 10 ^ 21 * b <=? a then toString x
      else let n := (200 * a + b) / (2 * b) in
           let ds := digitsOfN (Z.to_N n) in
           let ds := Str.repeat0 (3 - String.length ds) ++ ds in
           let '(ip, fp) := splitAt (String.length ds - 2) ds in
           (if s then "-" else "") ++ ip ++ "." ++ fp
  | S754_zero _ => "0.00"
  | _ => toString x
  end.

End Num.

(* ================================================================== *)
(** * Part 3. Values, records and the two libraries *)
(* ================================================================== *)

Module Js.
Import Num.

#[local] Set Warnings "-register-all".

(** What [JSON.parse] returns. *)
Inductive json : Type :=
  | JNull
  | JBool (b : bool)
  | JNum (n : number)
  | JStr (s : string)
  | JArr (items : list json)
  | JObj (fields : list (string * json)).

(** A value a cell of a row or a configuration entry can hold.  An
    array or a plain object is only ever tested for truth and converted
    to text by the scripts, so it is represented by the text [String]
    gives for it. *)
Inductive value : Type :=
  | VUndefined
  | VNull
  | VBool (b : bool)
  | VNum (n : number)
  | VStr (s : string)
  | VObject (text : string).

(** [String(j)]; inside [Array.prototype.join] a [null] element gives
    the empty string. *)
Fixpoint jsonToString (j : json) : string :=
  match j with
  | JNull => "null"
  | JBool b => if b then "true" else "false"
  | JNum n => Num.toString n
  | JStr s => s
  | JArr items =>
      Str.join ","
        (map (fun i => match i with JNull => EmptyString | _ => jsonToString i end)
             items)
  | JObj _ => "[object Object]"
  end.

Definition ofJson (j : json) : value :=
  match j with
  | JNull => VNull
  | JBool b => VBool b
  | JNum n => VNum n
  | JStr s => VStr s
  | JArr _ | JObj _ => VObject (jsonToString j)
  end.

(** [String(v)] *)
Definition toString (v : value) : string :=
  match v with
  | VUndefined => "undefined"
  | VNull => "null"
  | VBool b => if b then "true" else "false"
  | VNum n => Num.toString n
  | VStr s => s
  | VObject text => text
  end.

(** [Number(v)] *)
Definition toNumber (v : value) : number :=
  match v with
  | VUndefined => NaN
  | VNull => zero
  | VBool b => if b then ofZ 1 else zero
  | VNum n => n
  | VStr s => StringToNumber s
  | VObject text => StringToNumber text
  end.

(** [!v] *)
Definition falsy (v : value) : bool :=
  match v with
  | VUndefined | VNull => true
  | VBool b => negb b
  | VNum n => isNaN n || eqb n zero
  | VStr s => Str.isEmpty s
  | VObject _ => false
  end.

(** [v ?? d] *)
Definition orElse (v d : value) : value :=
  match v with
  | VUndefined | VNull => d
  | _ => v
  end.

(** [n !== v] for a Number [n]: strict inequality never converts. *)
Definition strictNe (n : number) (v : value) : bool :=
  match v with
  | VNum m => neqb n m
  | _ => true
  end.

(** ** Objects used as records, and Maps *)

Section Assoc.
Context {V : Type}.

(** [map.get(k)], and [obj[k]] on own properties *)
Fixpoint get (k : string) (m : list (string * V)) : option V :=
  match m with
  | (k', v) :: rest => if String.eqb k k' then Some v else get k rest
  | [] => None
  end.

(** [map.has(k)], and [hasOwnProperty] *)
Definition has (k : string) (m : list (string * V)) : bool :=
  match get k m with Some _ => true | None => false end.

(** [map.set(k, v)], and [obj[k] = v]: an existing key keeps its
    position, a new key goes last. *)
Fixpoint set (k : string) (v : V) (m : list (string * V)) : list (string * V) :=
  match m with
  | (k', v') :: rest =>
    if String.eqb k k' then (k, v) :: rest else (k', v') :: set k v rest
  | [] => [(k, v)]
  end.
End Assoc.

(** A row read from a source: field name to cell. *)
Definition record : Type := list (string * value).

(** [row[k]] and [row.k] *)
Definition prop (row : record) (k : string) : value :=
  match get k row with Some v => v | None => VUndefined end.

(** A row of a delimited file parsed with [header: true]: every cell
    is a string. *)
Definition csvRow : Type := list (string * string).

Definition csvProp (row : csvRow) (k : string) : value :=
  match get k row with Some s => VStr s | None => VUndefined end.

Definition ofCsvRow (row : csvRow) : record :=
  map (fun kv => (fst kv, VStr (snd kv))) row.

(** The result of [Papa.parse(content, {header: true, skipEmptyLines:
    true})]: the rows and the messages of the errors. *)
Record PapaResult : Type := {
  data : list csvRow;
  errors : list string
}.

(** The two library functions.  [JSON_parse] gives [None] where
    [JSON.parse] throws a SyntaxError. *)
Record Library : Type := {
  JSON_parse : string -> option json;
  Papa_parse : string -> PapaResult
}.

(** ** Array.prototype.sort and slice *)

Section Sort.
Context {A : Type}.
Variable comparator : A -> A -> number.

(** [x] goes before the first element it does not have to follow:
    [comparator x y > 0] sorts [y] first; zero, a negative result
    and NaN leave [x] first. *)
Fixpoint insert (x : A) (l : list A) : list A :=
  match l with
  | y :: l' => if gtb (comparator x y) zero then y :: insert x l' else x :: l
  | [] => [x]
  end.

(** [xs.sort(comparator)]: the sort is stable.  For a comparator
    that is not consistent the order is implementation-defined; this
    insertion order is then one of the permitted results. *)
Definition sort (l : list A) : list A := fold_right insert [] l.

(** [xs.slice(0, n)] for an integer [n]: a negative [n] counts from
    the end. *)
Definition slice0 (n : Z) (l : list A) : list A :=
  let len := Z.of_nat (List.length l) in
  let final := if n <? 0 then Z.max (len + n) 0 else Z.min n len in
  firstn (Z.to_nat final) l.
End Sort.

(** ** Results of functions that may throw *)

Inductive error : Type :=
  | SourceFileEmpty
  | CsvParsingFailed (messages : list string)
  | JsonSyntaxError
  | UnexpectedCensusJson
  | TypeError
  | TaxZeroRows
  | PopulationZeroRows
  | MissingSourceFile
  | ReadFailed
  | NoPopulationRows.

Inductive result (A : Type) : Type :=
  | Ok (a : A)
  | Throw (e : error).
Arguments Ok {A} a.
Arguments Throw {A} e.

Definition bind {A B : Type} (r : result A) (k : A -> result B) : result B :=
  match r with
  | Ok a => k a
  | Throw e => Throw e
  end.

Fixpoint mapM {A B : Type} (f : A -> result B) (l : list A) : result (list B) :=
  match l with
  | [] => Ok []
  | x :: rest =>
      bind (f x) (fun y => bind (mapM f rest) (fun ys => Ok (y :: ys)))
  end.

End Js.

Notation "x <- r ;; k" := (Js.bind r (fun x => k))
  (at level 61, r at next level, right associativity).

(* ================================================================== *)
(** * Part 4. scripts/normalize-census-sources.mjs *)
(* ================================================================== *)

(** The roster of the fifty states; both scripts hold the same [Set]. *)
Definition VALID_STATES : list string :=
  [ "Alabama"; "Alaska"; "Arizona"; "Arkansas"; "California"; "Colorado";
    "Connecticut"; "Delaware"; "Florida"; "Georgia"; "Hawaii"; "Idaho";
    "Illinois"; "Indiana"; "Iowa"; "Kansas"; "Kentucky"; "Louisiana";
    "Maine"; "Maryland"; "Massachusetts"; "Michigan"; "Minnesota";
    "Mississippi"; "Missouri"; "Montana"; "Nebraska"; "Nevada";
    "New Hampshire"; "New Jersey"; "New Mexico"; "New York";
    "North Carolina"; "North Dakota"; "Ohio"; "Oklahoma"; "Oregon";
    "Pennsylvania"; "Rhode Island"; "South Carolina"; "South Dakota";
    "Tennessee"; "Texas"; "Utah"; "Vermont"; "Virginia"; "Washington";
    "West Virginia"; "Wisconsin"; "Wyoming" ].

Module Normalize.
Import Num Js.

Definition CENSUS_TAX_CODE_TO_TYPE : list (string * string) :=
  [ ("LF0022", "Individual income tax");
    ("LF0023", "Corporate income tax");
    ("LF0011", "General sales tax");
    ("LF0012", "Selective sales tax");
    ("LF0009", "Property tax");
    ("LF0033", "Other tax") ].

Definition LICENSE_CODES : list string :=
  [ "LF0024"; "LF0025"; "LF0026"; "LF0027"; "LF0028"; "LF0029";
    "LF0030"; "LF0031"; "LF0032" ].

Definition parseNumeric (value : value) : number :=
  match value with
  | VNum n => if isFinite n then n else zero
  | _ =>
      if falsy value then zero
      else
        let normalized :=
          Str.trim (Str.replaceParens (Str.removeCurrency (toString value))) in
        let parsed := StringToNumber normalized in
        if isFinite parsed then parsed else zero
  end.

Definition normalizeState (value : value) : string :=
  Str.trim (toString (orElse value (VStr ""))).

(** The configuration, [data/config/source-download.config.json]: the
    target year and the column aliases of each logical field. *)
Record TaxAliases : Type := {
  tax_state : list string;
  tax_year : list string;
  tax_taxType : list string;
  tax_stateTaxRevenue : list string;
  tax_localTaxRevenue : list string
}.

Record PopulationAliases : Type := {
  population_state : list string;
  population_year : list string;
  population_population : list string
}.

Record Config : Type := {
  year : value;
  normalization_tax : TaxAliases;
  normalization_population : PopulationAliases
}.

(** ** Reading the sources *)

Definition parseCsv (lib : Library) (content : string) : result (list record) :=
  let parsed := Papa_parse lib content in
  match errors parsed with
  | [] => Ok (map ofCsvRow (data parsed))
  | msgs => Throw (CsvParsingFailed msgs)
  end.

(** [row[index]] for an element [row] of the decoded array: reading a
    property of [null] throws. *)
Definition element (row : json) (index : nat) : result value :=
  match row with
  | JNull => Throw TypeError
  | JArr items =>
      Ok (match nth_error items index with
          | Some j => ofJson j
          | None => VUndefined
          end)
  | JStr s =>
      Ok (match String.get index s with
          | Some c => VStr (String c EmptyString)
          | None => VUndefined
          end)
  | JObj fields =>
      Ok (match get (digitsOfN (N.of_nat index)) fields with
          | Some j => ofJson j
          | None => VUndefined
          end)
  | JBool _ | JNum _ => Ok VUndefined
  end.

(** [output[header] = v]; assigning to [__proto__] creates no own
    property. *)
Definition assign (output : record) (header : json) (v : value) : record :=
  let key := jsonToString header in
  if String.eqb key "__proto__" then output else set key v output.

(** [headers.forEach((header, index) => { output[header] = row[index] })] *)
Fixpoint zipHeaders (headers : list json) (index : nat) (row : json)
         (output : record) : result record :=
  match headers with
  | [] => Ok output
  | header :: rest =>
      v <- element row index ;;
      zipHeaders rest (S index) row (assign output header v)
  end.

Definition isArray (j : json) : bool :=
  match j with JArr _ => true | _ => false end.

Definition parseCensusApiJson (lib : Library) (content : string)
  : result (list record) :=
  match JSON_parse lib content with
  | None => Throw JsonSyntaxError
  | Some parsed =>
      match parsed with
      | JArr items =>
          if (List.length items <? 2)%nat
             || negb (isArray (nth 0 items JNull))
          then Throw UnexpectedCensusJson
          else
            match items with
            | JArr headers :: rows =>
                mapM (fun row => zipHeaders headers 0 row []) rows
            | _ => Throw UnexpectedCensusJson
            end
      | _ => Throw UnexpectedCensusJson
      end
  end.

(** [content] is what [readFile] gives for the source; the three reads
    of the script see the same content. *)
Definition parseSourceRows (lib : Library) (content : string)
  : result (list record) :=
  let trimmed := Str.trim content in
  if Str.isEmpty trimmed then Throw SourceFileEmpty
  else if Str.startsWith "[" trimmed then parseCensusApiJson lib content
  else parseCsv lib content.

Fixpoint pickColumn (row : record) (aliases : list string) : value :=
  match aliases with
  | alias :: rest =>
      if has alias row then prop row alias else pickColumn row rest
  | [] => VUndefined
  end.

(** ** Normalisation of tax rows *)

Record TaxRow : Type := {
  state : string;
  row_year : number;
  tax_type : string;
  state_tax_revenue : number;
  local_tax_revenue : number
}.

(** The template string that keys the bucket Map. *)
Definition mapKey (state : string) (year : number) (taxType : string) : string :=
  state ++ "||" ++ Num.toString year ++ "||" ++ taxType.

(** [CENSUS_TAX_CODE_TO_TYPE.get(code)], then the licence codes; [None]
    stands for [undefined], the only falsy outcome. *)
Definition taxTypeOfCode (code : string) : option string :=
  match get code CENSUS_TAX_CODE_TO_TYPE with
  | Some taxType => Some taxType
  | None => if Str.mem code LICENSE_CODES then Some "License tax" else None
  end.

(** [current.state_tax_revenue += amount] *)
Definition addStateRevenue (current : TaxRow) (amount : number) : TaxRow :=
  {| state := current.(state); row_year := current.(row_year);
     tax_type := current.(tax_type);
     state_tax_revenue := add current.(state_tax_revenue) amount;
     local_tax_revenue := current.(local_tax_revenue) |}.

(** [current.local_tax_revenue += amount] *)
Definition addLocalRevenue (current : TaxRow) (amount : number) : TaxRow :=
  {| state := current.(state); row_year := current.(row_year);
     tax_type := current.(tax_type);
     state_tax_revenue := current.(state_tax_revenue);
     local_tax_revenue := add current.(local_tax_revenue) amount |}.

(** One iteration of the loop of [normalizeTaxFromCensusApiRows]. *)
Definition accumulateRow (config : Config) (bucket : list (string * TaxRow))
           (row : record) : list (string * TaxRow) :=
  let state :=
    normalizeState (orElse (orElse (prop row "NAME") (prop row "state"))
                           (prop row "State")) in
  let year :=
    toNumber (orElse (orElse (prop row "YEAR") (prop row "year"))
                     (year config)) in
  let code := Str.trim (toString (orElse (prop row "AGG_DESC") (VStr ""))) in
  let govType := Str.trim (toString (orElse (prop row "GOVTYPE") (VStr ""))) in
  if Str.isEmpty state || negb (Str.mem state VALID_STATES)
     || Str.isEmpty code || negb (Str.mem govType ["002"; "003"])
  then bucket
  else
    match taxTypeOfCode code with
    | None => bucket
    | Some taxType =>
        let amount := parseNumeric (prop row "AMOUNT") in
        let key := mapKey state year taxType in
        let current :=
          match get key bucket with
          | Some b => b
          | None => {| state := state; row_year := year; tax_type := taxType;
                       state_tax_revenue := zero; local_tax_revenue := zero |}
          end in
        let current :=
          if String.eqb govType "002" then addStateRevenue current amount
          else current in
        let current :=
          if String.eqb govType "003" then addLocalRevenue current amount
          else current in
        set key current bucket
    end.

(** The bucket Map when the loop has run. *)
Definition accumulate (config : Config) (rows : list record)
  : list (string * TaxRow) :=
  fold_left (accumulateRow config) rows [].

(** The predicate of the final [filter]. *)
Definition kept (row : TaxRow) : bool :=
  gtb row.(state_tax_revenue) zero || gtb row.(local_tax_revenue) zero.

Definition normalizeTaxFromCensusApiRows (rows : list record) (config : Config)
  : list TaxRow :=
  filter kept (map snd (accumulate config rows)).

(** The other branch of [normalizedTaxRows] in [run]: rows that already
    carry the amounts under configurable column names. *)
Definition aliasedTaxRow (config : Config) (row : record) : TaxRow :=
  let a := normalization_tax config in
  {| state := normalizeState (pickColumn row (tax_state a));
     row_year := toNumber (orElse (pickColumn row (tax_year a)) (year config));
     tax_type := Str.trim (toString (orElse (pickColumn row (tax_taxType a)) (VStr "")));
     state_tax_revenue := parseNumeric (pickColumn row (tax_stateTaxRevenue a));
     local_tax_revenue := parseNumeric (pickColumn row (tax_localTaxRevenue a)) |}.

Definition aliasedTaxRowKept (row : TaxRow) : bool :=
  negb (Str.isEmpty row.(state)) && negb (Str.isEmpty row.(tax_type))
  && Str.mem row.(state) VALID_STATES.

Definition normalizeAliasedTaxRows (rows : list record) (config : Config)
  : list TaxRow :=
  filter aliasedTaxRowKept (map (aliasedTaxRow config) rows).

Definition taxRowsLookLikeCensusApi (taxRows : list record) : bool :=
  match taxRows with
  | first :: _ => has "AGG_DESC" first && has "GOVTYPE" first && has "AMOUNT" first
  | [] => false
  end.

Definition normalizedTaxRows (taxRows : list record) (config : Config)
  : list TaxRow :=
  if taxRowsLookLikeCensusApi taxRows
  then normalizeTaxFromCensusApiRows taxRows config
  else normalizeAliasedTaxRows taxRows config.

(** ** Normalisation of population rows *)

Record PopulationRow : Type := {
  pop_state : string;
  pop_year : number;
  population : number
}.

Definition populationRow (config : Config) (row : record) : PopulationRow :=
  let a := normalization_population config in
  {| pop_state := normalizeState (pickColumn row (population_state a));
     pop_year := toNumber (orElse (pickColumn row (population_year a)) (year config));
     population := round (parseNumeric (pickColumn row (population_population a))) |}.

Definition populationRowKept (row : PopulationRow) : bool :=
  negb (Str.isEmpty row.(pop_state)) && gtb row.(population) zero
  && Str.mem row.(pop_state) VALID_STATES.

Definition normalizedPopulationRows (rows : list record) (config : Config)
  : list PopulationRow :=
  filter populationRowKept (map (populationRow config) rows).

(** [run] up to the two normalised tables, which it then writes out. *)
Definition run (lib : Library) (config : Config) (taxContent populationContent : string)
  : result (list TaxRow * list PopulationRow) :=
  taxRows <- parseSourceRows lib taxContent ;;
  populationRows <- parseSourceRows lib populationContent ;;
  let tax := normalizedTaxRows taxRows config in
  let pop := normalizedPopulationRows populationRows config in
  match tax, pop with
  | [], _ => Throw TaxZeroRows
  | _, [] => Throw PopulationZeroRows
  | _, _ => Ok (tax, pop)
  end.

End Normalize.

(* ================================================================== *)
(** * Part 5. scripts/ingest-state-tax-data.mjs *)
(* ================================================================== *)

Module Ingest.
Import Num Js.

Definition parseNumeric (value : value) : number :=
  match value with
  | VNum n => if isFinite n then n else zero
  | _ =>
      if falsy value then zero
      else
        let normalized :=
          Str.trim (Str.replaceParens (Str.removeCurrency (toString value))) in
        let parsed := StringToNumber normalized in
        if isFinite parsed then parsed else zero
  end.

Definition normalizeState (value : value) : string :=
  Str.trim (toString (orElse value (VStr ""))).

Definition toTaxTypeKey (value : value) : string :=
  Str.stripUnderscores
    (Str.collapseRuns false
       (Str.toLowerCase (Str.trim (toString (orElse value (VStr "")))))).

(** What [readFile] does with a source path. *)
Inductive fileRead : Type :=
  | FileMissing
  | FileUnreadable
  | FileContent (content : string).

Definition readCsv (lib : Library) (file : fileRead) : result (list csvRow) :=
  match file with
  | FileMissing => Throw MissingSourceFile
  | FileUnreadable => Throw ReadFailed
  | FileContent content =>
      let parsed := Papa_parse lib content in
      match errors parsed with
      | [] => Ok (data parsed)
      | msgs => Throw (CsvParsingFailed msgs)
      end
  end.

(** The configuration, [data/config/ingestion.config.json]; the number
    of states to select is an integer. *)
Record TaxColumns : Type := {
  tax_state : string;
  tax_year : string;
  tax_taxType : string;
  tax_stateTaxRevenue : string;
  tax_localTaxRevenue : string
}.

Record PopulationColumns : Type := {
  population_state : string;
  population_year : string;
  population_population : string
}.

Record Config : Type := {
  year : value;
  topNStates : Z;
  columns_tax : TaxColumns;
  columns_population : PopulationColumns;
  taxTypeMap : option (list (string * string));
  taxTypeLabels : option (list (string * string))
}.

(** ** The population loop *)

(** The year test both loops start with: [true] when the row is skipped. *)
Definition otherYear (config : Config) (cell : value) : bool :=
  let rowYear := toNumber cell in
  isFinite rowYear && strictNe rowYear (year config).

(** One iteration of the loop over [populationRows]. *)
Definition populationStep (config : Config)
           (populationByState : list (string * number)) (row : csvRow)
  : list (string * number) :=
  let populationColumns := columns_population config in
  if otherYear config (csvProp row (population_year populationColumns))
  then populationByState
  else
    let state := normalizeState (csvProp row (population_state populationColumns)) in
    if Str.isEmpty state || negb (Str.mem state VALID_STATES)
    then populationByState
    else
      let population :=
        parseNumeric (csvProp row (population_population populationColumns)) in
      if gtb population zero then set state population populationByState
      else populationByState.

Definition populationByState (config : Config) (populationRows : list csvRow)
  : list (string * number) :=
  fold_left (populationStep config) populationRows [].

(** [[...populationByState.entries()].sort((a, b) => b[1] - a[1])
    .slice(0, config.topNStates).map(([state]) => state)] *)
Definition byPopulation (a b : string * number) : number := sub (snd b) (snd a).

Definition topStates (config : Config) (populationByState : list (string * number))
  : list string :=
  map fst (slice0 (topNStates config) (sort byPopulation populationByState)).

(** The population resolver: the population Map and the selected
    states, or the error of an empty Map. *)
Definition resolvePopulation (config : Config) (populationRows : list csvRow)
  : result (list (string * number) * list string) :=
  let byState := populationByState config populationRows in
  match byState with
  | [] => Throw NoPopulationRows
  | _ => Ok (byState, topStates config byState)
  end.

(** ** The aggregation loop *)

Record Aggregated : Type := {
  state : string;
  population : number;
  totalRevenue : number;
  breakdown : list (string * number)
}.

Record Loop : Type := {
  stateAggregation : list (string * Aggregated);
  taxTypeOrder : list string;
  taxTypeSeen : list string
}.

Definition emptyLoop : Loop :=
  {| stateAggregation := []; taxTypeOrder := []; taxTypeSeen := [] |}.

(** [config.taxTypeMap?.[rawTaxType] ?? toTaxTypeKey(rawTaxType)] *)
Definition taxTypeKeyOf (config : Config) (rawTaxType : string) : string :=
  match taxTypeMap config with
  | Some m => match get rawTaxType m with
              | Some key => key
              | None => toTaxTypeKey (VStr rawTaxType)
              end
  | None => toTaxTypeKey (VStr rawTaxType)
  end.

(** [existing.breakdown[taxTypeKey] = (existing.breakdown[taxTypeKey] ?? 0) + totalTax]
    and [existing.totalRevenue += totalTax] *)
Definition addTax (existing : Aggregated) (taxTypeKey : string) (totalTax : number)
  : Aggregated :=
  let previous := match get taxTypeKey existing.(breakdown) with
                  | Some v => v
                  | None => zero
                  end in
  {| state := existing.(state);
     population := existing.(population);
     totalRevenue := add existing.(totalRevenue) totalTax;
     breakdown := set taxTypeKey (add previous totalTax) existing.(breakdown) |}.

(** One iteration of the loop over [taxRows]. *)
Definition taxStep (config : Config) (populationByState : list (string * number))
           (topStateSet : list string) (loop : Loop) (row : csvRow) : Loop :=
  let taxColumns := columns_tax config in
  if otherYear config (csvProp row (tax_year taxColumns)) then loop
  else
    let state := normalizeState (csvProp row (tax_state taxColumns)) in
    if negb (Str.mem state topStateSet) then loop
    else
      let rawTaxType :=
        Str.trim (toString (orElse (csvProp row (tax_taxType taxColumns)) (VStr ""))) in
      if Str.isEmpty rawTaxType then loop
      else
        let taxTypeKey := taxTypeKeyOf config rawTaxType in
        let '(order, seen) :=
          if negb (Str.mem taxTypeKey loop.(taxTypeSeen))
          then ((loop.(taxTypeOrder) ++ [taxTypeKey])%list,
                (loop.(taxTypeSeen) ++ [taxTypeKey])%list)
          else (loop.(taxTypeOrder), loop.(taxTypeSeen)) in
        let stateTax := parseNumeric (csvProp row (tax_stateTaxRevenue taxColumns)) in
        let localTax := parseNumeric (csvProp row (tax_localTaxRevenue taxColumns)) in
        let totalTax := add stateTax localTax in
        let existing :=
          match get state loop.(stateAggregation) with
          | Some e => e
          | None =>
              {| state := state;
                 population := match get state populationByState with
                               | Some p => p
                               | None => zero
                               end;
                 totalRevenue := zero;
                 breakdown := [] |}
          end in
        {| stateAggregation :=
             set state (addTax existing taxTypeKey totalTax) loop.(stateAggregation);
           taxTypeOrder := order;
           taxTypeSeen := seen |}.

Definition aggregate (config : Config) (populationByState : list (string * number))
           (topStateSet : list string) (taxRows : list csvRow) : Loop :=
  fold_left (taxStep config populationByState topStateSet) taxRows emptyLoop.

(** ** The payload *)

Record StateRecord : Type := {
  out_state : string;
  out_population : number;
  out_totalRevenue : number;
  out_breakdown : list (string * number);
  perCapitaTotal : number
}.

(** [x || 0] on a Number *)
Definition orZero (x : number) : number :=
  if falsy (VNum x) then zero else x.

(** The callback of [map] over the aggregated states. *)
Definition finishState (s : Aggregated) : StateRecord :=
  let population' := orZero s.(population) in
  let perCapitaTotal' :=
    if gtb population' zero then div s.(totalRevenue) population' else zero in
  {| out_state := s.(state);
     out_population := s.(population);
     out_totalRevenue := round s.(totalRevenue);
     out_breakdown := s.(breakdown);
     perCapitaTotal := StringToNumber (toFixed2 perCapitaTotal') |}.

Definition byTotalRevenue (a b : StateRecord) : number :=
  sub b.(out_totalRevenue) a.(out_totalRevenue).

Record Metadata : Type := {
  meta_year : value;
  currency : string;
  scope : string;
  topN : Z;
  notes : list string;
  generatedAt : string
}.

Record TaxType : Type := {
  key : string;
  label : string
}.

Record Payload : Type := {
  metadata : Metadata;
  taxTypes : list TaxType;
  states : list StateRecord
}.

(** [config.taxTypeLabels?.[key] ?? key] *)
Definition labelOf (config : Config) (k : string) : string :=
  match taxTypeLabels config with
  | Some m => match get k m with Some l => l | None => k end
  | None => k
  end.

(** [run]: [taxFile] and [populationFile] are what reading the two
    source paths gives, [now] is [new Date().toISOString()].  The
    result is the payload the script writes. *)
Definition run (lib : Library) (config : Config) (taxFile populationFile : fileRead)
           (now : string) : result Payload :=
  taxRows <- readCsv lib taxFile ;;
  populationRows <- readCsv lib populationFile ;;
  resolved <- resolvePopulation config populationRows ;;
  let '(byState, top) := resolved in
  let loop := aggregate config byState top taxRows in
  let states :=
    sort byTotalRevenue (map finishState (map snd loop.(stateAggregation))) in
  Ok {| metadata :=
          {| meta_year := year config;
             currency := "USD";
             scope := "state+local";
             topN := topNStates config;
             notes := [ "Nominal dollars.";
                        "Top states selected by population for the same year." ];
             generatedAt := now |};
        taxTypes :=
          map (fun k => {| key := k; label := labelOf config k |}) loop.(taxTypeOrder);
        states := states |}.

End Ingest.

(* ================================================================== *)
(** * Part 6. Notions the statements use *)
(* ================================================================== *)

Module Notions.
Import Num Js.

(** ** Numbers *)

(** The least exponent of binary64. *)
Definition emin : Z := -1074.

(** A finite Number is well formed when its exponent is not below
    [emin]; every Number the conversions and the arithmetic produce
    is. *)
Definition wf (x : number) : bool :=
  match x with
  | S754_finite _ _ e => emin <=? e
  | _ => true
  end.

(** [r] is a non-zero finite Number or an infinity, of sign [s]. *)
Definition signed (s : bool) (r : number) : Prop :=
  match r with
  | S754_finite s' _ _ | S754_infinity s' => s' = s
  | _ => False
  end.

(** [b] does not come above [a]: the keys are in decreasing order. *)
Definition notBelow {A : Type} (key : A -> number) (a b : A) : Prop :=
  ltb (key a) (key b) = false.

(** The running sum [((0 + x1) + x2) + ...] the loops compute with [+=]. *)
Definition sumLeft (amounts : list number) : number :=
  fold_left add amounts zero.

(** ** Maps *)


Definition note (seen : list string) (k : string) : list string :=
  if Str.mem k seen then seen else (seen ++ [k])%list.

(** The distinct strings of [l], each at the place of its first
    occurrence. *)
Definition firstSeen (l : list string) : list string := fold_left note l [].

Definition put {V : Type} (m : list (string * V)) (kv : string * V)
  : list (string * V) :=
  set (fst kv) (snd kv) m.

Definition somes {A B : Type} (f : A -> option B) (l : list A) : list B :=
  flat_map (fun a => match f a with Some b => [b] | None => [] end) l.

(** ** The population rows that survive filtering *)

(** A population row survives when the year test keeps it, its state
    is in the roster and its population is strictly positive; it then
    contributes its state and population. *)
Definition survivor (config : Ingest.Config) (row : csvRow)
  : option (string * number) :=
  let columns := Ingest.columns_population config in
  let state := Ingest.normalizeState (csvProp row (Ingest.population_state columns)) in
  let population :=
    Ingest.parseNumeric (csvProp row (Ingest.population_population columns)) in
  if negb (Ingest.otherYear config (csvProp row (Ingest.population_year columns)))
     && Str.mem state VALID_STATES && gtb population zero
  then Some (state, population)
  else None.

Definition survivors (config : Ingest.Config) (rows : list csvRow)
  : list (string * number) :=
  somes (survivor config) rows.

(** ** The tax rows the aggregation retains *)

Record Retained : Type := {
  r_state : string;
  r_key : string;
  r_amount : number
}.

(** A tax row is retained when the year test keeps it, its state is
    one of the selected states and its tax type is not blank; it then
    contributes its state, its category key and the sum of its two
    amounts. *)
Definition retainedRow (config : Ingest.Config) (topStateSet : list string)
           (row : csvRow) : option Retained :=
  let columns := Ingest.columns_tax config in
  let state := Ingest.normalizeState (csvProp row (Ingest.tax_state columns)) in
  let rawTaxType :=
    Str.trim (toString (orElse (csvProp row (Ingest.tax_taxType columns)) (VStr ""))) in
  if negb (Ingest.otherYear config (csvProp row (Ingest.tax_year columns)))
     && Str.mem state topStateSet && negb (Str.isEmpty rawTaxType)
  then Some {| r_state := state;
               r_key := Ingest.taxTypeKeyOf config rawTaxType;
               r_amount :=
                 add (Ingest.parseNumeric
                        (csvProp row (Ingest.tax_stateTaxRevenue columns)))
                     (Ingest.parseNumeric
                        (csvProp row (Ingest.tax_localTaxRevenue columns))) |}
  else None.

Definition retained (config : Ingest.Config) (topStateSet : list string)
           (rows : list csvRow) : list Retained :=
  somes (retainedRow config topStateSet) rows.

Definition ofState (s : string) (ts : list Retained) : list Retained :=
  filter (fun t => String.eqb t.(r_state) s) ts.

Definition ofCategory (s k : string) (ts : list Retained) : list Retained :=
  filter (fun t => String.eqb t.(r_key) k) (ofState s ts).

(** The running sum of the amounts retained for a state. *)
Definition stateTotal (s : string) (ts : list Retained) : number :=
  sumLeft (map r_amount (ofState s ts)).

(** The running sum of the amounts retained for a state under one
    category key, when there is any. *)
Definition categoryTotal (s k : string) (ts : list Retained) : option number :=
  match ofCategory s k ts with
  | [] => None
  | l => Some (sumLeft (map r_amount l))
  end.

(** What one retained row does to the state of the aggregation loop. *)
Definition applyRetained (populationByState : list (string * number))
           (loop : Ingest.Loop) (t : Retained) : Ingest.Loop :=
  let existing :=
    match get t.(r_state) loop.(Ingest.stateAggregation) with
    | Some e => e
    | None =>
        {| Ingest.state := t.(r_state);
           Ingest.population := match get t.(r_state) populationByState with
                                | Some p => p
                                | None => zero
                                end;
           Ingest.totalRevenue := zero;
           Ingest.breakdown := [] |}
    end in
  {| Ingest.stateAggregation :=
       set t.(r_state) (Ingest.addTax existing t.(r_key) t.(r_amount))
           loop.(Ingest.stateAggregation);
     Ingest.taxTypeOrder :=
       if Str.mem t.(r_key) loop.(Ingest.taxTypeSeen)
       then loop.(Ingest.taxTypeOrder)
       else (loop.(Ingest.taxTypeOrder) ++ [t.(r_key)])%list;
     Ingest.taxTypeSeen := note loop.(Ingest.taxTypeSeen) t.(r_key) |}.


(** What the aggregation loop holds once the retained rows [ts] are
    processed. *)
Record Holds (byState : list (string * number)) (ts : list Retained)
       (loop : Ingest.Loop) : Prop := {
  holds_keys :
    map fst loop.(Ingest.stateAggregation) = firstSeen (map r_state ts);
  holds_entry :
    forall s a,
      get s loop.(Ingest.stateAggregation) = Some a ->
      a.(Ingest.state) = s
      /\ a.(Ingest.population)
         = match get s byState with Some p => p | None => zero end
      /\ a.(Ingest.totalRevenue) = stateTotal s ts
      /\ forall k, get k a.(Ingest.breakdown) = categoryTotal s k ts;
  holds_seen : loop.(Ingest.taxTypeSeen) = firstSeen (map r_key ts);
  holds_order : loop.(Ingest.taxTypeOrder) = loop.(Ingest.taxTypeSeen)
}.


(** ** Decoded sources *)


(** ** The state a tax row of the normaliser names *)

Definition censusState (row : record) : string :=
  Normalize.normalizeState
    (orElse (orElse (prop row "NAME") (prop row "state")) (prop row "State")).

Definition censusYear (config : Normalize.Config) (row : record) : number :=
  toNumber (orElse (orElse (prop row "YEAR") (prop row "year"))
                   (Normalize.year config)).

Definition censusCode (row : record) : string :=
  Str.trim (toString (orElse (prop row "AGG_DESC") (VStr ""))).

Definition censusGovType (row : record) : string :=
  Str.trim (toString (orElse (prop row "GOVTYPE") (VStr ""))).

Definition aliasedState (config : Normalize.Config) (row : record) : string :=
  Normalize.normalizeState
    (Normalize.pickColumn row
       (Normalize.tax_state (Normalize.normalization_tax config))).

Definition aliasedYear (config : Normalize.Config) (row : record) : number :=
  toNumber
    (orElse (Normalize.pickColumn row
               (Normalize.tax_year (Normalize.normalization_tax config)))
            (Normalize.year config)).

End Notions.

(* ================================================================== *)
(** * Part 7. Concrete inputs *)
(* ================================================================== *)

Module Examples.
Import Num Js Notions.

(** A normaliser configuration with the column names of the project's
    own schema and target year 2023. *)
Definition normalizeConfig : Normalize.Config :=
  {| Normalize.year := VNum (ofZ 2023);
     Normalize.normalization_tax :=
       {| Normalize.tax_state := ["state"];
          Normalize.tax_year := ["year"];
          Normalize.tax_taxType := ["tax_type"];
          Normalize.tax_stateTaxRevenue := ["state_tax_revenue"];
          Normalize.tax_localTaxRevenue := ["local_tax_revenue"] |};
     Normalize.normalization_population :=
       {| Normalize.population_state := ["state"];
          Normalize.population_year := ["year"];
          Normalize.population_population := ["population"] |} |}.

(** A row of the statistical-code shape. *)
Definition censusRow (state : string) (year : value) (code govType amount : string)
  : record :=
  [ ("state", VStr state); ("year", year); ("AGG_DESC", VStr code);
    ("GOVTYPE", VStr govType); ("AMOUNT", VStr amount) ].

(** The two rows of the specification's example. *)
Definition texasRows : list record :=
  [ censusRow "Texas" (VNum (ofZ 2023)) "LF0009" "002" "1,000";
    censusRow "Texas" (VNum (ofZ 2023)) "LF0009" "003" "500" ].

(** A row of the pre-normalised shape. *)
Definition aliasedRow (state year taxType stateRevenue localRevenue : string)
  : record :=
  [ ("state", VStr state); ("year", VStr year); ("tax_type", VStr taxType);
    ("state_tax_revenue", VStr stateRevenue);
    ("local_tax_revenue", VStr localRevenue) ].

(** An ingestion configuration with the column names of the project's
    own schema, target year 2023 and no overrides. *)
Definition ingestConfig (topN : Z) : Ingest.Config :=
  {| Ingest.year := VNum (ofZ 2023);
     Ingest.topNStates := topN;
     Ingest.columns_tax :=
       {| Ingest.tax_state := "state";
          Ingest.tax_year := "year";
          Ingest.tax_taxType := "tax_type";
          Ingest.tax_stateTaxRevenue := "state_tax_revenue";
          Ingest.tax_localTaxRevenue := "local_tax_revenue" |};
     Ingest.columns_population :=
       {| Ingest.population_state := "state";
          Ingest.population_year := "year";
          Ingest.population_population := "population" |};
     Ingest.taxTypeMap := None;
     Ingest.taxTypeLabels := None |}.

Definition populationRow (state year population : string) : csvRow :=
  [ ("state", state); ("year", year); ("population", population) ].

Definition taxRow (state year taxType stateRevenue localRevenue : string) : csvRow :=
  [ ("state", state); ("year", year); ("tax_type", taxType);
    ("state_tax_revenue", stateRevenue); ("local_tax_revenue", localRevenue) ].

(** A library whose delimited parser returns [tax] for the content
    ["tax"] and [population] for any other content, without errors,
    and whose JSON decoder returns [decoded]. *)
Definition library (decoded : option json) (tax population : list csvRow) : Library :=
  {| JSON_parse := fun _ => decoded;
     Papa_parse := fun content =>
       {| data := if String.eqb content "tax" then tax else population;
          errors := [] |} |}.

End Examples.

(* ================================================================== *)
(** * More of the scripts: the tables written, the sources downloaded *)
(* ================================================================== *)

Module Csv.
Import Num Js.

(** The double quote, the comma and the line feed. *)
Definition dquote : ascii := "034"%char.
Definition comma : ascii := ","%char.
Definition lf : ascii := "010"%char.

(** The test of [quoteCsv]: the text holds a double quote, a comma or
    a line feed. *)
Fixpoint needsQuoting (text : string) : bool :=
  match text with
  | String c rest =>
      Ascii.eqb c dquote || Ascii.eqb c comma || Ascii.eqb c lf
      || needsQuoting rest
  | EmptyString => false
  end.

(** The replacement of [quoteCsv]: every double quote is written
    twice. *)
Fixpoint doubleQuotes (text : string) : string :=
  match text with
  | String c rest =>
      if Ascii.eqb c dquote
      then String dquote (String dquote (doubleQuotes rest))
      else String c (doubleQuotes rest)
  | EmptyString => EmptyString
  end.

Definition quoteCsv (value : value) : string :=
  let text := toString (orElse value (VStr "")) in
  if needsQuoting text
  then String dquote (doubleQuotes text ++ String dquote EmptyString)
  else text.

(** The content [writeCsv] writes: the column names, then one line per
    row, each line ended by a line feed. *)
Definition writeCsv (rows : list record) (columns : list string) : string :=
  let lines :=
    Str.join (String comma EmptyString) columns
    :: map (fun row =>
              Str.join (String comma EmptyString)
                       (map (fun column => quoteCsv (prop row column)) columns))
           rows in
  Str.join (String lf EmptyString) lines ++ String lf EmptyString.

(** The normalised rows as the objects [run] hands to [writeCsv]. *)
Definition taxObject (row : Normalize.TaxRow) : record :=
  [ ("state", VStr row.(Normalize.state));
    ("year", VNum row.(Normalize.row_year));
    ("tax_type", VStr row.(Normalize.tax_type));
    ("state_tax_revenue", VNum row.(Normalize.state_tax_revenue));
    ("local_tax_revenue", VNum row.(Normalize.local_tax_revenue)) ].

Definition populationObject (row : Normalize.PopulationRow) : record :=
  [ ("state", VStr row.(Normalize.pop_state));
    ("year", VNum row.(Normalize.pop_year));
    ("population", VNum row.(Normalize.population)) ].

Definition taxColumns : list string :=
  ["state"; "year"; "tax_type"; "state_tax_revenue"; "local_tax_revenue"].

Definition populationColumns : list string := ["state"; "year"; "population"].

(** The two files [run] of the normaliser writes, when it does. *)
Definition written (lib : Library) (config : Normalize.Config)
           (taxContent populationContent : string) : result (string * string) :=
  tables <- Normalize.run lib config taxContent populationContent ;;
  Ok (writeCsv (map taxObject (fst tables)) taxColumns,
      writeCsv (map populationObject (snd tables)) populationColumns).

End Csv.

(** ** The download script (the script behind [data:download]) *)

Module Download.
Import Js.

(** What [fetch(url)] gives: nothing when the request is rejected, or a
    response with its [ok] flag, its status and its text (nothing when
    reading the text is rejected). *)
Record Response : Type := {
  ok : bool;
  status : Z;
  text : option string
}.

(** What the script does to the world, in order. *)
Inductive effect : Type :=
  | MakeDirectoryFor (path : string)
  | Fetch (url : string)
  | WriteFile (path : string) (content : string).

Inductive failure : Type :=
  | MissingUrl (label : string)
  | FetchRejected (url : string)
  | DownloadFailed (status : Z) (url : string)
  | TextRejected (url : string)
  | DownloadedEmpty (url : string).

(** The configuration, [data/config/source-download.config.json]:
    [config.sources?.tax?.url], [config.sources?.population?.url] and
    the two paths of [config.downloads]. *)
Record Config : Type := {
  sources_tax_url : value;
  sources_population_url : value;
  downloads_tax : string;
  downloads_population : string
}.

Definition ensureUrl (value : value) (label : string) : failure + string :=
  let normalized := Str.trim (toString (orElse value (VStr ""))) in
  if Str.isEmpty normalized then inl (MissingUrl label) else inr normalized.

(** [downloadTo]: the effects it adds to [log], and its outcome.  The
    file system accepts the directory and the file. *)
Definition downloadTo (fetch : string -> option Response) (url outputPath : string)
           (log : list effect) : list effect * (failure + string) :=
  let log := (log ++ [MakeDirectoryFor outputPath; Fetch url])%list in
  match fetch url with
  | None => (log, inl (FetchRejected url))
  | Some response =>
      if negb response.(ok) then (log, inl (DownloadFailed response.(status) url))
      else
        match response.(text) with
        | None => (log, inl (TextRejected url))
        | Some text =>
            if Str.isEmpty (Str.trim text) then (log, inl (DownloadedEmpty url))
            else ((log ++ [WriteFile outputPath text])%list, inr outputPath)
        end
  end.

Definition run (fetch : string -> option Response) (config : Config)
  : list effect * (failure + (string * string)) :=
  match ensureUrl config.(sources_tax_url) "tax source" with
  | inl e => ([], inl e)
  | inr taxUrl =>
      match ensureUrl config.(sources_population_url) "population source" with
      | inl e => ([], inl e)
      | inr populationUrl =>
          match downloadTo fetch taxUrl config.(downloads_tax) [] with
          | (log, inl e) => (log, inl e)
          | (log, inr taxOutput) =>
              match downloadTo fetch populationUrl config.(downloads_population) log with
              | (log, inl e) => (log, inl e)
              | (log, inr populationOutput) => (log, inr (taxOutput, populationOutput))
              end
          end
      end
  end.

End Download.

(* ================================================================== *)
(** * More notions the statements use *)
(* ================================================================== *)

Module MoreNotions.
Import Num Js Notions.

(** [-x] on Numbers *)
Definition opp (x : number) : number := SFopp x.

(** A text of decimal digits and points only. *)
Fixpoint plainDecimal (s : string) : bool :=
  match s with
  | String c rest => (Str.isDigit c || Ascii.eqb c ".") && plainDecimal rest
  | EmptyString => true
  end.

Fixpoint allWhiteSpace (s : string) : bool :=
  match s with
  | String c rest => Str.isWhiteSpace c && allWhiteSpace rest
  | EmptyString => true
  end.

Fixpoint noLineTerminator (s : string) : bool :=
  match s with
  | String c rest => negb (Str.isLineTerminator c) && noLineTerminator rest
  | EmptyString => true
  end.

(** ** Category keys *)

(** After a first character: letters and digits, and single
    underscores each followed by a letter or a digit. *)
Fixpoint slugTail (s : string) : bool :=
  match s with
  | String c rest =>
      if Str.isKeyChar c then slugTail rest
      else Ascii.eqb c "_"
           && match rest with
              | String d _ => Str.isKeyChar d
              | EmptyString => false
              end
           && slugTail rest
  | EmptyString => true
  end.

(** The text is empty or starts with a letter or a digit. *)
Definition headKey (s : string) : bool :=
  match s with
  | String d _ => Str.isKeyChar d
  | EmptyString => true
  end.

(** Letters, digits and underscores, no two underscores in a row. *)
Fixpoint collapsed (s : string) : bool :=
  match s with
  | String c rest =>
      if Str.isKeyChar c then collapsed rest
      else Ascii.eqb c "_" && headKey rest && collapsed rest
  | EmptyString => true
  end.

(** The shape of a category key: empty, or lower-case letters and
    digits separated by single underscores. *)
Definition isSlug (s : string) : bool :=
  match s with
  | String c _ => Str.isKeyChar c && slugTail s
  | EmptyString => true
  end.

(** ** Reading a field back *)

(** The text between the quotes of a quoted field, each pair of double
    quotes read as one; the closing quote ends the field. *)
Fixpoint unescape (s : string) : string :=
  match s with
  | String c rest =>
      if Ascii.eqb c Csv.dquote
      then match rest with
           | String d rest' =>
               if Ascii.eqb d Csv.dquote then String Csv.dquote (unescape rest')
               else EmptyString
           | EmptyString => EmptyString
           end
      else String c (unescape rest)
  | EmptyString => EmptyString
  end.

(** A field as a reader of delimited text takes it: a field that
    starts with a double quote is a quoted field. *)
Definition readField (field : string) : string :=
  match field with
  | String c rest => if Ascii.eqb c Csv.dquote then unescape rest else field
  | EmptyString => EmptyString
  end.

(** ** What a row of the statistical-code shape contributes *)

Record Contribution : Type := {
  c_state : string;
  c_year : number;
  c_taxType : string;
  c_govType : string;
  c_amount : number
}.

Definition c_key (c : Contribution) : string :=
  Normalize.mapKey c.(c_state) c.(c_year) c.(c_taxType).

(** A row contributes when its state is in the roster, its government
    level is 002 or 003 and its code has a tax type. *)
Definition contribution (config : Normalize.Config) (row : record)
  : option Contribution :=
  if Str.mem (censusState row) VALID_STATES
     && Str.mem (censusGovType row) ["002"; "003"]
  then match Normalize.taxTypeOfCode (censusCode row) with
       | Some taxType =>
           Some {| c_state := censusState row;
                   c_year := censusYear config row;
                   c_taxType := taxType;
                   c_govType := censusGovType row;
                   c_amount := Normalize.parseNumeric (prop row "AMOUNT") |}
       | None => None
       end
  else None.

Definition contributions (config : Normalize.Config) (rows : list record)
  : list Contribution :=
  somes (contribution config) rows.

(** What one contribution does to the bucket Map. *)
Definition applyContribution (bucket : list (string * Normalize.TaxRow))
           (c : Contribution) : list (string * Normalize.TaxRow) :=
  let current :=
    match get (c_key c) bucket with
    | Some b => b
    | None => {| Normalize.state := c.(c_state);
                 Normalize.row_year := c.(c_year);
                 Normalize.tax_type := c.(c_taxType);
                 Normalize.state_tax_revenue := zero;
                 Normalize.local_tax_revenue := zero |}
    end in
  let current :=
    if String.eqb c.(c_govType) "002"
    then Normalize.addStateRevenue current c.(c_amount) else current in
  let current :=
    if String.eqb c.(c_govType) "003"
    then Normalize.addLocalRevenue current c.(c_amount) else current in
  set (c_key c) current bucket.

(** The contributions to one bucket at one government level. *)
Definition atLevel (key govType : string) (cs : list Contribution)
  : list Contribution :=
  filter (fun c => String.eqb (c_key c) key && String.eqb c.(c_govType) govType) cs.

(** The labels a bucket can carry. *)
Definition taxLabels : list string :=
  (map snd Normalize.CENSUS_TAX_CODE_TO_TYPE ++ ["License tax"])%list.

(** What the bucket Map holds once the contributions [cs] are applied. *)
Record Merged (cs : list Contribution) (bucket : list (string * Normalize.TaxRow))
  : Prop := {
  merged_keys : map fst bucket = firstSeen (map c_key cs);
  merged_entry :
    forall k b,
      get k bucket = Some b ->
      k = Normalize.mapKey b.(Normalize.state) b.(Normalize.row_year)
                           b.(Normalize.tax_type)
      /\ b.(Normalize.state_tax_revenue)
         = sumLeft (map c_amount (atLevel k "002" cs))
      /\ b.(Normalize.local_tax_revenue)
         = sumLeft (map c_amount (atLevel k "003" cs))
      /\ Str.mem b.(Normalize.state) VALID_STATES = true
      /\ In b.(Normalize.tax_type) taxLabels
}.

(** ** The total order of the payload *)

(** A state record whose total the comparator can order. *)
Definition orderable (r : Ingest.StateRecord) : Prop :=
  isFinite r.(Ingest.out_totalRevenue) = true
  /\ wf r.(Ingest.out_totalRevenue) = true.

(** The state records before the final sort, in the order of the
    aggregation Map. *)
Definition unsorted (config : Ingest.Config) (taxRows populationRows : list csvRow)
  : list Ingest.StateRecord :=
  let byState := Ingest.populationByState config populationRows in
  map Ingest.finishState
      (map snd (Ingest.aggregate config byState
                  (Ingest.topStates config byState) taxRows).(Ingest.stateAggregation)).

End MoreNotions.

(* ================================================================== *)
(** * Part 8. Facts about Numbers *)
(* ================================================================== *)

Module NumFacts.
Import Num Js Notions.

Lemma fexp_ge_emin k : emin <= fexp prec emax k.
Proof. unfold fexp, SpecFloat.emin, emin, prec, emax. lia. Qed.

Lemma shr_fexp_exponent m e l : emin <= snd (shr_fexp prec emax m e l).
Proof.
  unfold shr_fexp, shr.
  pose proof (fexp_ge_emin (Zdigits2 m + e)) as H.
  destruct (fexp prec emax (Zdigits2 m + e) - e) eqn:E; simpl; lia.
Qed.

Lemma binary_round_aux_wf s m e l : wf (binary_round_aux prec emax s m e l) = true.
Proof.
  unfold binary_round_aux.
  destruct (shr_fexp prec emax m e l) as [mrs' e'].
  destruct (shr_fexp prec emax (round_nearest_even (shr_m mrs') (loc_of_shr_record mrs')) e' loc_Exact)
    as [mrs'' e''] eqn:E2.
  pose proof (shr_fexp_exponent (round_nearest_even (shr_m mrs') (loc_of_shr_record mrs')) e' loc_Exact) as H.
  rewrite E2 in H. simpl in H.
  destruct (shr_m mrs''); try reflexivity.
  destruct (e'' <=? emax - prec); try reflexivity.
  simpl. apply Z.leb_le. exact H.
Qed.

Lemma binary_normalize_wf z e sz : wf (binary_normalize prec emax z e sz) = true.
Proof.
  unfold binary_normalize, binary_round.
  destruct z; try reflexivity;
    match goal with |- context [shl_align ?a ?b ?c] => destruct (shl_align a b c) end;
    apply binary_round_aux_wf.
Qed.






(** ** The sign of a difference *)

Lemma digits2_pos_bounds p :
  2 ^ (Zpos (digits2_pos p) - 1) <= Zpos p < 2 ^ Zpos (digits2_pos p).
Proof.
  induction p as [p IH|p IH|]; simpl digits2_pos.
  - rewrite Pos2Z.inj_succ.
    replace (Z.succ (Z.pos (digits2_pos p)) - 1) with (Z.succ (Z.pos (digits2_pos p) - 1)) by lia.
    rewrite !Z.pow_succ_r by lia. lia.
  - rewrite Pos2Z.inj_succ.
    replace (Z.succ (Z.pos (digits2_pos p)) - 1) with (Z.succ (Z.pos (digits2_pos p) - 1)) by lia.
    rewrite !Z.pow_succ_r by lia. lia.
  - simpl. lia.
Qed.

Lemma shr_1_m mrs : 0 <= shr_m mrs -> shr_m (shr_1 mrs) = shr_m mrs / 2.
Proof.
  destruct mrs as [m r s]. simpl. intros H.
  destruct m as [|p|p]; try lia; try reflexivity.
  destruct p; simpl shr_m.
  - rewrite Pos2Z.inj_xI. apply Z.div_unique with 1; lia.
  - rewrite Pos2Z.inj_xO. apply Z.div_unique with 0; lia.
  - reflexivity.
Qed.

Lemma iter_shr_m p : forall mrs, 0 <= shr_m mrs ->
  shr_m (iter_pos shr_1 p mrs) = shr_m mrs / 2 ^ Zpos p.
Proof.
  induction p as [p IH|p IH|]; intros mrs H; simpl iter_pos;
    try pose proof (Z.pow_pos_nonneg 2 (Z.pos p) ltac:(lia) ltac:(lia)) as Hp.
  - assert (H1 : 0 <= shr_m (shr_1 mrs)) by (rewrite shr_1_m by exact H; apply Z.div_pos; lia).
    assert (H2 : 0 <= shr_m (iter_pos shr_1 p (shr_1 mrs)))
      by (rewrite IH by exact H1; apply Z.div_pos; [exact H1 | apply Z.pow_pos_nonneg; lia]).
    rewrite IH by exact H2. rewrite IH by exact H1. rewrite shr_1_m by exact H.
    rewrite !Z.div_div by lia.
    f_equal.
    replace (Z.pos p~1) with (Z.succ (Z.pos p + Z.pos p)) by lia.
    rewrite Z.pow_succ_r by lia. rewrite Z.pow_add_r by lia. lia.
  - assert (H2 : 0 <= shr_m (iter_pos shr_1 p mrs))
      by (rewrite IH by exact H; apply Z.div_pos; [exact H | apply Z.pow_pos_nonneg; lia]).
    rewrite IH by exact H2. rewrite IH by exact H.
    rewrite Z.div_div by lia.
    f_equal.
    replace (Z.pos p~0) with (Z.pos p + Z.pos p) by lia.
    rewrite Z.pow_add_r by lia. reflexivity.
  - rewrite shr_1_m by exact H. reflexivity.
Qed.

Lemma shr_record_of_loc_m m l : shr_m (shr_record_of_loc m l) = m.
Proof. destruct l as [|[]]; reflexivity. Qed.

Lemma shr_fexp_pos m e l :
  0 < m -> emin <= e -> 0 < shr_m (fst (shr_fexp prec emax m e l)).
Proof.
  intros Hm He. unfold shr_fexp, shr.
  destruct m as [|p|p]; try lia. simpl Zdigits2.
  pose proof (digits2_pos_bounds p) as [Hlo _].
  destruct (fexp prec emax (Z.pos (digits2_pos p) + e) - e) as [|q|q] eqn:E; simpl fst;
    try (rewrite shr_record_of_loc_m; lia).
  rewrite iter_shr_m by (rewrite shr_record_of_loc_m; lia).
  rewrite shr_record_of_loc_m.
  assert (Hq : Z.pos q <= Z.pos (digits2_pos p) - 1).
  { unfold fexp, SpecFloat.emin, prec, emax, emin in *. lia. }
  apply Z.div_str_pos. split; [apply Z.pow_pos_nonneg; lia|].
  apply Z.le_trans with (2 ^ (Z.pos (digits2_pos p) - 1)); [|exact Hlo].
  apply Z.pow_le_mono_r; lia.
Qed.

Lemma round_nearest_even_ge m l : m <= round_nearest_even m l.
Proof. destruct l as [|[]]; simpl; try lia. destruct (Z.even m); lia. Qed.

Lemma binary_round_aux_signed s m e l :
  0 < m -> emin <= e -> signed s (binary_round_aux prec emax s m e l).
Proof.
  intros Hm He. unfold binary_round_aux.
  pose proof (shr_fexp_pos m e l Hm He) as H1.
  pose proof (shr_fexp_exponent m e l) as E1.
  destruct (shr_fexp prec emax m e l) as [mrs' e']. simpl in H1, E1.
  pose proof (round_nearest_even_ge (shr_m mrs') (loc_of_shr_record mrs')) as Hr.
  pose proof (shr_fexp_pos (round_nearest_even (shr_m mrs') (loc_of_shr_record mrs')) e' loc_Exact
                ltac:(lia) E1) as H2.
  destruct (shr_fexp prec emax _ e' loc_Exact) as [mrs'' e'']. simpl in H2.
  destruct (shr_m mrs''); try lia.
  destruct (e'' <=? emax - prec); reflexivity.
Qed.

Lemma binary_round_signed s m e :
  emin <= e -> signed s (binary_round prec emax s m e).
Proof.
  intros He. unfold binary_round, shl_align.
  pose proof (fexp_ge_emin (Z.pos (digits2_pos m) + e)).
  destruct (fexp prec emax (Z.pos (digits2_pos m) + e) - e) eqn:E;
    apply binary_round_aux_signed; lia.
Qed.

Lemma Qcompare_inject a b : (inject_Z a ?= inject_Z b)%Q = (a ?= b).
Proof. unfold Qcompare. simpl. rewrite !Z.mul_1_r. reflexivity. Qed.

Lemma Qcompare_scale a b c : (0 < c)%Q -> (a * c ?= b * c)%Q = (a ?= b)%Q.
Proof.
  intros Hc. destruct (Qcompare_spec a b) as [H|H|H].
  - apply Qeq_alt. rewrite H. reflexivity.
  - apply Qlt_alt. apply Qmult_lt_r; assumption.
  - apply Qgt_alt. apply Qmult_lt_r; assumption.
Qed.

Lemma pow2_pos e : (0 < 2 ^ e)%Q.
Proof. apply Qpower_0_lt. reflexivity. Qed.

Lemma scaled_compare a b e :
  (inject_Z a * 2 ^ e ?= inject_Z b * 2 ^ e)%Q = (a ?= b).
Proof. rewrite Qcompare_scale by apply pow2_pos. apply Qcompare_inject. Qed.

Lemma toQ_compare_zero s m e :
  (toQ (S754_finite s m e) ?= 0)%Q = (if s then Lt else Gt).
Proof.
  unfold toQ.
  transitivity (inject_Z (cond_Zopp s (Z.pos m)) * 2 ^ e ?= inject_Z 0 * 2 ^ e)%Q.
  - apply Qcompare_comp; [reflexivity | symmetry; apply Qmult_0_l].
  - rewrite scaled_compare. destruct s; reflexivity.
Qed.

Lemma signed_compare_zero s r :
  signed s r -> compare r zero = Some (if s then Lt else Gt).
Proof.
  destruct r as [| s' | | s' m e]; simpl; try contradiction; intros ->.
  - reflexivity.
  - f_equal. apply toQ_compare_zero.
Qed.

Lemma iter_xO_pow m d : Z.pos (Pos.iter xO m d) = Z.pos m * 2 ^ Z.pos d.
Proof.
  induction d as [|d IH] using Pos.peano_ind.
  - simpl. lia.
  - rewrite Pos.iter_succ, Pos2Z.inj_xO, IH, Pos2Z.inj_succ, Z.pow_succ_r by lia. lia.
Qed.

Lemma shl_align_value m e ez :
  ez <= e -> Z.pos (fst (shl_align m e ez)) = Z.pos m * 2 ^ (e - ez).
Proof.
  intros H. unfold shl_align.
  destruct (ez - e) as [|d|d] eqn:E; simpl fst; try lia.
  - replace (e - ez) with 0 by lia. lia.
  - rewrite iter_xO_pow. f_equal. f_equal. lia.
Qed.

Lemma toQ_align s m e ez :
  ez <= e ->
  (toQ (S754_finite s m e)
   == inject_Z (cond_Zopp s (Z.pos (fst (shl_align m e ez)))) * 2 ^ ez)%Q.
Proof.
  intros H. unfold toQ. rewrite shl_align_value by exact H.
  replace (cond_Zopp s (Z.pos m * 2 ^ (e - ez)))
    with (cond_Zopp s (Z.pos m) * 2 ^ (e - ez)) by (destruct s; unfold cond_Zopp; [rewrite Z.mul_opp_l|]; reflexivity).
  rewrite inject_Z_mult, Zpower_Qpower by lia.
  rewrite <- Qmult_assoc, <- Qpower_plus by discriminate.
  replace (e - ez + ez) with e by lia. reflexivity.
Qed.

Lemma binary_normalize_compare_zero z e :
  emin <= e ->
  compare (binary_normalize prec emax z e false) zero = Some (z ?= 0).
Proof.
  intros He. destruct z as [|p|p]; simpl binary_normalize.
  - reflexivity.
  - apply (signed_compare_zero false), binary_round_signed, He.
  - apply (signed_compare_zero true), binary_round_signed, He.
Qed.

Lemma compare_finite sx mx ex sy my ey :
  compare (S754_finite sx mx ex) (S754_finite sy my ey)
  = Some (cond_Zopp sx (Z.pos (fst (shl_align mx ex (Z.min ex ey))))
          - cond_Zopp sy (Z.pos (fst (shl_align my ey (Z.min ex ey)))) ?= 0).
Proof.
  unfold compare. f_equal.
  rewrite <- Z.compare_sub.
  rewrite <- (scaled_compare _ _ (Z.min ex ey)).
  apply Qcompare_comp; apply toQ_align; lia.
Qed.

(** For finite Numbers the sign of the rounded difference is the
    order of the operands: a difference of distinct finite Numbers
    never rounds to zero. *)
Lemma sub_compare_zero x y :
  isFinite x = true -> isFinite y = true -> wf x = true -> wf y = true ->
  compare (sub x y) zero = compare x y.
Proof.
  destruct x as [sx|sx| |sx mx ex], y as [sy|sy| |sy my ey];
    try discriminate; intros _ _ Hx Hy.
  - destruct sx, sy; reflexivity.
  - unfold sub, SFsub, compare. f_equal.
    change (toQ zero) with 0%Q. change (toQ (S754_zero sx)) with 0%Q.
    rewrite toQ_compare_zero.
    rewrite <- Qcompare_antisym, toQ_compare_zero. destruct sy; reflexivity.
  - reflexivity.
  - simpl in Hx, Hy. apply Z.leb_le in Hx, Hy.
    rewrite compare_finite. unfold sub, SFsub.
    apply binary_normalize_compare_zero. lia.
Qed.

Lemma compare_antisym x y : compare y x = option_map CompOpp (compare x y).
Proof.
  destruct x as [sx|sx| |sx mx ex], y as [sy|sy| |sy my ey];
    try reflexivity;
    try (destruct sx; reflexivity); try (destruct sy; reflexivity);
    try (destruct sx, sy; reflexivity);
    unfold compare; simpl option_map; f_equal; symmetry; apply Qcompare_antisym.
Qed.

Lemma gtb_sub x y :
  isFinite x = true -> isFinite y = true -> wf x = true -> wf y = true ->
  gtb (sub x y) zero = gtb x y.
Proof.
  intros Fx Fy Wx Wy. unfold gtb, ltb.
  rewrite (compare_antisym (sub x y) zero), (compare_antisym x y).
  rewrite sub_compare_zero by assumption. reflexivity.
Qed.
End NumFacts.

Module OrderFacts.
Import Num Js Notions NumFacts.

Lemma compare_finite_Q x y :
  isFinite x = true -> isFinite y = true ->
  compare x y = Some (toQ x ?= toQ y)%Q.
Proof.
  destruct x as [sx|sx| |sx mx ex], y as [sy|sy| |sy my ey];
    try discriminate; reflexivity.
Qed.

Lemma ltb_finite x y :
  isFinite x = true -> isFinite y = true ->
  ltb x y = true <-> (toQ x < toQ y)%Q.
Proof.
  intros Fx Fy. unfold ltb. rewrite compare_finite_Q by assumption.
  rewrite Qlt_alt. destruct (toQ x ?= toQ y)%Q; split; congruence.
Qed.

Lemma ltb_false_finite x y :
  isFinite x = true -> isFinite y = true ->
  ltb x y = false <-> (toQ y <= toQ x)%Q.
Proof.
  intros Fx Fy. rewrite <- Bool.not_true_iff_false, ltb_finite by assumption.
  split; [apply Qnot_lt_le | apply Qle_not_lt].
Qed.

Lemma eqb_finite x y :
  isFinite x = true -> isFinite y = true ->
  eqb x y = true <-> (toQ x == toQ y)%Q.
Proof.
  intros Fx Fy. unfold eqb. rewrite compare_finite_Q by assumption.
  rewrite Qeq_alt. destruct (toQ x ?= toQ y)%Q; split; congruence.
Qed.

Lemma ltb_false_trans x y z :
  isFinite x = true -> isFinite y = true -> isFinite z = true ->
  ltb x y = false -> ltb y z = false -> ltb x z = false.
Proof.
  intros Fx Fy Fz. rewrite !ltb_false_finite by assumption.
  intros H1 H2. apply Qle_trans with (toQ y); assumption.
Qed.

Lemma ltb_asym x y : ltb x y = true -> ltb y x = false.
Proof.
  unfold ltb. rewrite (compare_antisym x y).
  destruct (compare x y) as [[]|]; simpl; congruence.
Qed.

(** Two Numbers equal to a third are not in strict order. *)
Lemma eqb_not_ltb x y p :
  isFinite x = true -> isFinite y = true ->
  eqb x p = true -> eqb y p = true -> ltb x y = false.
Proof.
  intros Fx Fy Hx Hy.
  assert (Fp : isFinite p = true).
  { destruct x as [sx|sx| |sx mx ex], p as [sp|sp| |sp mp ep];
      try discriminate Fx; try reflexivity;
      unfold eqb, compare in Hx; try destruct sp; discriminate Hx. }
  apply eqb_finite in Hx, Hy; try assumption.
  apply ltb_false_finite; try assumption.
  rewrite Hx, Hy. apply Qle_refl.
Qed.

End OrderFacts.

(* ================================================================== *)
(** * Part 9. Facts about Maps, sorting and slicing *)
(* ================================================================== *)

Module MapFacts.
Import Js Notions.

Section Assoc.
Context {V : Type}.
Implicit Types (m : list (string * V)) (k : string) (v : V).

Lemma get_set_same k v m : get k (set k v m) = Some v.
Proof.
  induction m as [|[k' v'] m IH]; simpl.
  - rewrite String.eqb_refl. reflexivity.
  - destruct (String.eqb k k') eqn:E; simpl; rewrite ?String.eqb_refl, ?E; auto.
Qed.

Lemma get_set_other k k' v m : k <> k' -> get k' (set k v m) = get k' m.
Proof.
  intros N. induction m as [|[k'' v''] m IH]; simpl.
  - apply String.eqb_neq in N. rewrite String.eqb_sym, N. reflexivity.
  - destruct (String.eqb k k'') eqn:E; simpl.
    + apply String.eqb_eq in E. subst k''.
      assert (E' : String.eqb k' k = false) by (apply String.eqb_neq; congruence).
      rewrite E'. reflexivity.
    + rewrite IH. reflexivity.
Qed.

Lemma has_mem k m : has k m = Str.mem k (map fst m).
Proof.
  unfold has, Str.mem. induction m as [|[k' v'] m IH]; simpl; auto.
  destruct (String.eqb k k'); simpl; auto.
Qed.

Lemma keys_set k v m :
  map fst (set k v m) = note (map fst m) k.
Proof.
  unfold note. rewrite <- has_mem. unfold has.
  induction m as [|[k' v'] m IH]; simpl; auto.
  destruct (String.eqb k k') eqn:E; simpl.
  - apply String.eqb_eq in E. subst. reflexivity.
  - rewrite IH. destruct (get k m); reflexivity.
Qed.

Lemma set_not_nil k v m : set k v m <> [].
Proof. destruct m as [|[k' v'] m]; simpl; [|destruct (String.eqb k k')]; discriminate. Qed.

Lemma get_In k v m : get k m = Some v -> In (k, v) m.
Proof.
  induction m as [|[k' v'] m IH]; simpl; try discriminate.
  destruct (String.eqb k k') eqn:E.
  - apply String.eqb_eq in E. intros [= ->]. subst. auto.
  - auto.
Qed.

Lemma In_get k v m : NoDup (map fst m) -> In (k, v) m -> get k m = Some v.
Proof.
  induction m as [|[k' v'] m IH]; simpl; intros ND HIn; try contradiction.
  inversion ND as [|? ? Hnot ND']; subst.
  destruct HIn as [[= -> ->]|HIn].
  - rewrite String.eqb_refl. reflexivity.
  - destruct (String.eqb k k') eqn:E.
    + apply String.eqb_eq in E. subst. exfalso. apply Hnot.
      apply (in_map fst) in HIn. exact HIn.
    + auto.
Qed.

Lemma get_None_keys k m : get k m = None <-> ~ In k (map fst m).
Proof.
  induction m as [|[k' v'] m IH]; simpl.
  - tauto.
  - destruct (String.eqb k k') eqn:E.
    + apply String.eqb_eq in E. subst. split; [discriminate | tauto].
    + apply String.eqb_neq in E. rewrite IH. split; [intros H [H'|H']; congruence | tauto].
Qed.


Lemma keys_fold_put (l : list (string * V)) : forall m,
  map fst (fold_left put l m) = fold_left note (map fst l) (map fst m).
Proof.
  induction l as [|[k' v'] l IH]; intros m; simpl; auto.
  rewrite IH. unfold put; simpl. rewrite keys_set. reflexivity.
Qed.

Lemma fold_put_nil (l : list (string * V)) : forall m,
  fold_left put l m = [] <-> l = [] /\ m = [].
Proof.
  induction l as [|kv l IH]; intros m; simpl.
  - tauto.
  - rewrite IH. split.
    + intros [_ H]. exfalso. exact (set_not_nil _ _ _ H).
    + intros [H _]. discriminate.
Qed.

End Assoc.

Lemma mem_In k l : Str.mem k l = true <-> In k l.
Proof.
  unfold Str.mem. rewrite existsb_exists. split.
  - intros [x [H E]]. apply String.eqb_eq in E. subst. exact H.
  - intros H. exists k. split; [exact H | apply String.eqb_refl].
Qed.

Lemma note_NoDup seen k : NoDup seen -> NoDup (note seen k).
Proof.
  intros ND. unfold note. destruct (Str.mem k seen) eqn:E; auto.
  apply NoDup_rev in ND. rewrite <- (rev_involutive (seen ++ [k])).
  apply NoDup_rev. rewrite rev_app_distr. simpl. constructor; auto.
  rewrite <- in_rev. intros H. apply mem_In in H. congruence.
Qed.

Lemma fold_note_NoDup l : forall seen, NoDup seen -> NoDup (fold_left note l seen).
Proof.
  induction l as [|k l IH]; intros seen ND; simpl; auto using note_NoDup.
Qed.

Lemma firstSeen_NoDup l : NoDup (firstSeen l).
Proof. apply fold_note_NoDup. constructor. Qed.

Lemma In_note seen k x : In x (note seen k) <-> In x seen \/ x = k.
Proof.
  unfold note. destruct (Str.mem k seen) eqn:E.
  - apply mem_In in E. split; [auto | intros [H| ->]; auto].
  - rewrite in_app_iff. simpl. split; intros [H|H]; auto.
    + destruct H as [H|[]]; auto.
Qed.

Lemma In_fold_note l : forall seen x,
  In x (fold_left note l seen) <-> In x seen \/ In x l.
Proof.
  induction l as [|k l IH]; intros seen x; simpl.
  - tauto.
  - rewrite IH, In_note. split; intros H; repeat destruct H as [H|H]; auto.
Qed.

Lemma In_firstSeen l x : In x (firstSeen l) <-> In x l.
Proof. unfold firstSeen. rewrite In_fold_note. simpl. tauto. Qed.

End MapFacts.

Module SortFacts.
Import Num Js Notions NumFacts OrderFacts.

Section Sorting.
Context {A : Type}.
Variable comparator : A -> A -> number.

Lemma insert_perm x l : Permutation (insert comparator x l) (x :: l).
Proof.
  induction l as [|y l IH]; simpl; auto.
  destruct (gtb (comparator x y) zero); auto.
  apply perm_trans with (y :: x :: l); [apply perm_skip, IH | apply perm_swap].
Qed.

Lemma sort_perm l : Permutation (sort comparator l) l.
Proof.
  induction l as [|x l IH]; simpl; auto.
  apply perm_trans with (x :: sort comparator l);
    [apply insert_perm | apply perm_skip, IH].
Qed.

Lemma sort_length l : List.length (sort comparator l) = List.length l.
Proof. apply Permutation_length, sort_perm. Qed.

Lemma sort_In x l : In x (sort comparator l) <-> In x l.
Proof.
  split; apply Permutation_in; [|apply Permutation_sym]; apply sort_perm.
Qed.

(** When the comparator is the difference of a finite, well-formed
    key, taken in decreasing order, the sort puts the keys in
    decreasing order and keeps the input order among equal keys. *)
Variable key : A -> number.
Variable good : A -> Prop.
Hypothesis good_finite : forall x, good x -> isFinite (key x) = true.
Hypothesis comparator_key :
  forall x y, good x -> good y ->
              gtb (comparator x y) zero = ltb (key x) (key y).

Lemma insert_sorted x l :
  good x -> Forall good l ->
  StronglySorted (notBelow key) l -> StronglySorted (notBelow key) (insert comparator x l).
Proof.
  intros Gx Gl S. revert Gl. induction S as [|y l S IH Hy]; intros Gl; simpl.
  - repeat constructor.
  - assert (Gy : good y) by (inversion Gl; assumption).
    assert (Gl' : Forall good l) by (inversion Gl; assumption).
    rewrite comparator_key by assumption.
    destruct (ltb (key x) (key y)) eqn:E.
    + constructor; [apply IH; exact Gl'|].
      apply Forall_forall. intros z Hz.
      apply (Permutation_in _ (insert_perm x l)) in Hz.
      destruct Hz as [<-|Hz].
      * apply ltb_asym. exact E.
      * rewrite Forall_forall in Hy. auto.
    + constructor; [constructor; assumption|].
      constructor; [exact E|].
      rewrite Forall_forall in *. intros z Hz.
      apply ltb_false_trans with (key y); auto.
      apply Hy. exact Hz.
Qed.

Lemma sort_good l : Forall good l -> Forall good (sort comparator l).
Proof.
  intros G. rewrite Forall_forall in *. intros x Hx. apply G, sort_In, Hx.
Qed.

Lemma sort_sorted l :
  Forall good l -> StronglySorted (notBelow key) (sort comparator l).
Proof.
  induction l as [|x l IH]; intros G; simpl.
  - constructor.
  - inversion G; subst. apply insert_sorted; auto using sort_good.
Qed.

Lemma insert_filter (f : A -> bool) x l :
  (forall y, good y -> f x = true -> f y = true -> ltb (key x) (key y) = false) ->
  good x -> Forall good l ->
  filter f (insert comparator x l) = filter f (x :: l).
Proof.
  intros Hf Gx Gl. induction l as [|y l IH]; simpl; auto.
  inversion Gl as [|? ? Gy Gl']; subst.
  rewrite comparator_key by assumption.
  destruct (ltb (key x) (key y)) eqn:E; simpl; auto.
  rewrite (IH Gl'). simpl.
  specialize (Hf y Gy).
  destruct (f x); auto.
  destruct (f y); auto.
  rewrite Hf in E by reflexivity. discriminate.
Qed.

Lemma sort_stable (f : A -> bool) l :
  (forall x y, good x -> good y -> f x = true -> f y = true ->
               ltb (key x) (key y) = false) ->
  Forall good l ->
  filter f (sort comparator l) = filter f l.
Proof.
  intros Hf. induction l as [|x l IH]; intros G; simpl; auto.
  inversion G; subst.
  rewrite insert_filter; auto using sort_good.
  simpl. rewrite IH by assumption. reflexivity.
Qed.
End Sorting.

Lemma slice0_firstn {A : Type} (n : Z) (l : list A) :
  0 <= n -> slice0 n l = firstn (Z.to_nat n) l.
Proof.
  intros H. unfold slice0.
  destruct (n <? 0) eqn:E; [apply Z.ltb_lt in E; lia|].
  destruct (Z.le_ge_cases n (Z.of_nat (List.length l))) as [L|L].
  - rewrite Z.min_l by exact L. reflexivity.
  - rewrite Z.min_r by lia. rewrite Nat2Z.id.
    rewrite firstn_all. symmetry. apply firstn_all2. lia.
Qed.

Lemma firstn_In {A : Type} (n : nat) (l : list A) x : In x (firstn n l) -> In x l.
Proof.
  revert l. induction n as [|n IH]; intros [|y l]; simpl; try tauto.
  intros [H|H]; auto.
Qed.

Lemma slice0_In {A : Type} (n : Z) (l : list A) x : In x (slice0 n l) -> In x l.
Proof. unfold slice0. apply firstn_In. Qed.

Lemma slice0_length {A : Type} (n : Z) (l : list A) :
  0 <= n ->
  Z.of_nat (List.length (slice0 n l)) = Z.min n (Z.of_nat (List.length l)).
Proof.
  intros H. rewrite slice0_firstn by exact H. rewrite length_firstn. lia.
Qed.

End SortFacts.

(* ================================================================== *)
(** * Part 10. The normaliser *)
(* ================================================================== *)

Module NormalizeFacts.
Import Num Js Notions NumFacts OrderFacts MapFacts.



(** ** The statistical-code shape *)

(** C2, as the code has it.  A bucket is in the output exactly when it
    is in the bucket Map after accumulation and its state-level amount
    or its local-level amount is strictly positive. *)
Theorem census_bucket_kept (rows : list record) (config : Normalize.Config)
        (b : Normalize.TaxRow) :
  In b (Normalize.normalizeTaxFromCensusApiRows rows config)
  <-> In b (map snd (Normalize.accumulate config rows))
      /\ (gtb b.(Normalize.state_tax_revenue) zero = true
          \/ gtb b.(Normalize.local_tax_revenue) zero = true).
Proof.
  unfold Normalize.normalizeTaxFromCensusApiRows, Normalize.kept.
  rewrite filter_In, Bool.orb_true_iff. reflexivity.
Qed.

(** C2, as the specification states it, fails: the single row
    [Texas, LF0009, 002, "(500)"] leaves one bucket whose combined
    amount is -500, not zero, and that bucket is discarded. *)
Lemma census_bucket_negative_discarded :
  let rows := [Examples.censusRow "Texas" (VNum (ofZ 2023)) "LF0009" "002" "(500)"] in
  exists b,
    map snd (Normalize.accumulate Examples.normalizeConfig rows) = [b]
    /\ add b.(Normalize.state_tax_revenue) b.(Normalize.local_tax_revenue) = ofZ (-500)
    /\ eqb (add b.(Normalize.state_tax_revenue) b.(Normalize.local_tax_revenue)) zero
       = false
    /\ Normalize.normalizeTaxFromCensusApiRows rows Examples.normalizeConfig = [].
Proof.
  eexists. repeat split; vm_compute; reflexivity.
Qed.

Lemma texas_bucket (config : Normalize.Config) :
  Normalize.normalizeTaxFromCensusApiRows Examples.texasRows config
  = [ {| Normalize.state := "Texas";
         Normalize.row_year := ofZ 2023;
         Normalize.tax_type := "Property tax";
         Normalize.state_tax_revenue := ofZ 1000;
         Normalize.local_tax_revenue := ofZ 500 |} ].
Proof. vm_compute. reflexivity. Qed.

(** C9, with the label the code gives.  The two rows of the example
    give exactly one bucket: Texas, 2023, "Property tax", state-level
    amount 1000 and local-level amount 500, whatever the configuration. *)
Theorem census_example_bucket (config : Normalize.Config) :
  Normalize.normalizeTaxFromCensusApiRows Examples.texasRows config
  = [ {| Normalize.state := "Texas";
         Normalize.row_year := ofZ 2023;
         Normalize.tax_type := "Property tax";
         Normalize.state_tax_revenue := ofZ 1000;
         Normalize.local_tax_revenue := ofZ 500 |} ].
Proof. apply texas_bucket. Qed.

(** C9, as the specification states it, fails on the category: the
    one bucket of the example is labelled "Property tax", which is not
    the text "property". *)
Lemma census_example_not_property :
  exists b,
    Normalize.normalizeTaxFromCensusApiRows Examples.texasRows
      Examples.normalizeConfig = [b]
    /\ b.(Normalize.tax_type) = "Property tax"
    /\ String.eqb b.(Normalize.tax_type) "property" = false.
Proof.
  eexists. split; [apply texas_bucket|]. split; reflexivity.
Qed.

(** ** Rows outside the roster, and rows of other years *)

Lemma accumulateRow_skip config bucket row :
  Str.mem (censusState row) VALID_STATES = false ->
  Normalize.accumulateRow config bucket row = bucket.
Proof.
  unfold censusState, Normalize.accumulateRow. intros ->.
  rewrite Bool.orb_true_r. reflexivity.
Qed.

Lemma has_set {V : Type} k (v : V) m : has k (set k v m) = true.
Proof. unfold has. rewrite get_set_same. reflexivity. Qed.

Lemma has_set_mono {V : Type} k k' (v : V) m :
  has k m = true -> has k (set k' v m) = true.
Proof.
  intros H. destruct (String.eqb_spec k' k) as [->|N].
  - apply has_set.
  - unfold has in *. rewrite get_set_other by exact N. exact H.
Qed.

Lemma accumulateRow_has_mono config bucket row k :
  has k bucket = true -> has k (Normalize.accumulateRow config bucket row) = true.
Proof.
  intros H. unfold Normalize.accumulateRow.
  destruct (_ || _ || _ || _); [exact H|].
  destruct (Normalize.taxTypeOfCode _); [|exact H].
  apply has_set_mono, H.
Qed.

Lemma accumulate_has_mono config rows : forall bucket k,
  has k bucket = true ->
  has k (fold_left (Normalize.accumulateRow config) rows bucket) = true.
Proof.
  induction rows as [|row rows IH]; intros bucket k H; simpl; auto.
  apply IH, accumulateRow_has_mono, H.
Qed.

Lemma accumulateRow_adds config bucket row taxType :
  Str.mem (censusState row) VALID_STATES = true ->
  Str.mem (censusGovType row) ["002"; "003"] = true ->
  Normalize.taxTypeOfCode (censusCode row) = Some taxType ->
  has (Normalize.mapKey (censusState row) (censusYear config row) taxType)
      (Normalize.accumulateRow config bucket row) = true.
Proof.
  intros S G T. unfold Normalize.accumulateRow.
  fold (censusState row) (censusYear config row) (censusCode row) (censusGovType row).
  rewrite S, G, T.
  assert (E1 : Str.isEmpty (censusState row) = false)
    by (destruct (censusState row); [discriminate S | reflexivity]).
  assert (E2 : Str.isEmpty (censusCode row) = false)
    by (destruct (censusCode row); [discriminate T | reflexivity]).
  rewrite E1, E2. cbn [negb orb]. apply has_set.
Qed.

Lemma aliased_skip config row :
  Str.mem (aliasedState config row) VALID_STATES = false ->
  Normalize.aliasedTaxRowKept (Normalize.aliasedTaxRow config row) = false.
Proof.
  unfold aliasedState, Normalize.aliasedTaxRowKept. simpl. intros ->.
  apply Bool.andb_false_r.
Qed.

Lemma aliased_kept_In config before row after :
  Normalize.aliasedTaxRowKept (Normalize.aliasedTaxRow config row) = true ->
  In (Normalize.aliasedTaxRow config row)
     (Normalize.normalizeAliasedTaxRows (before ++ row :: after) config).
Proof.
  intros K. unfold Normalize.normalizeAliasedTaxRows.
  apply filter_In. split; [|exact K].
  apply in_map, in_elt.
Qed.

(** C3, as the code has it.  In both shapes a row whose state is not in
    the roster contributes nothing: the output is the output of the
    same rows without it.  Rows are not filtered by year: in the
    statistical-code shape a row with a state of the roster, a
    government level 002 or 003 and a known tax code has a bucket under
    the year it carries, and in the pre-normalised shape a row with a
    state of the roster and a tax type that is not blank is in the
    output with the year it carries. *)
Theorem roster_rows_only (config : Normalize.Config)
        (before after : list record) (row : record) :
  (Str.mem (censusState row) VALID_STATES = false ->
   Normalize.normalizeTaxFromCensusApiRows (before ++ row :: after) config
   = Normalize.normalizeTaxFromCensusApiRows (before ++ after) config)
  /\ (Str.mem (aliasedState config row) VALID_STATES = false ->
      Normalize.normalizeAliasedTaxRows (before ++ row :: after) config
      = Normalize.normalizeAliasedTaxRows (before ++ after) config)
  /\ (forall taxType,
         Str.mem (censusState row) VALID_STATES = true ->
         Str.mem (censusGovType row) ["002"; "003"] = true ->
         Normalize.taxTypeOfCode (censusCode row) = Some taxType ->
         has (Normalize.mapKey (censusState row) (censusYear config row) taxType)
             (Normalize.accumulate config (before ++ row :: after)) = true)
  /\ (Str.mem (aliasedState config row) VALID_STATES = true ->
      Str.isEmpty (Normalize.tax_type (Normalize.aliasedTaxRow config row)) = false ->
      exists b,
        In b (Normalize.normalizeAliasedTaxRows (before ++ row :: after) config)
        /\ b.(Normalize.state) = aliasedState config row
        /\ b.(Normalize.row_year) = aliasedYear config row).
Proof.
  split; [|split; [|split]].
  - intros H. unfold Normalize.normalizeTaxFromCensusApiRows, Normalize.accumulate.
    rewrite !fold_left_app. simpl. rewrite accumulateRow_skip by exact H. reflexivity.
  - intros H. unfold Normalize.normalizeAliasedTaxRows.
    rewrite !map_app, !filter_app. simpl. rewrite aliased_skip by exact H. reflexivity.
  - intros taxType S G T. unfold Normalize.accumulate.
    rewrite fold_left_app. cbn [fold_left].
    apply accumulate_has_mono, accumulateRow_adds; assumption.
  - intros H T. exists (Normalize.aliasedTaxRow config row).
    split; [|split; reflexivity].
    apply aliased_kept_In. unfold Normalize.aliasedTaxRowKept.
    fold (aliasedState config row) in *.
    change (Normalize.state (Normalize.aliasedTaxRow config row))
      with (aliasedState config row).
    rewrite H, T.
    destruct (Str.isEmpty (aliasedState config row)) eqn:E; [|reflexivity].
    destruct (aliasedState config row); [discriminate H | discriminate E].
Qed.

(** The statement above at a concrete row: a Puerto Rico row between
    two Texas rows. *)
Lemma roster_rows_only_example :
  Normalize.normalizeAliasedTaxRows
    ([Examples.aliasedRow "Texas" "2023" "Property tax" "10" "5"]
     ++ Examples.aliasedRow "Puerto Rico" "2023" "Property tax" "7" "1"
     :: [Examples.aliasedRow "Texas" "2023" "Other tax" "1" "0"])
    Examples.normalizeConfig
  = Normalize.normalizeAliasedTaxRows
      ([Examples.aliasedRow "Texas" "2023" "Property tax" "10" "5"]
       ++ [Examples.aliasedRow "Texas" "2023" "Other tax" "1" "0"])
      Examples.normalizeConfig.
Proof.
  apply (roster_rows_only Examples.normalizeConfig). vm_compute. reflexivity.
Defined.

(** C3, as the specification states it, fails on the year: with target
    year 2023, a Texas row of 2022 is not excluded, in either shape. *)
Lemma other_year_row_kept :
  Normalize.normalizeTaxFromCensusApiRows
    [Examples.censusRow "Texas" (VStr "2022") "LF0009" "002" "1000"]
    Examples.normalizeConfig
  = [ {| Normalize.state := "Texas";
         Normalize.row_year := ofZ 2022;
         Normalize.tax_type := "Property tax";
         Normalize.state_tax_revenue := ofZ 1000;
         Normalize.local_tax_revenue := zero |} ]
  /\ Normalize.normalizeAliasedTaxRows
       [Examples.aliasedRow "Texas" "2022" "Property tax" "1000" "0"]
       Examples.normalizeConfig
     = [ {| Normalize.state := "Texas";
            Normalize.row_year := ofZ 2022;
            Normalize.tax_type := "Property tax";
            Normalize.state_tax_revenue := ofZ 1000;
            Normalize.local_tax_revenue := zero |} ]
  /\ neqb (ofZ 2022) (ofZ 2023) = true.
Proof. repeat split; vm_compute; reflexivity. Qed.

(** ** The source row reader *)





End NormalizeFacts.

(* ================================================================== *)
(** * Part 11. The population resolver *)
(* ================================================================== *)

Module PopulationFacts.
Import Num Js Notions NumFacts OrderFacts MapFacts SortFacts.



Lemma somes_cons {A B : Type} (f : A -> option B) a l :
  somes f (a :: l) = match f a with Some b => b :: somes f l | None => somes f l end.
Proof. unfold somes. simpl. destruct (f a); reflexivity. Qed.

Lemma In_somes {A B : Type} (f : A -> option B) l b :
  In b (somes f l) <-> exists a, In a l /\ f a = Some b.
Proof.
  unfold somes. rewrite in_flat_map. split; intros [a [Ha H]]; exists a; split; auto.
  - destruct (f a); simpl in H; [destruct H as [->|[]]; reflexivity | contradiction].
  - rewrite H. left. reflexivity.
Qed.

Lemma populationStep_survivor config m row :
  Ingest.populationStep config m row
  = match survivor config row with
    | Some kv => put m kv
    | None => m
    end.
Proof.
  unfold Ingest.populationStep, survivor.
  set (oy := Ingest.otherYear config _).
  set (st := Ingest.normalizeState _).
  set (p := Ingest.parseNumeric _).
  assert (E : Str.isEmpty st = true -> Str.mem st VALID_STATES = false)
    by (destruct st; [reflexivity | discriminate]).
  destruct oy; [reflexivity|].
  destruct (Str.isEmpty st); [rewrite E by reflexivity; reflexivity|].
  destruct (Str.mem st VALID_STATES); [|reflexivity].
  destruct (gtb p zero); reflexivity.
Qed.

Lemma fold_populationStep config rows : forall m,
  fold_left (Ingest.populationStep config) rows m
  = fold_left put (survivors config rows) m.
Proof.
  induction rows as [|row rows IH]; intros m; [reflexivity|].
  unfold survivors. rewrite somes_cons. cbn [fold_left].
  rewrite IH, populationStep_survivor. unfold survivors.
  destruct (survivor config row); reflexivity.
Qed.

Lemma populationByState_survivors config rows :
  Ingest.populationByState config rows = fold_left put (survivors config rows) [].
Proof. apply fold_populationStep. Qed.




Lemma populationByState_keys config rows :
  map fst (Ingest.populationByState config rows)
  = firstSeen (map fst (survivors config rows)).
Proof. rewrite populationByState_survivors. apply (keys_fold_put _ []). Qed.




(** The ranking example of the specification: populations 100, 300 and
    200 and two states to select give the second and the third state,
    in that order. *)
Lemma population_ranking_example :
  Ingest.resolvePopulation (Examples.ingestConfig 2)
    [ Examples.populationRow "Texas" "2023" "100";
      Examples.populationRow "California" "2023" "300";
      Examples.populationRow "Ohio" "2023" "200" ]
  = Ok ([("Texas", ofZ 100); ("California", ofZ 300); ("Ohio", ofZ 200)],
        ["California"; "Ohio"]).
Proof. vm_compute. reflexivity. Qed.

End PopulationFacts.

(* ================================================================== *)
(** * Part 12. The aggregation *)
(* ================================================================== *)

Module AggregationFacts.
Import Num Js Notions NumFacts OrderFacts MapFacts SortFacts PopulationFacts.

Lemma taxStep_retained config byState top loop row :
  Ingest.taxStep config byState top loop row
  = match retainedRow config top row with
    | Some t => applyRetained byState loop t
    | None => loop
    end.
Proof.
  unfold Ingest.taxStep, retainedRow.
  set (oy := Ingest.otherYear config _).
  set (st := Ingest.normalizeState _).
  set (raw := Str.trim _).
  destruct oy; [reflexivity|].
  destruct (Str.mem st top); [|reflexivity].
  destruct (Str.isEmpty raw); [reflexivity|].
  cbn [negb andb]. unfold applyRetained, note. cbn [r_state r_key r_amount].
  destruct (Str.mem (Ingest.taxTypeKeyOf config raw) (Ingest.taxTypeSeen loop));
    reflexivity.
Qed.

Lemma aggregate_retained config byState top rows :
  Ingest.aggregate config byState top rows
  = fold_left (applyRetained byState) (retained config top rows) Ingest.emptyLoop.
Proof.
  unfold Ingest.aggregate. generalize Ingest.emptyLoop.
  induction rows as [|row rows IH]; intros loop; [reflexivity|].
  unfold retained. rewrite somes_cons. cbn [fold_left].
  rewrite IH, taxStep_retained. unfold retained.
  destruct (retainedRow config top row); reflexivity.
Qed.

Lemma retained_top config top rows t :
  In t (retained config top rows) -> In t.(r_state) top.
Proof.
  intros H. apply In_somes in H. destruct H as [row [_ H]].
  unfold retainedRow in H.
  destruct (negb _ && Str.mem _ top && negb _) eqn:C; [|discriminate].
  injection H as <-. cbn [r_state].
  apply Bool.andb_true_iff in C. destruct C as [C _].
  apply Bool.andb_true_iff in C. destruct C as [_ C].
  apply mem_In. exact C.
Qed.

Lemma firstSeen_snoc l k : firstSeen (l ++ [k]) = note (firstSeen l) k.
Proof. unfold firstSeen. rewrite fold_left_app. reflexivity. Qed.

Lemma ofState_snoc s ts t :
  ofState s (ts ++ [t])
  = if String.eqb t.(r_state) s then (ofState s ts ++ [t])%list else ofState s ts.
Proof.
  unfold ofState. rewrite filter_app. simpl.
  destruct (String.eqb (r_state t) s); [reflexivity | apply app_nil_r].
Qed.

Lemma ofCategory_snoc s k ts t :
  ofCategory s k (ts ++ [t])
  = if String.eqb t.(r_state) s && String.eqb t.(r_key) k
    then (ofCategory s k ts ++ [t])%list else ofCategory s k ts.
Proof.
  unfold ofCategory. rewrite ofState_snoc.
  destruct (String.eqb (r_state t) s); [|reflexivity].
  rewrite filter_app. simpl.
  destruct (String.eqb (r_key t) k); [reflexivity | apply app_nil_r].
Qed.

Lemma sumLeft_snoc l x : sumLeft (l ++ [x]) = add (sumLeft l) x.
Proof. unfold sumLeft. rewrite fold_left_app. reflexivity. Qed.

Lemma ofState_nil s ts : ~ In s (map r_state ts) -> ofState s ts = [].
Proof.
  intros N. unfold ofState. induction ts as [|t ts IH]; [reflexivity|].
  simpl in *. destruct (String.eqb (r_state t) s) eqn:E.
  - apply String.eqb_eq in E. tauto.
  - apply IH. tauto.
Qed.

Lemma holds_empty byState : Holds byState [] Ingest.emptyLoop.
Proof. constructor; try reflexivity. intros s a H. discriminate H. Qed.

Lemma categoryTotal_snoc_same s k ts t :
  t.(r_state) = s -> t.(r_key) = k ->
  categoryTotal s k (ts ++ [t])
  = Some (add (match categoryTotal s k ts with Some v => v | None => zero end)
              t.(r_amount)).
Proof.
  intros Es Ek. unfold categoryTotal. rewrite ofCategory_snoc, Es, Ek, !String.eqb_refl.
  cbn [andb].
  destruct (ofCategory s k ts) as [|t' l] eqn:E.
  - reflexivity.
  - cbn [app]. f_equal.
    change (t' :: (l ++ [t]))%list with ((t' :: l) ++ [t])%list.
    rewrite map_app. apply sumLeft_snoc.
Qed.

Lemma categoryTotal_snoc_other s k ts t :
  t.(r_state) <> s \/ t.(r_key) <> k ->
  categoryTotal s k (ts ++ [t]) = categoryTotal s k ts.
Proof.
  intros N. unfold categoryTotal. rewrite ofCategory_snoc.
  destruct (String.eqb (r_state t) s) eqn:Es; [|reflexivity].
  destruct (String.eqb (r_key t) k) eqn:Ek; [|reflexivity].
  apply String.eqb_eq in Es, Ek. tauto.
Qed.

Lemma stateTotal_snoc_same s ts t :
  t.(r_state) = s -> stateTotal s (ts ++ [t]) = add (stateTotal s ts) t.(r_amount).
Proof.
  intros E. unfold stateTotal. rewrite ofState_snoc, E, String.eqb_refl.
  rewrite map_app. apply sumLeft_snoc.
Qed.

Lemma stateTotal_snoc_other s ts t :
  t.(r_state) <> s -> stateTotal s (ts ++ [t]) = stateTotal s ts.
Proof.
  intros N. unfold stateTotal. rewrite ofState_snoc.
  apply String.eqb_neq in N. rewrite N. reflexivity.
Qed.

Lemma holds_step byState ts loop t :
  Holds byState ts loop -> Holds byState (ts ++ [t]) (applyRetained byState loop t).
Proof.
  intros [HK HE HS HO]. constructor; unfold applyRetained; cbn [Ingest.stateAggregation
    Ingest.taxTypeSeen Ingest.taxTypeOrder].
  - rewrite keys_set, HK, map_app. cbn [map]. rewrite firstSeen_snoc. reflexivity.
  - intros s a G.
    destruct (String.eqb_spec (r_state t) s) as [E|N].
    + subst s. rewrite get_set_same in G. injection G as <-.
      destruct (get (r_state t) (Ingest.stateAggregation loop)) as [e|] eqn:Ge.
      * destruct (HE _ _ Ge) as [E1 [E2 [E3 E4]]].
        unfold Ingest.addTax. cbn [Ingest.state Ingest.population Ingest.totalRevenue
          Ingest.breakdown].
        split; [exact E1|]. split; [exact E2|].
        split; [rewrite E3; symmetry; apply stateTotal_snoc_same; reflexivity|].
        intros k. destruct (String.eqb_spec (r_key t) k) as [Ek|Nk].
        -- subst k. rewrite get_set_same, E4.
           symmetry. apply categoryTotal_snoc_same; reflexivity.
        -- rewrite get_set_other by exact Nk. rewrite E4.
           symmetry. apply categoryTotal_snoc_other. right. exact Nk.
      * unfold Ingest.addTax. cbn [Ingest.state Ingest.population Ingest.totalRevenue
          Ingest.breakdown get].
        assert (Z0 : ofState (r_state t) ts = []).
        { apply ofState_nil. rewrite <- In_firstSeen, <- HK.
          apply get_None_keys. exact Ge. }
        split; [reflexivity|]. split; [reflexivity|].
        split.
        { rewrite stateTotal_snoc_same by reflexivity.
          unfold stateTotal. rewrite Z0. reflexivity. }
        intros k. destruct (String.eqb_spec (r_key t) k) as [Ek|Nk].
        -- subst k. cbn [set get]. rewrite String.eqb_refl.
           rewrite categoryTotal_snoc_same by reflexivity.
           unfold categoryTotal, ofCategory. rewrite Z0. reflexivity.
        -- cbn [set get]. apply String.eqb_neq in Nk.
           rewrite String.eqb_sym, Nk.
           rewrite categoryTotal_snoc_other
             by (right; apply String.eqb_neq; exact Nk).
           unfold categoryTotal, ofCategory. rewrite Z0. reflexivity.
    + rewrite get_set_other in G by exact N.
      destruct (HE _ _ G) as [E1 [E2 [E3 E4]]].
      split; [exact E1|]. split; [exact E2|].
      split; [rewrite E3; symmetry; apply stateTotal_snoc_other; exact N|].
      intros k. rewrite E4. symmetry. apply categoryTotal_snoc_other. left. exact N.
  - rewrite HS, map_app. cbn [map]. rewrite firstSeen_snoc. reflexivity.
  - rewrite HO. unfold note. destruct (Str.mem (r_key t) (Ingest.taxTypeSeen loop));
      reflexivity.
Qed.

Lemma holds_fold byState ts :
  Holds byState ts (fold_left (applyRetained byState) ts Ingest.emptyLoop).
Proof.
  induction ts as [|t ts IH] using rev_ind.
  - apply holds_empty.
  - rewrite fold_left_app. apply holds_step, IH.
Qed.

Lemma holds_aggregate config byState top rows :
  Holds byState (retained config top rows)
        (Ingest.aggregate config byState top rows).
Proof. rewrite aggregate_retained. apply holds_fold. Qed.

End AggregationFacts.

(* ================================================================== *)
(** * Part 13. The payload *)
(* ================================================================== *)

Module PayloadFacts.
Import Num Js Notions NumFacts OrderFacts MapFacts SortFacts PopulationFacts
       AggregationFacts.

(** What a successful run has computed, in terms of the rows read. *)
Lemma run_payload lib config taxFile populationFile now taxRows populationRows payload :
  Ingest.readCsv lib taxFile = Ok taxRows ->
  Ingest.readCsv lib populationFile = Ok populationRows ->
  Ingest.run lib config taxFile populationFile now = Ok payload ->
  let byState := Ingest.populationByState config populationRows in
  let top := Ingest.topStates config byState in
  let loop := Ingest.aggregate config byState top taxRows in
  Ingest.states payload
  = sort Ingest.byTotalRevenue
         (map Ingest.finishState (map snd loop.(Ingest.stateAggregation)))
  /\ Ingest.taxTypes payload
     = map (fun k => {| Ingest.key := k; Ingest.label := Ingest.labelOf config k |})
           loop.(Ingest.taxTypeOrder).
Proof.
  intros RT RP R. unfold Ingest.run in R. rewrite RT, RP in R. cbn [bind] in R.
  unfold Ingest.resolvePopulation in R.
  destruct (Ingest.populationByState config populationRows) as [|e rest] eqn:E;
    [discriminate R|].
  cbn [bind] in R. injection R as <-. split; reflexivity.
Qed.

Lemma topStates_In config byState s :
  In s (Ingest.topStates config byState) -> In s (map fst byState).
Proof.
  unfold Ingest.topStates. rewrite !in_map_iff.
  intros [e [E H]]. exists e. split; [exact E|].
  apply slice0_In in H. apply sort_In in H. exact H.
Qed.

Lemma NoDup_firstn {A : Type} (n : nat) (l : list A) : NoDup l -> NoDup (firstn n l).
Proof.
  revert l. induction n as [|n IH]; intros [|x l] ND; simpl; try constructor.
  - inversion ND as [|? ? Hx ND']; subst. intros H. apply Hx.
    eapply firstn_In, H.
  - inversion ND; subst. auto.
Qed.

Lemma topStates_NoDup config rows :
  NoDup (Ingest.topStates config (Ingest.populationByState config rows)).
Proof.
  unfold Ingest.topStates, slice0. rewrite <- firstn_map. apply NoDup_firstn.
  apply Permutation_NoDup
    with (l := map fst (Ingest.populationByState config rows)).
  - apply Permutation_map, Permutation_sym, sort_perm.
  - rewrite populationByState_keys. apply firstSeen_NoDup.
Qed.

Lemma topStates_length config byState :
  0 <= Ingest.topNStates config ->
  Z.of_nat (List.length (Ingest.topStates config byState))
  = Z.min (Ingest.topNStates config) (Z.of_nat (List.length byState)).
Proof.
  intros H. unfold Ingest.topStates.
  rewrite length_map, slice0_length by exact H. rewrite sort_length. reflexivity.
Qed.

Lemma states_length lib config taxFile populationFile now taxRows populationRows payload :
  Ingest.readCsv lib taxFile = Ok taxRows ->
  Ingest.readCsv lib populationFile = Ok populationRows ->
  Ingest.run lib config taxFile populationFile now = Ok payload ->
  let byState := Ingest.populationByState config populationRows in
  let top := Ingest.topStates config byState in
  List.length (Ingest.states payload)
  = List.length (firstSeen (map r_state (retained config top taxRows))).
Proof.
  intros RT RP R byState top.
  destruct (run_payload _ _ _ _ _ _ _ _ RT RP R) as [S _].
  rewrite S, sort_length, !length_map.
  rewrite <- (holds_keys _ _ _ (holds_aggregate config byState top taxRows)).
  rewrite length_map. reflexivity.
Qed.

(** C4, as the code has it.  The number of states in the payload is the
    number of distinct selected states for which a tax row is retained
    (a row the year test keeps, with a tax type that is not blank); it
    is at most the least of [topNStates] and the number of states with
    a valid population, and it is equal to it when a tax row is
    retained for every selected state. *)
Theorem output_state_count (lib : Library) (config : Ingest.Config)
        (taxFile populationFile : Ingest.fileRead) (now : string)
        (taxRows populationRows : list csvRow) (payload : Ingest.Payload)
        (RT : Ingest.readCsv lib taxFile = Ok taxRows)
        (RP : Ingest.readCsv lib populationFile = Ok populationRows)
        (R : Ingest.run lib config taxFile populationFile now = Ok payload)
        (N : 0 <= Ingest.topNStates config) :
  let byState := Ingest.populationByState config populationRows in
  let top := Ingest.topStates config byState in
  let ts := retained config top taxRows in
  List.length (Ingest.states payload) = List.length (firstSeen (map r_state ts))
  /\ Z.of_nat (List.length (Ingest.states payload))
     <= Z.min (Ingest.topNStates config) (Z.of_nat (List.length byState))
  /\ ((forall s, In s top -> In s (map r_state ts)) ->
      Z.of_nat (List.length (Ingest.states payload))
      = Z.min (Ingest.topNStates config) (Z.of_nat (List.length byState))).
Proof.
  intros byState top ts.
  pose proof (states_length _ _ _ _ _ _ _ _ RT RP R) as L.
  fold byState top ts in L.
  assert (I : incl (firstSeen (map r_state ts)) top).
  { intros s Hs. apply (proj1 (In_firstSeen _ _)) in Hs. apply in_map_iff in Hs.
    destruct Hs as [t [<- Ht]]. eapply retained_top, Ht. }
  split; [exact L|]. split.
  - rewrite L, <- (topStates_length config byState N).
    apply inj_le. apply NoDup_incl_length; [apply firstSeen_NoDup | exact I].
  - intros All. rewrite L, <- (topStates_length config byState N). f_equal.
    apply Nat.le_antisymm.
    + apply NoDup_incl_length; [apply firstSeen_NoDup | exact I].
    + apply NoDup_incl_length; [apply topStates_NoDup|].
      intros s Hs. apply In_firstSeen. apply All. exact Hs.
Qed.

(** C4, as the specification states it, fails: Texas and California
    both have a valid population and two states are to be selected, but
    only California has a tax row, and the payload has one state. *)
Lemma state_without_tax_rows_missing :
  let lib := Examples.library None
               [Examples.taxRow "California" "2023" "Property tax" "5" "1"]
               [Examples.populationRow "Texas" "2023" "100";
                Examples.populationRow "California" "2023" "300"] in
  let config := Examples.ingestConfig 2 in
  exists payload,
    Ingest.run lib config (Ingest.FileContent "tax") (Ingest.FileContent "population")
               "2024-01-01T00:00:00.000Z" = Ok payload
    /\ List.length (Ingest.states payload) = 1%nat
    /\ Ingest.topNStates config = 2
    /\ List.length
         (Ingest.populationByState config
            [Examples.populationRow "Texas" "2023" "100";
             Examples.populationRow "California" "2023" "300"]) = 2%nat.
Proof. eexists. repeat split. Qed.

(** The statement of C4 at a concrete run: two populations, two states
    to select, tax rows for California only. *)
Lemma output_state_count_example :
  let taxRows := [Examples.taxRow "California" "2023" "Property tax" "5" "1"] in
  let populationRows := [Examples.populationRow "Texas" "2023" "100";
                         Examples.populationRow "California" "2023" "300"] in
  let lib := Examples.library None taxRows populationRows in
  let config := Examples.ingestConfig 2 in
  exists payload,
    Ingest.run lib config (Ingest.FileContent "tax") (Ingest.FileContent "population")
               "2024-01-01T00:00:00.000Z" = Ok payload
    /\ 0 <= Ingest.topNStates config
    /\ Z.of_nat (List.length (Ingest.states payload))
       <= Z.min (Ingest.topNStates config)
                (Z.of_nat (List.length (Ingest.populationByState config populationRows))).
Proof.
  intros taxRows populationRows lib config.
  destruct (Ingest.run lib config (Ingest.FileContent "tax")
              (Ingest.FileContent "population") "2024-01-01T00:00:00.000Z")
    as [payload|e] eqn:R; [|vm_compute in R; discriminate R].
  exists payload. split; [reflexivity|]. split; [vm_compute; discriminate|].
  apply (output_state_count lib config (Ingest.FileContent "tax")
           (Ingest.FileContent "population") "2024-01-01T00:00:00.000Z"
           taxRows populationRows payload eq_refl eq_refl R).
  vm_compute. discriminate.
Defined.






End PayloadFacts.

(* ================================================================== *)
(** * Part 14. The year test of the ingestion step *)
(* ================================================================== *)

Module YearFacts.
Import Num Js Notions NumFacts OrderFacts MapFacts SortFacts PopulationFacts
       AggregationFacts.

Lemma otherYear_true config cell :
  Ingest.otherYear config cell = true
  <-> isFinite (toNumber cell) = true
      /\ strictNe (toNumber cell) (Ingest.year config) = true.
Proof. unfold Ingest.otherYear. apply Bool.andb_true_iff. Qed.

Lemma otherYear_false config cell :
  Ingest.otherYear config cell = false
  <-> isFinite (toNumber cell) = false
      \/ strictNe (toNumber cell) (Ingest.year config) = false.
Proof. unfold Ingest.otherYear. apply Bool.andb_false_iff. Qed.

Lemma populationStep_kept config m row :
  Ingest.otherYear config
    (csvProp row (Ingest.population_year (Ingest.columns_population config))) = false ->
  let state :=
    Ingest.normalizeState
      (csvProp row (Ingest.population_state (Ingest.columns_population config))) in
  let population :=
    Ingest.parseNumeric
      (csvProp row (Ingest.population_population (Ingest.columns_population config))) in
  Ingest.populationStep config m row
  = if Str.mem state VALID_STATES && gtb population zero
    then set state population m else m.
Proof.
  intros O state population. rewrite populationStep_survivor. unfold survivor.
  rewrite O. fold state population. cbn [negb andb].
  destruct (Str.mem state VALID_STATES && gtb population zero); reflexivity.
Qed.

Lemma taxStep_kept config byState top loop row :
  Ingest.otherYear config
    (csvProp row (Ingest.tax_year (Ingest.columns_tax config))) = false ->
  let columns := Ingest.columns_tax config in
  let state := Ingest.normalizeState (csvProp row (Ingest.tax_state columns)) in
  let rawTaxType :=
    Str.trim (toString (orElse (csvProp row (Ingest.tax_taxType columns)) (VStr ""))) in
  Ingest.taxStep config byState top loop row
  = if Str.mem state top && negb (Str.isEmpty rawTaxType)
    then applyRetained byState loop
           {| r_state := state;
              r_key := Ingest.taxTypeKeyOf config rawTaxType;
              r_amount :=
                add (Ingest.parseNumeric
                       (csvProp row (Ingest.tax_stateTaxRevenue columns)))
                    (Ingest.parseNumeric
                       (csvProp row (Ingest.tax_localTaxRevenue columns))) |}
    else loop.
Proof.
  intros O columns state rawTaxType. rewrite taxStep_retained. unfold retainedRow.
  rewrite O. fold columns state rawTaxType. cbn [negb andb].
  destruct (Str.mem state top && negb (Str.isEmpty rawTaxType)); reflexivity.
Qed.

(** C10.  In both loops of the ingestion step the year test skips a row
    exactly when its year converts to a finite Number that is not the
    configured year.  A row so skipped has no effect: the population Map
    and the aggregation are those of the rows without it.  A row whose
    year does not convert to a finite Number is processed as any row of
    the configured year: a population row with a state of the roster
    and a strictly positive population is stored, a tax row of a
    selected state with a tax type that is not blank is aggregated. *)
Theorem year_test (config : Ingest.Config) (row : csvRow) :
  let populationYear :=
    toNumber (csvProp row (Ingest.population_year (Ingest.columns_population config))) in
  let taxYear :=
    toNumber (csvProp row (Ingest.tax_year (Ingest.columns_tax config))) in
  let differs (y : number) :=
    isFinite y = true /\ strictNe y (Ingest.year config) = true in
  let same (y : number) :=
    isFinite y = false \/ strictNe y (Ingest.year config) = false in
  (forall before after,
      differs populationYear ->
      Ingest.populationByState config (before ++ row :: after)
      = Ingest.populationByState config (before ++ after))
  /\ (forall byState top before after,
         differs taxYear ->
         Ingest.aggregate config byState top (before ++ row :: after)
         = Ingest.aggregate config byState top (before ++ after))
  /\ (forall m,
         same populationYear ->
         Ingest.populationStep config m row
         = let state :=
             Ingest.normalizeState
               (csvProp row (Ingest.population_state (Ingest.columns_population config))) in
           let population :=
             Ingest.parseNumeric
               (csvProp row
                  (Ingest.population_population (Ingest.columns_population config))) in
           if Str.mem state VALID_STATES && gtb population zero
           then set state population m else m)
  /\ (forall byState top loop,
         same taxYear ->
         Ingest.taxStep config byState top loop row
         = let columns := Ingest.columns_tax config in
           let state := Ingest.normalizeState (csvProp row (Ingest.tax_state columns)) in
           let rawTaxType :=
             Str.trim
               (toString (orElse (csvProp row (Ingest.tax_taxType columns)) (VStr ""))) in
           if Str.mem state top && negb (Str.isEmpty rawTaxType)
           then applyRetained byState loop
                  {| r_state := state;
                     r_key := Ingest.taxTypeKeyOf config rawTaxType;
                     r_amount :=
                       add (Ingest.parseNumeric
                              (csvProp row (Ingest.tax_stateTaxRevenue columns)))
                           (Ingest.parseNumeric
                              (csvProp row (Ingest.tax_localTaxRevenue columns))) |}
           else loop).
Proof.
  intros populationYear taxYear differs same.
  split; [|split; [|split]].
  - intros before after D. apply otherYear_true in D.
    unfold Ingest.populationByState. rewrite !fold_left_app. cbn [fold_left].
    f_equal. unfold Ingest.populationStep. rewrite D. reflexivity.
  - intros byState top before after D. apply otherYear_true in D.
    unfold Ingest.aggregate. rewrite !fold_left_app. cbn [fold_left].
    f_equal. unfold Ingest.taxStep. rewrite D. reflexivity.
  - intros m S. apply otherYear_false in S. apply populationStep_kept, S.
  - intros byState top loop S. apply otherYear_false in S. apply taxStep_kept, S.
Qed.

(** The statement at concrete rows: a Texas population row whose year
    is the text "n/a" is stored, and one of 2022 is not. *)
Lemma year_test_example :
  Ingest.populationByState (Examples.ingestConfig 20)
    [Examples.populationRow "Texas" "n/a" "100"]
  = [("Texas", ofZ 100)]
  /\ Ingest.populationByState (Examples.ingestConfig 20)
       [Examples.populationRow "Texas" "2022" "100"]
     = [].
Proof. split; vm_compute; reflexivity. Qed.

End YearFacts.

(* ================================================================== *)
(** * Part 15. More about the ingestion step *)
(* ================================================================== *)

Module IngestMore.
Import Num Js Notions MoreNotions NumFacts OrderFacts MapFacts SortFacts
       PopulationFacts AggregationFacts PayloadFacts.

Lemma payload_states lib config taxFile populationFile now taxRows populationRows payload :
  Ingest.readCsv lib taxFile = Ok taxRows ->
  Ingest.readCsv lib populationFile = Ok populationRows ->
  Ingest.run lib config taxFile populationFile now = Ok payload ->
  Ingest.states payload
  = sort Ingest.byTotalRevenue (unsorted config taxRows populationRows).
Proof.
  intros RT RP R. destruct (run_payload _ _ _ _ _ _ _ _ RT RP R) as [S _].
  exact S.
Qed.

(** The records before the sort are those of the aggregation Map, one
    per key. *)
Lemma In_unsorted config taxRows populationRows r :
  let byState := Ingest.populationByState config populationRows in
  let top := Ingest.topStates config byState in
  In r (unsorted config taxRows populationRows)
  <-> exists s a,
        get s (Ingest.aggregate config byState top taxRows).(Ingest.stateAggregation)
        = Some a
        /\ r = Ingest.finishState a.
Proof.
  intros byState top. unfold unsorted. fold byState top.
  pose proof (holds_aggregate config byState top taxRows) as Hd.
  rewrite map_map, in_map_iff. split.
  - intros [[s a] [<- I]]. exists s, a. split; [|reflexivity].
    apply In_get; [|exact I]. rewrite (holds_keys _ _ _ Hd). apply firstSeen_NoDup.
  - intros [s [a [G ->]]]. exists (s, a). split; [reflexivity|].
    apply get_In, G.
Qed.

Lemma unsorted_states config taxRows populationRows :
  let byState := Ingest.populationByState config populationRows in
  let top := Ingest.topStates config byState in
  map Ingest.out_state (unsorted config taxRows populationRows)
  = firstSeen (map r_state (retained config top taxRows)).
Proof.
  intros byState top. unfold unsorted. fold byState top.
  pose proof (holds_aggregate config byState top taxRows) as Hd.
  rewrite <- (holds_keys _ _ _ Hd).
  assert (ND : NoDup (map fst (Ingest.stateAggregation
                                 (Ingest.aggregate config byState top taxRows))))
    by (rewrite (holds_keys _ _ _ Hd); apply firstSeen_NoDup).
  assert (E : forall s a,
             In (s, a) (Ingest.stateAggregation
                          (Ingest.aggregate config byState top taxRows)) ->
             Ingest.state a = s).
  { intros s a I. apply (holds_entry _ _ _ Hd). apply In_get; assumption. }
  revert E. clear.
  induction (Ingest.stateAggregation (Ingest.aggregate config byState top taxRows))
    as [|[s a] l IH]; intros E; simpl; [reflexivity|].
  f_equal.
  - apply E. left. reflexivity.
  - apply IH. intros s' a' I. apply E. right. exact I.
Qed.





Lemma survivor_roster config row e :
  survivor config row = Some e -> Str.mem (fst e) VALID_STATES = true.
Proof.
  unfold survivor.
  destruct (negb _ && Str.mem _ VALID_STATES && gtb _ zero) eqn:C; [|discriminate].
  intros [= <-]. cbn [fst].
  apply Bool.andb_true_iff in C. destruct C as [C _].
  apply Bool.andb_true_iff in C. apply C.
Qed.

Lemma topStates_roster config rows s :
  In s (Ingest.topStates config (Ingest.populationByState config rows)) ->
  Str.mem s VALID_STATES = true.
Proof.
  intros H. apply topStates_In in H. rewrite populationByState_keys in H.
  apply (proj1 (In_firstSeen _ _)) in H. apply in_map_iff in H.
  destruct H as [e [<- H]]. apply In_somes in H. destruct H as [row [_ H]].
  eapply survivor_roster, H.
Qed.

(** X2.  In the payload of a successful run no state appears twice, and
    every state is one of the selected states, hence a state of the
    roster. *)
Theorem payload_states_distinct (lib : Library) (config : Ingest.Config)
        (taxFile populationFile : Ingest.fileRead) (now : string)
        (taxRows populationRows : list csvRow) (payload : Ingest.Payload)
        (RT : Ingest.readCsv lib taxFile = Ok taxRows)
        (RP : Ingest.readCsv lib populationFile = Ok populationRows)
        (R : Ingest.run lib config taxFile populationFile now = Ok payload) :
  let top := Ingest.topStates config (Ingest.populationByState config populationRows) in
  NoDup (map Ingest.out_state (Ingest.states payload))
  /\ (forall r, In r (Ingest.states payload) ->
                In r.(Ingest.out_state) top
                /\ Str.mem r.(Ingest.out_state) VALID_STATES = true).
Proof.
  intros top. pose proof (payload_states _ _ _ _ _ _ _ _ RT RP R) as S.
  pose proof (unsorted_states config taxRows populationRows) as U. cbv zeta in U.
  fold top in U.
  split.
  - apply Permutation_NoDup
      with (l := map Ingest.out_state (unsorted config taxRows populationRows)).
    + rewrite S. apply Permutation_map, Permutation_sym, sort_perm.
    + rewrite U. apply firstSeen_NoDup.
  - intros r I. rewrite S in I. apply sort_In in I.
    apply (in_map Ingest.out_state) in I. rewrite U in I.
    apply (proj1 (In_firstSeen _ _)) in I. apply in_map_iff in I.
    destruct I as [t [E It]]. apply retained_top in It. rewrite E in It.
    split; [exact It | eapply topStates_roster, It].
Qed.

(** The statement of X2 at a concrete run. *)
Lemma payload_states_distinct_example :
  let taxRows := [Examples.taxRow "Texas" "2023" "Property tax" "10" "5";
                  Examples.taxRow "Ohio" "2023" "Property tax" "4" "0";
                  Examples.taxRow "Texas" "2023" "Other tax" "1" "0"] in
  let populationRows := [Examples.populationRow "Texas" "2023" "100";
                         Examples.populationRow "Ohio" "2023" "50"] in
  let lib := Examples.library None taxRows populationRows in
  let config := Examples.ingestConfig 20 in
  exists payload,
    Ingest.run lib config (Ingest.FileContent "tax") (Ingest.FileContent "population")
               "2024-01-01T00:00:00.000Z" = Ok payload
    /\ NoDup (map Ingest.out_state (Ingest.states payload)).
Proof.
  intros taxRows populationRows lib config.
  destruct (Ingest.run lib config (Ingest.FileContent "tax")
              (Ingest.FileContent "population") "2024-01-01T00:00:00.000Z")
    as [payload|e] eqn:R; [|vm_compute in R; discriminate R].
  exists payload. split; [reflexivity|].
  destruct (payload_states_distinct lib config (Ingest.FileContent "tax")
              (Ingest.FileContent "population") "2024-01-01T00:00:00.000Z"
              taxRows populationRows payload eq_refl eq_refl R) as [H _].
  exact H.
Defined.

Lemma round_wf x : wf (round x) = true.
Proof.
  destruct x as [s|s| |s m e]; try reflexivity. unfold round.
  destruct (0 <=? e) eqn:E.
  - apply Z.leb_le in E. apply Z.leb_le. unfold emin. lia.
  - destruct (_ =? 0); [reflexivity | apply binary_normalize_wf].
Qed.

Lemma byTotalRevenue_key a b :
  orderable a -> orderable b ->
  gtb (Ingest.byTotalRevenue a b) zero
  = ltb a.(Ingest.out_totalRevenue) b.(Ingest.out_totalRevenue).
Proof.
  intros [Fa Wa] [Fb Wb]. unfold Ingest.byTotalRevenue.
  rewrite gtb_sub by assumption. reflexivity.
Qed.

Lemma orderable_finite r : orderable r -> isFinite r.(Ingest.out_totalRevenue) = true.
Proof. intros [F _]. exact F. Qed.

(** X3.  When every total of the payload is finite, the states stand
    in decreasing order of totalRevenue; they are a rearrangement of the
    records of the aggregation Map, whose states stand in the order in
    which the retained tax rows first show them, and the sort keeps that
    order among equal totals. *)
Theorem states_by_total_revenue (lib : Library) (config : Ingest.Config)
        (taxFile populationFile : Ingest.fileRead) (now : string)
        (taxRows populationRows : list csvRow) (payload : Ingest.Payload)
        (RT : Ingest.readCsv lib taxFile = Ok taxRows)
        (RP : Ingest.readCsv lib populationFile = Ok populationRows)
        (R : Ingest.run lib config taxFile populationFile now = Ok payload)
        (F : Forall (fun r => isFinite r.(Ingest.out_totalRevenue) = true)
                    (Ingest.states payload)) :
  let before := unsorted config taxRows populationRows in
  let top := Ingest.topStates config (Ingest.populationByState config populationRows) in
  StronglySorted (notBelow Ingest.out_totalRevenue) (Ingest.states payload)
  /\ Permutation (Ingest.states payload) before
  /\ map Ingest.out_state before
     = firstSeen (map r_state (retained config top taxRows))
  /\ (forall p,
         filter (fun r => eqb r.(Ingest.out_totalRevenue) p) (Ingest.states payload)
         = filter (fun r => eqb r.(Ingest.out_totalRevenue) p) before).
Proof.
  intros before top. pose proof (payload_states _ _ _ _ _ _ _ _ RT RP R) as S.
  fold before in S.
  assert (G : Forall orderable before).
  { apply Forall_forall. intros r I. split.
    - rewrite Forall_forall in F. apply F. rewrite S. apply sort_In, I.
    - apply In_unsorted in I. destruct I as [s [a [_ ->]]]. apply round_wf. }
  rewrite S. split; [|split; [|split]].
  - apply (sort_sorted Ingest.byTotalRevenue Ingest.out_totalRevenue orderable);
      [exact orderable_finite | exact byTotalRevenue_key | exact G].
  - apply sort_perm.
  - apply unsorted_states.
  - intros p.
    apply (sort_stable Ingest.byTotalRevenue Ingest.out_totalRevenue orderable);
      [exact byTotalRevenue_key | | exact G].
    intros x y Gx Gy Ex Ey.
    apply eqb_not_ltb with p; auto using orderable_finite.
Qed.

(** The statement of X3 at a concrete run: Ohio's total is the larger
    and comes first. *)
Lemma states_by_total_revenue_example :
  let taxRows := [Examples.taxRow "Texas" "2023" "Property tax" "10" "5";
                  Examples.taxRow "Ohio" "2023" "Property tax" "40" "0"] in
  let populationRows := [Examples.populationRow "Texas" "2023" "100";
                         Examples.populationRow "Ohio" "2023" "50"] in
  let lib := Examples.library None taxRows populationRows in
  let config := Examples.ingestConfig 20 in
  exists payload,
    Ingest.run lib config (Ingest.FileContent "tax") (Ingest.FileContent "population")
               "2024-01-01T00:00:00.000Z" = Ok payload
    /\ map Ingest.out_state (Ingest.states payload) = ["Ohio"; "Texas"]
    /\ Forall (fun r => isFinite r.(Ingest.out_totalRevenue) = true)
              (Ingest.states payload)
    /\ StronglySorted (notBelow Ingest.out_totalRevenue) (Ingest.states payload).
Proof.
  intros taxRows populationRows lib config.
  destruct (Ingest.run lib config (Ingest.FileContent "tax")
              (Ingest.FileContent "population") "2024-01-01T00:00:00.000Z")
    as [payload|e] eqn:R; [|vm_compute in R; discriminate R].
  assert (F : Forall (fun r => isFinite r.(Ingest.out_totalRevenue) = true)
                     (Ingest.states payload)).
  { vm_compute in R. injection R as <-. repeat constructor. }
  exists payload. split; [reflexivity|]. split.
  - vm_compute in R. injection R as <-. reflexivity.
  - split; [exact F|].
    destruct (states_by_total_revenue lib config (Ingest.FileContent "tax")
                (Ingest.FileContent "population") "2024-01-01T00:00:00.000Z"
                taxRows populationRows payload eq_refl eq_refl R F) as [H _].
    exact H.
Defined.

Lemma survivors_nil_iff config rows :
  Ingest.populationByState config rows = [] <-> survivors config rows = [].
Proof.
  rewrite populationByState_survivors. split.
  - intros H. apply fold_put_nil in H. apply H.
  - intros ->. reflexivity.
Qed.

Lemma run_resolved lib config taxFile populationFile now taxRows populationRows :
  Ingest.readCsv lib taxFile = Ok taxRows ->
  Ingest.readCsv lib populationFile = Ok populationRows ->
  survivors config populationRows <> [] ->
  exists payload,
    Ingest.run lib config taxFile populationFile now = Ok payload
    /\ Ingest.states payload = sort Ingest.byTotalRevenue (unsorted config taxRows populationRows)
    /\ map Ingest.key (Ingest.taxTypes payload)
       = (Ingest.aggregate config (Ingest.populationByState config populationRows)
            (Ingest.topStates config (Ingest.populationByState config populationRows))
            taxRows).(Ingest.taxTypeOrder).
Proof.
  intros RT RP N. unfold Ingest.run. rewrite RT, RP. cbn [bind].
  unfold Ingest.resolvePopulation, unsorted.
  destruct (Ingest.populationByState config populationRows) as [|e m] eqn:E.
  - apply survivors_nil_iff in E. contradiction.
  - cbn [bind]. eexists. split; [reflexivity|]. split; [reflexivity|].
    cbn [Ingest.taxTypes]. rewrite map_map. cbn [Ingest.key]. apply map_id.
Qed.

(** X4.  What a run of the ingestion ends with.  A tax file that cannot
    be read or parsed fails the run with its error, whatever the
    population file holds; otherwise so does the population file;
    otherwise the run fails exactly when no population row survives.
    The tax rows never make the run fail: when none is retained the
    payload is written without any state and without any tax type. *)
Theorem run_outcome (lib : Library) (config : Ingest.Config)
        (taxFile populationFile : Ingest.fileRead) (now : string) :
  let outcome := Ingest.run lib config taxFile populationFile now in
  match Ingest.readCsv lib taxFile, Ingest.readCsv lib populationFile with
  | Throw e, _ => outcome = Throw e
  | Ok _, Throw e => outcome = Throw e
  | Ok taxRows, Ok populationRows =>
      match survivors config populationRows with
      | [] => outcome = Throw NoPopulationRows
      | _ =>
          exists payload,
            outcome = Ok payload
            /\ (retained config
                  (Ingest.topStates config
                     (Ingest.populationByState config populationRows)) taxRows = [] ->
                Ingest.states payload = [] /\ Ingest.taxTypes payload = [])
      end
  end.
Proof.
  intros outcome. subst outcome.
  destruct (Ingest.readCsv lib taxFile) as [taxRows|e] eqn:RT.
  2:{ unfold Ingest.run. rewrite RT. reflexivity. }
  destruct (Ingest.readCsv lib populationFile) as [populationRows|e] eqn:RP.
  2:{ unfold Ingest.run. rewrite RT, RP. reflexivity. }
  destruct (survivors config populationRows) as [|e alive] eqn:A.
  - apply survivors_nil_iff in A. unfold Ingest.run. rewrite RT, RP. cbn [bind].
    unfold Ingest.resolvePopulation. rewrite A. reflexivity.
  - destruct (run_resolved lib config taxFile populationFile now taxRows populationRows
                RT RP) as [payload [R [S T]]].
    { rewrite A. discriminate. }
    exists payload. split; [exact R|]. intros N.
    unfold unsorted in S. rewrite aggregate_retained, N in S, T.
    split; [exact S|]. destruct (Ingest.taxTypes payload); [reflexivity | discriminate T].
Qed.

Lemma otherYear_not_number config cell :
  (forall n, Ingest.year config <> VNum n) ->
  Ingest.otherYear config cell = isFinite (toNumber cell).
Proof.
  intros H. unfold Ingest.otherYear, strictNe.
  destruct (Ingest.year config) as [| | |n| |] eqn:Y; try apply Bool.andb_true_r.
  exfalso. apply (H n). reflexivity.
Qed.

(** X5.  The year test compares with strict inequality, which never
    converts: when the configured year is not a Number (a text such as
    2023 in quotes, say), every row whose year cell is a finite number
    is skipped, so population rows whose year cells are all numbers
    leave the population Map empty, which is the error of no population
    rows, and no tax row with a numeric year is retained. *)
Theorem year_must_be_number (config : Ingest.Config)
        (Y : forall n, Ingest.year config <> VNum n) :
  (forall rows,
      Forall (fun row =>
                isFinite (toNumber
                            (csvProp row (Ingest.population_year
                                            (Ingest.columns_population config))))
                = true) rows ->
      Ingest.resolvePopulation config rows = Throw NoPopulationRows)
  /\ (forall byState top rows,
         Forall (fun row =>
                   isFinite (toNumber
                               (csvProp row (Ingest.tax_year (Ingest.columns_tax config))))
                   = true) rows ->
         Ingest.aggregate config byState top rows = Ingest.emptyLoop).
Proof.
  split.
  - intros rows F. unfold Ingest.resolvePopulation.
    assert (E : Ingest.populationByState config rows = []).
    { apply survivors_nil_iff. unfold survivors. induction F as [|row rows H _ IH].
      - reflexivity.
      - rewrite somes_cons. unfold survivor at 1.
        rewrite otherYear_not_number, H by exact Y. cbn [negb andb]. exact IH. }
    rewrite E. reflexivity.
  - intros byState top rows F. rewrite aggregate_retained.
    assert (E : retained config top rows = []).
    { unfold retained. induction F as [|row rows H _ IH].
      - reflexivity.
      - rewrite somes_cons. unfold retainedRow at 1.
        rewrite otherYear_not_number, H by exact Y. cbn [negb andb]. exact IH. }
    rewrite E. reflexivity.
Qed.

(** The statement of X5 at a configuration whose year is the text 2023:
    a population row of the year 2023 is skipped. *)
Lemma year_must_be_number_example :
  let config :=
    {| Ingest.year := VStr "2023";
       Ingest.topNStates := 20;
       Ingest.columns_tax := Ingest.columns_tax (Examples.ingestConfig 20);
       Ingest.columns_population := Ingest.columns_population (Examples.ingestConfig 20);
       Ingest.taxTypeMap := None;
       Ingest.taxTypeLabels := None |} in
  (forall n, Ingest.year config <> VNum n)
  /\ Ingest.resolvePopulation config [Examples.populationRow "Texas" "2023" "100"]
     = Throw NoPopulationRows.
Proof.
  intros config.
  assert (Y : forall n, Ingest.year config <> VNum n) by (intros n; discriminate).
  split; [exact Y|].
  destruct (year_must_be_number config Y) as [H _].
  apply H. repeat constructor.
Defined.

Lemma topStates_zero config byState :
  Ingest.topNStates config = 0 -> Ingest.topStates config byState = [].
Proof.
  intros Z0. unfold Ingest.topStates. rewrite slice0_firstn by lia.
  rewrite Z0. reflexivity.
Qed.

Lemma retained_no_top config rows : retained config [] rows = [].
Proof.
  unfold retained. induction rows as [|row rows IH]; [reflexivity|].
  rewrite somes_cons. unfold retainedRow at 1.
  cbn [Str.mem]. rewrite Bool.andb_false_r. exact IH.
Qed.

(** X6.  The selection count at its edges.  With [topNStates] zero no
    state is selected, and a run that succeeds writes a payload without
    states and without tax types.  A negative [topNStates] does not
    select nothing: [slice] then counts from the end, and all states
    but the [-topNStates] least populous ones are selected. *)
Theorem selection_count_edges (config : Ingest.Config)
        (byState : list (string * number)) :
  (Ingest.topNStates config = 0 ->
   Ingest.topStates config byState = []
   /\ forall lib taxFile populationFile now payload,
        Ingest.run lib config taxFile populationFile now = Ok payload ->
        Ingest.states payload = [] /\ Ingest.taxTypes payload = [])
  /\ (Ingest.topNStates config < 0 ->
      Ingest.topStates config byState
      = map fst (firstn (List.length byState - Z.to_nat (- Ingest.topNStates config))
                        (sort Ingest.byPopulation byState))).
Proof.
  split.
  - intros Z0. split; [apply topStates_zero, Z0|].
    intros lib taxFile populationFile now payload R.
    destruct (Ingest.readCsv lib taxFile) as [taxRows|e] eqn:RT.
    2:{ unfold Ingest.run in R. rewrite RT in R. discriminate R. }
    destruct (Ingest.readCsv lib populationFile) as [populationRows|e] eqn:RP.
    2:{ unfold Ingest.run in R. rewrite RT, RP in R. discriminate R. }
    destruct (run_payload _ _ _ _ _ _ _ _ RT RP R) as [S T]. 
    rewrite aggregate_retained, topStates_zero, retained_no_top in S, T by exact Z0.
    split; [exact S | exact T].
  - intros N. unfold Ingest.topStates, slice0.
    destruct (Z.ltb_spec (Ingest.topNStates config) 0) as [_|C]; [|lia].
    rewrite sort_length. f_equal. f_equal. lia.
Qed.

End IngestMore.

(* ================================================================== *)
(** * Part 16. Texts: trimming, amounts, category keys, fields *)
(* ================================================================== *)

Module TextFacts.
Import Num Js Notions MoreNotions NumFacts.

Ltac each_char c :=
  destruct c as [[] [] [] [] [] [] [] []]; vm_compute; try discriminate;
  intuition (try discriminate; try congruence).

(** ** Trimming *)

Lemma trimStart_ws ws : allWhiteSpace ws = true -> Str.trimStart ws = "".
Proof.
  induction ws as [|c ws IH]; [reflexivity|]. cbn [allWhiteSpace Str.trimStart].
  intros H. apply Bool.andb_true_iff in H. destruct H as [H1 H2].
  rewrite H1. apply IH, H2.
Qed.

Lemma trimStart_ws_app ws s :
  allWhiteSpace ws = true -> Str.trimStart (ws ++ s) = Str.trimStart s.
Proof.
  induction ws as [|c ws IH]; [reflexivity|].
  cbn [allWhiteSpace Str.trimStart String.append].
  intros H. apply Bool.andb_true_iff in H. destruct H as [H1 H2].
  rewrite H1. apply IH, H2.
Qed.

Lemma trimEnd_ws ws : allWhiteSpace ws = true -> Str.trimEnd ws = "".
Proof.
  induction ws as [|c ws IH]; [reflexivity|]. cbn [allWhiteSpace Str.trimEnd].
  intros H. apply Bool.andb_true_iff in H. destruct H as [H1 H2].
  rewrite (IH H2), H1. reflexivity.
Qed.

Lemma trimEnd_app_ws s ws :
  allWhiteSpace ws = true -> Str.trimEnd (s ++ ws) = Str.trimEnd s.
Proof.
  intros H. induction s as [|c s IH]; [apply trimEnd_ws, H|].
  cbn [String.append Str.trimEnd]. rewrite IH. reflexivity.
Qed.

Lemma trimStart_app_ws s ws :
  allWhiteSpace ws = true ->
  exists ws', allWhiteSpace ws' = true
              /\ Str.trimStart (s ++ ws) = Str.trimStart s ++ ws'.
Proof.
  intros H. induction s as [|c s IH].
  - exists "". split; [reflexivity|]. cbn [String.append Str.trimStart].
    apply trimStart_ws, H.
  - cbn [String.append Str.trimStart]. destruct (Str.isWhiteSpace c); [exact IH|].
    exists ws. split; [exact H | reflexivity].
Qed.

Lemma trim_padding ws1 s ws2 :
  allWhiteSpace ws1 = true -> allWhiteSpace ws2 = true ->
  Str.trim (ws1 ++ s ++ ws2) = Str.trim s.
Proof.
  intros H1 H2. unfold Str.trim. rewrite trimStart_ws_app by exact H1.
  destruct (trimStart_app_ws s ws2 H2) as [ws' [W ->]].
  apply trimEnd_app_ws, W.
Qed.

Lemma trimEnd_idem s : Str.trimEnd (Str.trimEnd s) = Str.trimEnd s.
Proof.
  induction s as [|c s IH]; [reflexivity|]. cbn [Str.trimEnd].
  destruct (Str.isEmpty (Str.trimEnd s) && Str.isWhiteSpace c) eqn:E; [reflexivity|].
  cbn [Str.trimEnd]. rewrite IH, E. reflexivity.
Qed.

Lemma trimStart_fixed s :
  match s with String c _ => Str.isWhiteSpace c = false | EmptyString => True end ->
  Str.trimStart s = s.
Proof. destruct s as [|c s]; [reflexivity|]. cbn. intros ->. reflexivity. Qed.

Lemma trimStart_head s :
  match Str.trimStart s with
  | String c _ => Str.isWhiteSpace c = false
  | EmptyString => True
  end.
Proof.
  induction s as [|c s IH]; [exact I|]. cbn [Str.trimStart].
  destruct (Str.isWhiteSpace c) eqn:E; [exact IH | exact E].
Qed.

Lemma trimEnd_head s :
  match s with String c _ => Str.isWhiteSpace c = false | EmptyString => True end ->
  match Str.trimEnd s with
  | String c _ => Str.isWhiteSpace c = false
  | EmptyString => True
  end.
Proof.
  destruct s as [|c s]; [intros _; exact I|]. intros H. cbn [Str.trimEnd].
  rewrite H, Bool.andb_false_r. exact H.
Qed.

Lemma trim_idem s : Str.trim (Str.trim s) = Str.trim s.
Proof.
  unfold Str.trim. rewrite (trimStart_fixed (Str.trimEnd (Str.trimStart s))).
  - apply trimEnd_idem.
  - apply trimEnd_head, trimStart_head.
Qed.

(** X7.  [normalizeState], in both scripts, gives the text of its
    argument without the white space around it: white space before and
    after a state name never matters, an absent cell ([undefined] or
    [null]) gives the empty text, and normalising twice changes
    nothing.  Nothing else is normalised: the result of a text without
    white space at its ends is the text itself, in its own case. *)
Theorem normalizeState_padding (s ws1 ws2 : string)
        (W1 : allWhiteSpace ws1 = true) (W2 : allWhiteSpace ws2 = true) :
  Normalize.normalizeState (VStr (ws1 ++ s ++ ws2)) = Normalize.normalizeState (VStr s)
  /\ Ingest.normalizeState (VStr (ws1 ++ s ++ ws2)) = Ingest.normalizeState (VStr s)
  /\ (forall v, Ingest.normalizeState v = Normalize.normalizeState v)
  /\ (forall v, Normalize.normalizeState (VStr (Normalize.normalizeState v))
                = Normalize.normalizeState v)
  /\ Normalize.normalizeState VUndefined = ""
  /\ Normalize.normalizeState VNull = ""
  /\ (Normalize.normalizeState (VStr s) = s
      <-> Str.trimStart s = s /\ Str.trimEnd s = s).
Proof.
  unfold Normalize.normalizeState, Ingest.normalizeState. cbn [orElse toString].
  split; [apply trim_padding; assumption|].
  split; [apply trim_padding; assumption|].
  split; [reflexivity|]. split; [intros v; apply trim_idem|].
  split; [reflexivity|]. split; [reflexivity|].
  split.
  - intros H. unfold Str.trim in H. assert (T : Str.trimStart s = s).
    { pose proof (trimStart_head s) as Hd. pose proof (trimEnd_head _ Hd) as He.
      rewrite H in He. apply trimStart_fixed, He. }
    split; [exact T|]. rewrite T in H. exact H.
  - intros [T E]. unfold Str.trim. rewrite T. exact E.
Qed.

(** The statement of X7 at a padded state name. *)
Lemma normalizeState_padding_example :
  allWhiteSpace "  " = true /\ allWhiteSpace " " = true
  /\ Normalize.normalizeState (VStr ("  " ++ "New York" ++ " "))
     = Normalize.normalizeState (VStr "New York").
Proof.
  split; [reflexivity|]. split; [reflexivity|].
  destruct (normalizeState_padding "New York" "  " " " eq_refl eq_refl) as [H _].
  exact H.
Defined.

(** ** Category keys *)

Lemma keyChar_not_ws c : Str.isKeyChar c = true -> Str.isWhiteSpace c = false.
Proof. each_char c. Qed.

Lemma keyChar_not_underscore c : Str.isKeyChar c = true -> Ascii.eqb c "_" = false.
Proof. each_char c. Qed.

Lemma keyChar_lower c : Str.isKeyChar c = true -> Str.lowerChar c = c.
Proof. each_char c. Qed.

Lemma collapseRuns_headKey s : headKey (Str.collapseRuns true s) = true.
Proof.
  induction s as [|c s IH]; [reflexivity|]. cbn [Str.collapseRuns].
  destruct (Str.isKeyChar c) eqn:K; [exact K | exact IH].
Qed.

Lemma collapseRuns_collapsed s : forall b, collapsed (Str.collapseRuns b s) = true.
Proof.
  induction s as [|c s IH]; intros b; [reflexivity|]. cbn [Str.collapseRuns].
  destruct (Str.isKeyChar c) eqn:K.
  - cbn [collapsed]. rewrite K. apply IH.
  - destruct b; [apply IH|]. cbn [collapsed].
    rewrite collapseRuns_headKey, IH. reflexivity.
Qed.

Lemma collapsed_inv c rest :
  collapsed (String c rest) = true ->
  collapsed rest = true
  /\ (Str.isKeyChar c = true \/ (c = "_"%char /\ headKey rest = true)).
Proof.
  cbn [collapsed]. destruct (Str.isKeyChar c) eqn:K.
  - intros H. split; [exact H | left; reflexivity].
  - intros H. apply Bool.andb_true_iff in H. destruct H as [H H3].
    apply Bool.andb_true_iff in H. destruct H as [H1 H2].
    apply Ascii.eqb_eq in H1. split; [exact H3 | right; split; assumption].
Qed.

Lemma dropUnderscores_collapsed s :
  collapsed s = true ->
  collapsed (Str.dropUnderscores s) = true /\ headKey (Str.dropUnderscores s) = true.
Proof.
  induction s as [|c s IH]; [intros _; split; reflexivity|].
  intros H. pose proof (collapsed_inv _ _ H) as [C [K|[-> Hd]]].
  - cbn [Str.dropUnderscores]. rewrite (keyChar_not_underscore _ K).
    split; [exact H | exact K].
  - cbn [Str.dropUnderscores]. apply IH, C.
Qed.

Lemma dropTrailing_slug s :
  collapsed s = true ->
  slugTail (Str.dropTrailingUnderscores s) = true
  /\ (headKey s = true -> headKey (Str.dropTrailingUnderscores s) = true).
Proof.
  induction s as [|c s IH]; [intros _; split; reflexivity|].
  intros H. pose proof (collapsed_inv _ _ H) as [C [K|[-> Hd]]].
  - destruct (IH C) as [T _]. cbn [Str.dropTrailingUnderscores].
    rewrite (keyChar_not_underscore _ K), Bool.andb_false_r.
    cbn [slugTail headKey]. rewrite K. split; [exact T | reflexivity].
  - destruct (IH C) as [T Hk]. specialize (Hk Hd). cbn [Str.dropTrailingUnderscores].
    destruct (Str.dropTrailingUnderscores s) as [|d r] eqn:E.
    + split; reflexivity.
    + cbn [Str.isEmpty andb]. split; [|intros X; discriminate X].
      change (slugTail (String "_" (String d r)))
        with (Ascii.eqb "_" "_" && Str.isKeyChar d && slugTail (String d r)).
      cbn [headKey] in Hk. rewrite Hk, T. reflexivity.
Qed.

Lemma toTaxTypeKey_slug v : isSlug (Ingest.toTaxTypeKey v) = true.
Proof.
  unfold Ingest.toTaxTypeKey, Str.stripUnderscores.
  set (t := Str.collapseRuns false _).
  pose proof (collapseRuns_collapsed
                (Str.toLowerCase (Str.trim (toString (orElse v (VStr ""))))) false) as C.
  fold t in C. destruct (dropUnderscores_collapsed t C) as [C' H'].
  destruct (dropTrailing_slug _ C') as [T Hk]. specialize (Hk H').
  unfold isSlug. destruct (Str.dropTrailingUnderscores (Str.dropUnderscores t)) as [|c r].
  - reflexivity.
  - cbn [headKey] in Hk. rewrite Hk. exact T.
Qed.

Lemma slugTail_inv c rest :
  slugTail (String c rest) = true ->
  slugTail rest = true
  /\ (Str.isKeyChar c = true
      \/ (c = "_"%char /\ exists d r, rest = String d r /\ Str.isKeyChar d = true)).
Proof.
  cbn [slugTail]. destruct (Str.isKeyChar c) eqn:K.
  - intros H. split; [exact H | left; reflexivity].
  - intros H. apply Bool.andb_true_iff in H. destruct H as [H H3].
    apply Bool.andb_true_iff in H. destruct H as [H1 H2].
    apply Ascii.eqb_eq in H1. split; [exact H3|]. right. split; [exact H1|].
    destruct rest as [|d r]; [discriminate H2|]. exists d, r. split; [reflexivity | exact H2].
Qed.

Lemma slugTail_trimEnd s : slugTail s = true -> Str.trimEnd s = s.
Proof.
  induction s as [|c s IH]; [reflexivity|]. intros H.
  destruct (slugTail_inv _ _ H) as [T [K|[-> _]]]; cbn [Str.trimEnd]; rewrite (IH T).
  - rewrite (keyChar_not_ws _ K), Bool.andb_false_r. reflexivity.
  - rewrite Bool.andb_false_r. reflexivity.
Qed.

Lemma slugTail_lower s : slugTail s = true -> Str.toLowerCase s = s.
Proof.
  induction s as [|c s IH]; [reflexivity|]. intros H.
  destruct (slugTail_inv _ _ H) as [T [K|[-> _]]]; cbn [Str.toLowerCase]; rewrite (IH T).
  - rewrite (keyChar_lower _ K). reflexivity.
  - reflexivity.
Qed.

Lemma slugTail_collapse s : slugTail s = true -> Str.collapseRuns false s = s.
Proof.
  induction s as [|c s IH]; [reflexivity|]. intros H.
  destruct (slugTail_inv _ _ H) as [T [K|[-> [d [r [-> K]]]]]].
  - cbn [Str.collapseRuns]. rewrite K, (IH T). reflexivity.
  - specialize (IH T). cbn [Str.collapseRuns] in IH |- *. rewrite K in IH |- *.
    cbn [Str.isKeyChar]. change (Str.isKeyChar "_") with false. cbn iota.
    rewrite IH. reflexivity.
Qed.

Lemma slugTail_dropTrailing s :
  slugTail s = true -> Str.dropTrailingUnderscores s = s.
Proof.
  induction s as [|c s IH]; [reflexivity|]. intros H.
  destruct (slugTail_inv _ _ H) as [T [K|[-> [d [r [-> K]]]]]].
  - cbn [Str.dropTrailingUnderscores]. rewrite (IH T).
    rewrite (keyChar_not_underscore _ K), Bool.andb_false_r. reflexivity.
  - change (Str.dropTrailingUnderscores (String "_" (String d r)))
      with (if Str.isEmpty (Str.dropTrailingUnderscores (String d r))
               && Ascii.eqb "_" "_"
            then EmptyString
            else String "_" (Str.dropTrailingUnderscores (String d r))).
    rewrite (IH T). reflexivity.
Qed.

Lemma toTaxTypeKey_fixed k : isSlug k = true -> Ingest.toTaxTypeKey (VStr k) = k.
Proof.
  unfold Ingest.toTaxTypeKey. cbn [orElse toString]. destruct k as [|c r]; [reflexivity|].
  unfold isSlug. intros H. apply Bool.andb_true_iff in H. destruct H as [K T].
  unfold Str.trim. rewrite trimStart_fixed by (apply keyChar_not_ws, K).
  rewrite (slugTail_trimEnd _ T), (slugTail_lower _ T), (slugTail_collapse _ T).
  unfold Str.stripUnderscores. cbn [Str.dropUnderscores].
  rewrite (keyChar_not_underscore _ K). apply slugTail_dropTrailing, T.
Qed.

(** X8.  The category key [toTaxTypeKey] derives from a tax type is
    empty or made of runs of lower-case letters and digits separated by
    single underscores; a text of that shape is its own key, so
    deriving the key of a key changes nothing. *)
Theorem tax_type_key_shape :
  (forall v, isSlug (Ingest.toTaxTypeKey v) = true)
  /\ (forall k, isSlug k = true -> Ingest.toTaxTypeKey (VStr k) = k)
  /\ (forall v, Ingest.toTaxTypeKey (VStr (Ingest.toTaxTypeKey v))
                = Ingest.toTaxTypeKey v).
Proof.
  split; [exact toTaxTypeKey_slug|]. split; [exact toTaxTypeKey_fixed|].
  intros v. apply toTaxTypeKey_fixed, toTaxTypeKey_slug.
Qed.

(** ** Amounts *)

(** What [parseNumeric] does with a text once the currency signs and
    the commas are removed. *)
Lemma parseNumeric_removeCurrency s :
  Normalize.parseNumeric (VStr s)
  = let parsed :=
      StringToNumber (Str.trim (Str.replaceParens (Str.removeCurrency s))) in
    if isFinite parsed then parsed else zero.
Proof. destruct s as [|c s]; reflexivity. Qed.

Lemma removeCurrency_insert a b c :
  c = "$"%char \/ c = ","%char ->
  Str.removeCurrency (a ++ String c b) = Str.removeCurrency (a ++ b).
Proof.
  intros C. induction a as [|x a IH].
  - cbn [String.append Str.removeCurrency]. destruct C as [-> | ->]; reflexivity.
  - cbn [String.append Str.removeCurrency]. rewrite IH. reflexivity.
Qed.

Lemma removeCurrency_idem s :
  Str.removeCurrency (Str.removeCurrency s) = Str.removeCurrency s.
Proof.
  induction s as [|c s IH]; [reflexivity|]. cbn [Str.removeCurrency].
  destruct (Ascii.eqb c "$" || Ascii.eqb c ",") eqn:E; [exact IH|].
  cbn [Str.removeCurrency]. rewrite E, IH. reflexivity.
Qed.

(** X9.  [parseNumeric] reads a text without its currency signs and
    commas, wherever they stand: a dollar sign or a comma put anywhere
    into a cell does not change the amount read, and a cell made only
    of them reads as zero.  Both scripts read amounts alike. *)
Theorem currency_marks_ignored (a b : string) (c : ascii)
        (C : c = "$"%char \/ c = ","%char) :
  Normalize.parseNumeric (VStr (a ++ String c b)) = Normalize.parseNumeric (VStr (a ++ b))
  /\ Ingest.parseNumeric (VStr (a ++ String c b)) = Ingest.parseNumeric (VStr (a ++ b))
  /\ (forall s, Normalize.parseNumeric (VStr s)
                = Normalize.parseNumeric (VStr (Str.removeCurrency s)))
  /\ (forall s, Str.removeCurrency s = "" -> Normalize.parseNumeric (VStr s) = zero).
Proof.
  assert (H : Normalize.parseNumeric (VStr (a ++ String c b))
              = Normalize.parseNumeric (VStr (a ++ b))).
  { rewrite !parseNumeric_removeCurrency, removeCurrency_insert by exact C.
    reflexivity. }
  split; [exact H|]. split; [exact H|]. split.
  - intros s. rewrite !parseNumeric_removeCurrency, removeCurrency_idem. reflexivity.
  - intros s E. rewrite parseNumeric_removeCurrency, E. reflexivity.
Qed.

(** The statement of X9 at the text of one thousand two hundred dollars. *)
Lemma currency_marks_ignored_example :
  ("," = "$" \/ "," = ",")%char
  /\ Normalize.parseNumeric (VStr ("$1" ++ String "," "200"))
     = Normalize.parseNumeric (VStr ("$1" ++ "200")).
Proof.
  assert (C : ("," = "$" \/ "," = ",")%char) by (right; reflexivity).
  split; [exact C|].
  destruct (currency_marks_ignored "$1" "200" "," C) as [H _]. exact H.
Defined.

Lemma binary_round_aux_opp s m e l :
  SFopp (binary_round_aux prec emax s m e l) = binary_round_aux prec emax (negb s) m e l.
Proof.
  unfold binary_round_aux.
  destruct (shr_fexp prec emax m e l) as [mrs e'].
  destruct (shr_fexp prec emax _ e' loc_Exact) as [mrs' e''].
  destruct (shr_m mrs'); [reflexivity| |reflexivity].
  destruct (e'' <=? emax - prec); reflexivity.
Qed.

Lemma binary_round_opp s m e :
  SFopp (binary_round prec emax s m e) = binary_round prec emax (negb s) m e.
Proof.
  unfold binary_round. destruct (shl_align m e _) as [mz ez].
  apply binary_round_aux_opp.
Qed.

Lemma ofDecimal_opp m e : ofDecimal true m e = opp (ofDecimal false m e).
Proof.
  unfold ofDecimal, opp. destruct m as [|p|p]; try reflexivity.
  destruct (400 <? _); [reflexivity|]. destruct (_ <? -400); [reflexivity|].
  destruct (0 <=? e).
  - cbn [cond_Zopp]. destruct (Z.pos p * 10 ^ e) as [|q|q]; cbn [Z.opp binary_normalize].
    + reflexivity.
    + rewrite binary_round_opp. reflexivity.
    + rewrite binary_round_opp. reflexivity.
  - unfold ofRatio, SFdiv.
    destruct (SFdiv_core_binary prec emax (Z.pos p) 0 _ 0) as [[mz ez] lz].
    rewrite binary_round_aux_opp. reflexivity.
Qed.

Lemma parseUnsignedDecimal_opp s :
  parseUnsignedDecimal true s = opp (parseUnsignedDecimal false s).
Proof.
  unfold parseUnsignedDecimal. destruct (spanDigits s) as [ip r1].
  destruct (match r1 with
            | String "." t => let '(f, r) := spanDigits t in (f, r, true)
            | _ => (EmptyString, r1, false)
            end) as [[fp r2] dot].
  destruct (Str.isEmpty ip && Str.isEmpty fp); [reflexivity|].
  destruct (parseExponent r2); [apply ofDecimal_opp | reflexivity].
Qed.

Lemma append_empty s : s ++ "" = s.
Proof. induction s as [|c s IH]; [reflexivity|]. cbn. rewrite IH. reflexivity. Qed.

Lemma plain_inv c d :
  plainDecimal (String c d) = true ->
  (Str.isDigit c = true \/ c = "."%char) /\ plainDecimal d = true.
Proof.
  cbn [plainDecimal]. intros H. apply Bool.andb_true_iff in H. destruct H as [H1 H2].
  split; [|exact H2]. apply Bool.orb_true_iff in H1. destruct H1 as [H1|H1].
  - left. exact H1.
  - right. apply Ascii.eqb_eq, H1.
Qed.

Lemma digit_facts c :
  Str.isDigit c = true ->
  Str.isWhiteSpace c = false /\ Str.isLineTerminator c = false
  /\ (Ascii.eqb c "$" || Ascii.eqb c ",") = false
  /\ Ascii.eqb c "(" = false /\ Ascii.eqb c ")" = false.
Proof. each_char c. Qed.

Lemma plain_char c :
  Str.isDigit c = true \/ c = "."%char ->
  Str.isWhiteSpace c = false /\ Str.isLineTerminator c = false
  /\ (Ascii.eqb c "$" || Ascii.eqb c ",") = false
  /\ Ascii.eqb c "(" = false /\ Ascii.eqb c ")" = false.
Proof. intros [H | ->]; [apply digit_facts, H | repeat split]. Qed.

Lemma plain_removeCurrency d tail :
  plainDecimal d = true ->
  Str.removeCurrency (d ++ tail) = d ++ Str.removeCurrency tail.
Proof.
  induction d as [|c d IH]; [reflexivity|]. intros P.
  destruct (plain_inv _ _ P) as [C P']. destruct (plain_char c C) as [_ [_ [E _]]].
  cbn [String.append Str.removeCurrency]. rewrite E, (IH P'). reflexivity.
Qed.

Lemma plain_lastClose d :
  plainDecimal d = true -> Str.lastClose (d ++ ")") = Some (d, "").
Proof.
  induction d as [|c d IH]; [reflexivity|]. intros P.
  destruct (plain_inv _ _ P) as [C P']. destruct (plain_char c C) as [_ [L _]].
  cbn [String.append Str.lastClose]. rewrite L, (IH P'). reflexivity.
Qed.

Lemma plain_replaceParens d : plainDecimal d = true -> Str.replaceParens d = d.
Proof.
  induction d as [|c d IH]; [reflexivity|]. intros P.
  destruct (plain_inv _ _ P) as [C P']. destruct (plain_char c C) as [_ [_ [_ [O _]]]].
  cbn [Str.replaceParens]. rewrite O, (IH P'). reflexivity.
Qed.

Lemma plain_trimEnd d : plainDecimal d = true -> Str.trimEnd d = d.
Proof.
  induction d as [|c d IH]; [reflexivity|]. intros P.
  destruct (plain_inv _ _ P) as [C P']. destruct (plain_char c C) as [W _].
  cbn [Str.trimEnd]. rewrite W, Bool.andb_false_r, (IH P'). reflexivity.
Qed.

Lemma plain_trim d : plainDecimal d = true -> Str.trim d = d.
Proof.
  intros P. unfold Str.trim. rewrite trimStart_fixed; [apply plain_trimEnd, P|].
  destruct d as [|c d]; [exact I|].
  destruct (plain_inv _ _ P) as [C _]. apply (plain_char c C).
Qed.

Lemma minus_trim d : plainDecimal d = true -> Str.trim (String "-" d) = String "-" d.
Proof.
  intros P. unfold Str.trim. cbn [Str.trimStart]. change (Str.isWhiteSpace "-") with false.
  cbn iota. cbn [Str.trimEnd]. change (Str.isWhiteSpace "-") with false.
  rewrite Bool.andb_false_r, (plain_trimEnd _ P). reflexivity.
Qed.

Lemma plain_parseSigned neg d :
  plainDecimal d = true -> parseSigned neg d = parseUnsignedDecimal neg d.
Proof.
  intros P. unfold parseSigned. destruct d as [|c d]; [reflexivity|].
  destruct (plain_inv _ _ P) as [[C | ->] _]; [|reflexivity].
  assert (E : Ascii.eqb c "I" = false) by (revert C; each_char c).
  cbn [String.eqb]. rewrite E. reflexivity.
Qed.

Lemma plain_second c d :
  plainDecimal (String c d) = true ->
  Ascii.eqb c "x" = false /\ Ascii.eqb c "X" = false /\ Ascii.eqb c "o" = false
  /\ Ascii.eqb c "O" = false /\ Ascii.eqb c "b" = false /\ Ascii.eqb c "B" = false
  /\ Ascii.eqb c "+" = false /\ Ascii.eqb c "-" = false.
Proof.
  intros P. destruct (plain_inv _ _ P) as [[C | ->] _]; [|repeat split].
  revert C. each_char c.
Qed.

Lemma StringToNumber_plain d :
  plainDecimal d = true -> d <> "" ->
  StringToNumber d = parseUnsignedDecimal false d.
Proof.
  intros P N. unfold StringToNumber. rewrite (plain_trim _ P).
  rewrite <- (plain_parseSigned false _ P).
  destruct d as [|c d]; [contradiction|].
  destruct c as [[] [] [] [] [] [] [] []];
    try reflexivity; try (cbn in P; discriminate P).
  destruct d as [|c2 d2]; [reflexivity|].
  destruct c2 as [[] [] [] [] [] [] [] []];
    try reflexivity; cbn in P; discriminate P.
Qed.

Lemma StringToNumber_minus d :
  plainDecimal d = true ->
  StringToNumber (String "-" d) = parseUnsignedDecimal true d.
Proof.
  intros P. unfold StringToNumber. rewrite (minus_trim _ P).
  apply plain_parseSigned, P.
Qed.

(** X10.  The accounting notation for a negative amount: a plain
    decimal (digits and points) between parentheses reads as the
    opposite of the amount it reads as without them, as long as that
    amount is a number. *)
Theorem parenthesised_amount_negative (d : string)
        (P : plainDecimal d = true) (N : d <> "")
        (F : isFinite (StringToNumber d) = true) :
  Normalize.parseNumeric (VStr ("(" ++ d ++ ")"))
  = opp (Normalize.parseNumeric (VStr d))
  /\ Ingest.parseNumeric (VStr ("(" ++ d ++ ")"))
     = opp (Ingest.parseNumeric (VStr d)).
Proof.
  assert (H : Normalize.parseNumeric (VStr ("(" ++ d ++ ")"))
              = opp (Normalize.parseNumeric (VStr d))).
  { rewrite !parseNumeric_removeCurrency. cbv zeta.
    change ("(" ++ d ++ ")") with (String "(" (d ++ ")")).
    assert (E1 : Str.removeCurrency (String "(" (d ++ ")")) = String "(" (d ++ ")")).
    { change (Str.removeCurrency (String "(" (d ++ ")")))
        with (String "(" (Str.removeCurrency (d ++ ")"))).
      rewrite (plain_removeCurrency d ")" P). reflexivity. }
    assert (E2 : Str.removeCurrency d = d).
    { rewrite <- (append_empty d) at 1. rewrite (plain_removeCurrency d "" P).
      apply append_empty. }
    rewrite E1, E2.
    change (Str.replaceParens (String "(" (d ++ ")")))
      with (match Str.lastClose (d ++ ")") with
            | Some (inner, rest) => "-" ++ inner ++ rest
            | None => String "(" (Str.replaceParens (d ++ ")"))
            end).
    rewrite (plain_lastClose d P), append_empty, (plain_replaceParens d P).
    change ("-" ++ d) with (String "-" d).
    rewrite (minus_trim d P), (plain_trim d P), (StringToNumber_minus d P).
    rewrite (StringToNumber_plain d P N) in F |- *.
    rewrite parseUnsignedDecimal_opp, F.
    destruct (parseUnsignedDecimal false d); try discriminate F; reflexivity. }
  split; exact H.
Qed.

(** The statement of X10 at the amount 12.5. *)
Lemma parenthesised_amount_negative_example :
  plainDecimal "12.5" = true /\ "12.5" <> ""
  /\ isFinite (StringToNumber "12.5") = true
  /\ Normalize.parseNumeric (VStr ("(" ++ "12.5" ++ ")"))
     = opp (Normalize.parseNumeric (VStr "12.5")).
Proof.
  assert (N : "12.5" <> "") by discriminate.
  split; [reflexivity|]. split; [exact N|]. split; [reflexivity|].
  destruct (parenthesised_amount_negative "12.5" eq_refl N eq_refl) as [H _].
  exact H.
Defined.

(** ** Fields of the files written *)

Lemma unescape_doubleQuotes text :
  unescape (Csv.doubleQuotes text ++ String Csv.dquote "") = text.
Proof.
  induction text as [|c text IH]; [reflexivity|]. cbn [Csv.doubleQuotes].
  destruct (Ascii.eqb c Csv.dquote) eqn:E.
  - apply Ascii.eqb_eq in E. subst c. cbn [String.append unescape].
    change (Ascii.eqb Csv.dquote Csv.dquote) with true. cbn iota.
    rewrite IH. reflexivity.
  - cbn [String.append unescape]. rewrite E, IH. reflexivity.
Qed.

Lemma readField_plain text : Csv.needsQuoting text = false -> readField text = text.
Proof.
  destruct text as [|c text]; [reflexivity|]. cbn [Csv.needsQuoting readField].
  intros H. apply Bool.orb_false_iff in H. destruct H as [H _].
  apply Bool.orb_false_iff in H. destruct H as [H _].
  apply Bool.orb_false_iff in H. destruct H as [H _].
  rewrite H. reflexivity.
Qed.

Lemma readField_quoteCsv v : readField (Csv.quoteCsv v) = toString (orElse v (VStr "")).
Proof.
  unfold Csv.quoteCsv. destruct (Csv.needsQuoting _) eqn:Q.
  - cbn [readField]. change (Ascii.eqb Csv.dquote Csv.dquote) with true. cbn iota.
    apply unescape_doubleQuotes.
  - apply readField_plain, Q.
Qed.

(** X11.  [quoteCsv] loses nothing: reading the field it writes, as a
    reader of delimited text does (a field that starts with a double
    quote is quoted, and two double quotes inside it stand for one),
    gives back the text of the value, the empty text for an absent
    value; so two values written alike have the same text.  A text
    without double quote, comma and line feed is written as it is. *)
Theorem quoteCsv_reads_back :
  (forall v, readField (Csv.quoteCsv v) = toString (orElse v (VStr "")))
  /\ (forall a b, Csv.quoteCsv a = Csv.quoteCsv b ->
                  toString (orElse a (VStr "")) = toString (orElse b (VStr "")))
  /\ (forall v, Csv.needsQuoting (toString (orElse v (VStr ""))) = false ->
                Csv.quoteCsv v = toString (orElse v (VStr "")))
  /\ Csv.quoteCsv VUndefined = "" /\ Csv.quoteCsv VNull = "".
Proof.
  split; [exact readField_quoteCsv|]. split.
  - intros a b H. rewrite <- (readField_quoteCsv a), <- (readField_quoteCsv b), H.
    reflexivity.
  - split; [|split; reflexivity]. intros v Q. unfold Csv.quoteCsv. rewrite Q. reflexivity.
Qed.

End TextFacts.

(* ================================================================== *)
(** * Part 17. The normaliser: buckets, columns and tables *)
(* ================================================================== *)

Module CensusMore.
Import Num Js Notions MoreNotions NumFacts OrderFacts MapFacts NormalizeFacts
       PopulationFacts AggregationFacts.

(** ** The accumulation loop, contribution by contribution *)

Lemma roster_not_empty s : Str.mem s VALID_STATES = true -> Str.isEmpty s = false.
Proof. destruct s; [discriminate | reflexivity]. Qed.

Lemma accumulateRow_contribution config bucket row :
  Normalize.accumulateRow config bucket row
  = match contribution config row with
    | Some c => applyContribution bucket c
    | None => bucket
    end.
Proof.
  unfold Normalize.accumulateRow, contribution.
  fold (censusState row) (censusYear config row) (censusCode row) (censusGovType row).
  destruct (Str.mem (censusState row) VALID_STATES) eqn:S;
    [|rewrite Bool.orb_true_r; reflexivity].
  rewrite (roster_not_empty _ S).
  destruct (Str.mem (censusGovType row) ["002"; "003"]) eqn:G;
    [|rewrite Bool.orb_true_r; reflexivity].
  cbn [negb orb andb]. rewrite Bool.orb_false_r.
  destruct (Normalize.taxTypeOfCode (censusCode row)) as [taxType|] eqn:T.
  - assert (E : Str.isEmpty (censusCode row) = false)
      by (destruct (censusCode row); [discriminate T | reflexivity]).
    rewrite E. reflexivity.
  - destruct (Str.isEmpty (censusCode row)); reflexivity.
Qed.

Lemma accumulate_contributions config rows : forall bucket,
  fold_left (Normalize.accumulateRow config) rows bucket
  = fold_left applyContribution (contributions config rows) bucket.
Proof.
  induction rows as [|row rows IH]; intros bucket; [reflexivity|].
  cbn [fold_left]. unfold contributions. rewrite somes_cons, accumulateRow_contribution.
  destruct (contribution config row); cbn [fold_left]; apply IH.
Qed.

Lemma taxTypeOfCode_label code taxType :
  Normalize.taxTypeOfCode code = Some taxType -> In taxType taxLabels.
Proof.
  unfold Normalize.taxTypeOfCode, taxLabels.
  destruct (get code Normalize.CENSUS_TAX_CODE_TO_TYPE) as [t|] eqn:G.
  - intros [= <-]. apply in_or_app. left. apply get_In in G.
    apply (in_map snd) in G. exact G.
  - destruct (Str.mem code Normalize.LICENSE_CODES); [|discriminate].
    intros [= <-]. apply in_or_app. right. left. reflexivity.
Qed.

Lemma contribution_good config row c :
  contribution config row = Some c ->
  Str.mem c.(c_state) VALID_STATES = true
  /\ In c.(c_taxType) taxLabels
  /\ (c.(c_govType) = "002" \/ c.(c_govType) = "003").
Proof.
  unfold contribution.
  destruct (Str.mem (censusState row) VALID_STATES) eqn:S; [|discriminate].
  destruct (Str.mem (censusGovType row) ["002"; "003"]) eqn:G; [|discriminate].
  cbn [andb]. destruct (Normalize.taxTypeOfCode (censusCode row)) as [t|] eqn:T;
    [|discriminate].
  intros [= <-]. cbn [c_state c_taxType c_govType]. split; [exact S|].
  split; [eapply taxTypeOfCode_label, T|].
  apply mem_In in G. destruct G as [G|[G|[]]]; [left | right]; symmetry; exact G.
Qed.

Lemma atLevel_snoc k g cs c :
  atLevel k g (cs ++ [c])
  = if String.eqb (c_key c) k && String.eqb c.(c_govType) g
    then (atLevel k g cs ++ [c])%list else atLevel k g cs.
Proof.
  unfold atLevel. rewrite filter_app. cbn [filter].
  destruct (String.eqb (c_key c) k && String.eqb (c_govType c) g);
    [reflexivity | apply app_nil_r].
Qed.

Lemma atLevel_nil k g cs : ~ In k (map c_key cs) -> atLevel k g cs = [].
Proof.
  intros N. unfold atLevel. induction cs as [|c cs IH]; [reflexivity|].
  cbn [filter]. destruct (String.eqb_spec (c_key c) k) as [E|_].
  - exfalso. apply N. left. exact E.
  - cbn [andb]. apply IH. intros I. apply N. right. exact I.
Qed.

Lemma merged_empty : Merged [] [].
Proof. split; [reflexivity | intros k b H; discriminate H]. Qed.

Lemma merged_step cs bucket c :
  Str.mem c.(c_state) VALID_STATES = true ->
  In c.(c_taxType) taxLabels ->
  c.(c_govType) = "002" \/ c.(c_govType) = "003" ->
  Merged cs bucket -> Merged (cs ++ [c]) (applyContribution bucket c).
Proof.
  intros S L G [Keys Entry]. split.
  - unfold applyContribution. rewrite keys_set, Keys, map_app. cbn [map].
    symmetry. apply firstSeen_snoc.
  - intros k b. unfold applyContribution.
    destruct (String.eqb_spec (c_key c) k) as [E|N].
    + subst k. rewrite get_set_same. intros [= <-].
      rewrite !atLevel_snoc, String.eqb_refl. cbn [andb].
      destruct (get (c_key c) bucket) as [b0|] eqn:B.
      * destruct (Entry _ _ B) as [K [S0 [L0 [R0 T0]]]].
        destruct G as [G|G]; rewrite G; cbn [String.eqb Ascii.eqb Bool.eqb];
          cbn [Normalize.addStateRevenue Normalize.addLocalRevenue
               Normalize.state Normalize.row_year Normalize.tax_type
               Normalize.state_tax_revenue Normalize.local_tax_revenue];
          rewrite ?map_app; change (map c_amount [c]) with [c_amount c];
          rewrite ?sumLeft_snoc, <- ?S0, <- ?L0;
          repeat split; assumption.
      * assert (A : forall g, atLevel (c_key c) g cs = []).
        { intros g. apply atLevel_nil. apply get_None_keys in B. rewrite Keys in B.
          intros I. apply B, In_firstSeen, I. }
        destruct G as [G|G]; rewrite G; cbn [String.eqb Ascii.eqb Bool.eqb];
          cbn [Normalize.addStateRevenue Normalize.addLocalRevenue
               Normalize.state Normalize.row_year Normalize.tax_type
               Normalize.state_tax_revenue Normalize.local_tax_revenue];
          rewrite !A; repeat split; assumption.
    + rewrite get_set_other by exact N. intros B.
      rewrite !atLevel_snoc. apply String.eqb_neq in N. rewrite N. cbn [andb].
      apply Entry, B.
Qed.

Lemma merged_fold cs :
  Forall (fun c => Str.mem c.(c_state) VALID_STATES = true
                   /\ In c.(c_taxType) taxLabels
                   /\ (c.(c_govType) = "002" \/ c.(c_govType) = "003")) cs ->
  Merged cs (fold_left applyContribution cs []).
Proof.
  induction cs as [|c cs IH] using rev_ind; intros F; [apply merged_empty|].
  apply Forall_app in F. destruct F as [F Fc]. inversion Fc as [|? ? [S [L G]] _]; subst.
  rewrite fold_left_app. cbn [fold_left]. apply merged_step; auto.
Qed.

Lemma merged_accumulate config rows :
  Merged (contributions config rows) (Normalize.accumulate config rows).
Proof.
  unfold Normalize.accumulate. rewrite accumulate_contributions. apply merged_fold.
  apply Forall_forall. intros c I. apply In_somes in I. destruct I as [row [_ C]].
  eapply contribution_good, C.
Qed.

Lemma kept_keys_distinct (keyOf : Normalize.TaxRow -> string)
      (buckets : list Normalize.TaxRow) :
  NoDup (map keyOf buckets) -> NoDup (map keyOf (filter Normalize.kept buckets)).
Proof.
  induction buckets as [|b buckets IH]; [intros _; constructor|]. cbn [map filter].
  intros N. inversion N as [|? ? Nb Nl]; subst.
  destruct (Normalize.kept b); [|apply IH, Nl].
  cbn [map]. constructor; [|apply IH, Nl].
  intros I. apply Nb. apply in_map_iff in I. destruct I as [x [E I]].
  apply filter_In in I. apply in_map_iff. exists x. split; [exact E | apply I].
Qed.

Lemma bucket_keys config rows :
  map (fun b => Normalize.mapKey b.(Normalize.state) b.(Normalize.row_year)
                                 b.(Normalize.tax_type))
      (map snd (Normalize.accumulate config rows))
  = map fst (Normalize.accumulate config rows).
Proof.
  pose proof (merged_accumulate config rows) as [Keys Entry].
  assert (N : NoDup (map fst (Normalize.accumulate config rows)))
    by (rewrite Keys; apply firstSeen_NoDup).
  rewrite map_map. apply map_ext_in. intros [k b] I. cbn [snd fst].
  apply (In_get _ _ _ N) in I. destruct (Entry _ _ I) as [K _]. symmetry. exact K.
Qed.

Lemma bucket_entry config rows b :
  In b (map snd (Normalize.accumulate config rows)) ->
  let cs := contributions config rows in
  let k := Normalize.mapKey b.(Normalize.state) b.(Normalize.row_year)
                            b.(Normalize.tax_type) in
  b.(Normalize.state_tax_revenue) = sumLeft (map c_amount (atLevel k "002" cs))
  /\ b.(Normalize.local_tax_revenue) = sumLeft (map c_amount (atLevel k "003" cs))
  /\ Str.mem b.(Normalize.state) VALID_STATES = true
  /\ In b.(Normalize.tax_type) taxLabels.
Proof.
  intros I cs k. subst k.
  pose proof (merged_accumulate config rows) as [Keys Entry]. fold cs in Keys, Entry.
  assert (N : NoDup (map fst (Normalize.accumulate config rows)))
    by (rewrite Keys; apply firstSeen_NoDup).
  apply in_map_iff in I. destruct I as [[k b'] [E I]]. cbn [snd] in E. subst b'.
  apply (In_get _ _ _ N) in I. destruct (Entry _ _ I) as [Ek [S0 [L0 [R0 T0]]]].
  rewrite <- Ek. repeat split; assumption.
Qed.

(** X12.  What [normalizeTaxFromCensusApiRows] returns.  No two rows
    share state, year and tax type.  In every row the state revenue is
    the running sum of the amounts of the contributing source rows of
    that state, year and tax type at government level 002, and the
    local revenue the one at level 003; the state is a state of the
    roster, the tax type is one of the seven labels, and one of the two
    revenues is strictly positive. *)
Theorem census_rows_are_sums (rows : list record) (config : Normalize.Config) :
  let cs := contributions config rows in
  let keyOf (b : Normalize.TaxRow) :=
    Normalize.mapKey b.(Normalize.state) b.(Normalize.row_year) b.(Normalize.tax_type) in
  let out := Normalize.normalizeTaxFromCensusApiRows rows config in
  NoDup (map keyOf out)
  /\ Forall (fun b =>
               b.(Normalize.state_tax_revenue)
               = sumLeft (map c_amount (atLevel (keyOf b) "002" cs))
               /\ b.(Normalize.local_tax_revenue)
                  = sumLeft (map c_amount (atLevel (keyOf b) "003" cs))
               /\ Str.mem b.(Normalize.state) VALID_STATES = true
               /\ In b.(Normalize.tax_type) taxLabels
               /\ (gtb b.(Normalize.state_tax_revenue) zero = true
                   \/ gtb b.(Normalize.local_tax_revenue) zero = true)) out.
Proof.
  intros cs keyOf out. subst out. unfold Normalize.normalizeTaxFromCensusApiRows.
  split.
  - apply kept_keys_distinct. subst keyOf. rewrite bucket_keys.
    pose proof (merged_accumulate config rows) as [Keys _].
    rewrite Keys. apply firstSeen_NoDup.
  - apply Forall_forall. intros b I. apply filter_In in I. destruct I as [I K].
    destruct (bucket_entry config rows b I) as [S0 [L0 [R0 T0]]].
    subst keyOf. cbv beta.
    split; [exact S0|]. split; [exact L0|]. split; [exact R0|]. split; [exact T0|].
    unfold Normalize.kept in K. apply Bool.orb_true_iff in K. exact K.
Qed.

Lemma accumulate_without config before row after :
  contribution config row = None ->
  Normalize.accumulate config (before ++ row :: after)
  = Normalize.accumulate config (before ++ after).
Proof.
  intros C. unfold Normalize.accumulate. rewrite !fold_left_app. cbn [fold_left].
  rewrite accumulateRow_contribution, C. reflexivity.
Qed.

(** X13.  A source row whose government level, once trimmed, is
    neither 002 nor 003, or whose code is in neither table of codes,
    changes nothing in what [normalizeTaxFromCensusApiRows] returns,
    whatever its state and amount. *)
Theorem census_row_without_effect (config : Normalize.Config)
        (before after : list record) (row : record)
        (H : Str.mem (censusGovType row) ["002"; "003"] = false
             \/ Normalize.taxTypeOfCode (censusCode row) = None) :
  Normalize.normalizeTaxFromCensusApiRows (before ++ row :: after) config
  = Normalize.normalizeTaxFromCensusApiRows (before ++ after) config.
Proof.
  unfold Normalize.normalizeTaxFromCensusApiRows. rewrite accumulate_without; [reflexivity|].
  unfold contribution. destruct H as [H|H]; rewrite H.
  - rewrite Bool.andb_false_r. reflexivity.
  - destruct (_ && _); reflexivity.
Qed.

(** The statement of X13 at a row of government level 001, the state
    and local governments together. *)
Lemma census_row_without_effect_example :
  let row := Examples.censusRow "Texas" (VNum (ofZ 2023)) "LF0009" "001" "1,500" in
  (Str.mem (censusGovType row) ["002"; "003"] = false
   \/ Normalize.taxTypeOfCode (censusCode row) = None)
  /\ Normalize.normalizeTaxFromCensusApiRows ([] ++ row :: Examples.texasRows)
       Examples.normalizeConfig
     = Normalize.normalizeTaxFromCensusApiRows ([] ++ Examples.texasRows)
         Examples.normalizeConfig.
Proof.
  intros row.
  assert (H : Str.mem (censusGovType row) ["002"; "003"] = false
              \/ Normalize.taxTypeOfCode (censusCode row) = None)
    by (left; reflexivity).
  split; [exact H|].
  exact (census_row_without_effect Examples.normalizeConfig [] Examples.texasRows row H).
Defined.

(** ** Columns under several names *)

(** X14.  [pickColumn] gives the cell of the first alias that is a
    column of the row, whatever that cell holds, an empty cell
    included: aliases that are not columns of the row are passed over,
    later aliases are not looked at, and the result is [undefined] when
    no alias is a column of the row. *)
Theorem pickColumn_first_present (row : record) :
  (forall before alias after,
      Forall (fun a => has a row = false) before ->
      has alias row = true ->
      Normalize.pickColumn row (before ++ alias :: after) = prop row alias)
  /\ (forall aliases,
         Forall (fun a => has a row = false) aliases ->
         Normalize.pickColumn row aliases = VUndefined).
Proof.
  split.
  - intros before alias after F P. induction F as [|a before Ha _ IH].
    + cbn [app Normalize.pickColumn]. rewrite P. reflexivity.
    + cbn [app Normalize.pickColumn]. rewrite Ha. exact IH.
  - intros aliases F. induction F as [|a aliases Ha _ IH]; [reflexivity|].
    cbn [Normalize.pickColumn]. rewrite Ha. exact IH.
Qed.

(** ** Rows of a bracketed source *)





(** ** The two tables of a run *)




(** ** The files written *)

Lemma append_assoc (a b c : string) : (a ++ b) ++ c = a ++ b ++ c.
Proof. induction a as [|x a IH]; [reflexivity|]. cbn. rewrite IH. reflexivity. Qed.

Lemma join_snoc sep x l y :
  Str.join sep ((x :: l) ++ [y]) = Str.join sep (x :: l) ++ sep ++ y.
Proof.
  revert x. induction l as [|z l IH]; intros x; [reflexivity|].
  change (Str.join sep ((x :: z :: l) ++ [y]))
    with (x ++ sep ++ Str.join sep ((z :: l) ++ [y])).
  rewrite IH.
  change (Str.join sep (x :: z :: l)) with (x ++ sep ++ Str.join sep (z :: l)).
  rewrite !append_assoc. reflexivity.
Qed.

(** X17.  The text [writeCsv] writes grows row by row: without rows it
    is the column names joined by commas and a line feed; one more row
    at the end adds, after what was written for the rows before it,
    the row's cells under the columns, each through [quoteCsv], joined
    by commas, and a line feed. *)
Theorem writeCsv_row_by_row (columns : list string) :
  Csv.writeCsv [] columns
  = Str.join (String Csv.comma "") columns ++ String Csv.lf ""
  /\ (forall rows row,
         Csv.writeCsv (rows ++ [row]) columns
         = Csv.writeCsv rows columns
           ++ Str.join (String Csv.comma "")
                       (map (fun column => Csv.quoteCsv (prop row column)) columns)
           ++ String Csv.lf "").
Proof.
  split; [reflexivity|]. intros rows row. unfold Csv.writeCsv.
  rewrite map_app. cbn [map]. rewrite app_comm_cons, join_snoc, !append_assoc.
  reflexivity.
Qed.

End CensusMore.

(* ================================================================== *)
(** * Part 18. The download script *)
(* ================================================================== *)

Module DownloadFacts.
Import Js MoreNotions TextFacts.

Lemma trim_ws ws : allWhiteSpace ws = true -> Str.trim ws = "".
Proof. intros W. unfold Str.trim. rewrite (trimStart_ws _ W). reflexivity. Qed.

Lemma ensureUrl_blank v label :
  allWhiteSpace (toString (orElse v (VStr ""))) = true ->
  Download.ensureUrl v label = inl (Download.MissingUrl label).
Proof. intros W. unfold Download.ensureUrl. rewrite (trim_ws _ W). reflexivity. Qed.

(** X18.  The download script checks both addresses before it touches
    anything: when the address of the tax source or of the population
    source is absent or blank, [run] fails with the error of a missing
    address, the tax one first, and has made no directory, fetched
    nothing and written nothing. *)
Theorem missing_url_no_effect (fetch : string -> option Download.Response)
        (config : Download.Config)
        (H : allWhiteSpace
               (toString (orElse config.(Download.sources_tax_url) (VStr ""))) = true
             \/ allWhiteSpace
                  (toString (orElse config.(Download.sources_population_url) (VStr "")))
                = true) :
  fst (Download.run fetch config) = []
  /\ (exists label, snd (Download.run fetch config) = inl (Download.MissingUrl label))
  /\ (allWhiteSpace
        (toString (orElse config.(Download.sources_tax_url) (VStr ""))) = true ->
      snd (Download.run fetch config) = inl (Download.MissingUrl "tax source")).
Proof.
  assert (T : allWhiteSpace
                (toString (orElse config.(Download.sources_tax_url) (VStr ""))) = true ->
              Download.run fetch config = ([], inl (Download.MissingUrl "tax source"))).
  { intros W. unfold Download.run. rewrite (ensureUrl_blank _ _ W). reflexivity. }
  destruct H as [W|W].
  - rewrite (T W). split; [reflexivity|]. split; [eexists; reflexivity|].
    intros _. reflexivity.
  - split; [|split].
    + unfold Download.run. rewrite (ensureUrl_blank _ "population source" W).
      destruct (Download.ensureUrl _ "tax source"); reflexivity.
    + unfold Download.run. rewrite (ensureUrl_blank _ "population source" W).
      unfold Download.ensureUrl. destruct (Str.isEmpty _); eexists; reflexivity.
    + intros W'. rewrite (T W'). reflexivity.
Qed.

(** The statement of X18 at a configuration without an address for the
    population source. *)
Lemma missing_url_no_effect_example :
  let config :=
    {| Download.sources_tax_url := VStr "https://example.org/tax.csv";
       Download.sources_population_url := VUndefined;
       Download.downloads_tax := "data/downloads/tax.csv";
       Download.downloads_population := "data/downloads/population.csv" |} in
  allWhiteSpace
    (toString (orElse config.(Download.sources_population_url) (VStr ""))) = true
  /\ fst (Download.run (fun _ => None) config) = [].
Proof.
  intros config. split; [reflexivity|].
  destruct (missing_url_no_effect (fun _ => None) config (or_intror eq_refl)) as [H _].
  exact H.
Defined.

Lemma downloadTo_written fetch url outputPath log path content :
  In (Download.WriteFile path content)
     (fst (Download.downloadTo fetch url outputPath log)) ->
  In (Download.WriteFile path content) log
  \/ (path = outputPath
      /\ Str.trim content <> ""
      /\ exists response,
           fetch url = Some response
           /\ Download.ok response = true
           /\ Download.text response = Some content).
Proof.
  unfold Download.downloadTo.
  assert (L : In (Download.WriteFile path content)
                 (log ++ [Download.MakeDirectoryFor outputPath; Download.Fetch url]) ->
              In (Download.WriteFile path content) log).
  { intros I. apply in_app_or in I. destruct I as [I|[I|[I|[]]]];
      [exact I | discriminate I | discriminate I]. }
  destruct (fetch url) as [response|] eqn:F; [|intros I; left; apply L, I].
  destruct (Download.ok response) eqn:O; cbn [negb]; [|intros I; left; apply L, I].
  destruct (Download.text response) as [text|] eqn:T; [|intros I; left; apply L, I].
  destruct (Str.isEmpty (Str.trim text)) eqn:E; [intros I; left; apply L, I|].
  cbn [fst]. intros I. apply in_app_or in I. destruct I as [I|[I|[]]].
  - left. apply L, I.
  - injection I as <- <-. right. split; [reflexivity|]. split.
    + intros Z. rewrite Z in E. discriminate E.
    + exists response. repeat split; assumption.
Qed.

(** X19.  Whatever [fetch] answers, every file the download script
    writes is one of the two configured download files, and its
    content is the text of a response that [fetch] gave with its [ok]
    flag set; that text is not blank.  So a failed or empty download
    never overwrites a file. *)
Theorem written_files_are_downloads (fetch : string -> option Download.Response)
        (config : Download.Config) (path content : string)
        (W : In (Download.WriteFile path content) (fst (Download.run fetch config))) :
  (path = config.(Download.downloads_tax)
   \/ path = config.(Download.downloads_population))
  /\ Str.trim content <> ""
  /\ exists url response,
       fetch url = Some response
       /\ Download.ok response = true
       /\ Download.text response = Some content.
Proof.
  unfold Download.run in W.
  destruct (Download.ensureUrl _ "tax source") as [e|taxUrl]; [destruct W|].
  destruct (Download.ensureUrl _ "population source") as [e|populationUrl];
    [destruct W|].
  destruct (Download.downloadTo fetch taxUrl (Download.downloads_tax config) [])
    as [log1 [e|taxOutput]] eqn:D1.
  - cbn [fst] in W. replace log1 with (fst (Download.downloadTo fetch taxUrl
                                             (Download.downloads_tax config) []))
      in W by (rewrite D1; reflexivity).
    apply downloadTo_written in W. destruct W as [[]|[P [N [r R]]]].
    split; [left; exact P|]. split; [exact N|]. exists taxUrl, r. exact R.
  - assert (W' : In (Download.WriteFile path content)
                    (fst (Download.downloadTo fetch populationUrl
                            (Download.downloads_population config) log1))).
    { destruct (Download.downloadTo fetch populationUrl
                  (Download.downloads_population config) log1) as [log2 [e|out]];
        exact W. }
    apply downloadTo_written in W'. destruct W' as [W'|[P [N [r R]]]].
    + replace log1 with (fst (Download.downloadTo fetch taxUrl
                                (Download.downloads_tax config) []))
        in W' by (rewrite D1; reflexivity).
      apply downloadTo_written in W'. destruct W' as [[]|[P [N [r R]]]].
      split; [left; exact P|]. split; [exact N|]. exists taxUrl, r. exact R.
    + split; [right; exact P|]. split; [exact N|]. exists populationUrl, r. exact R.
Qed.

(** The statement of X19 at a run whose two downloads succeed. *)
Lemma written_files_are_downloads_example :
  let config :=
    {| Download.sources_tax_url := VStr "https://example.org/tax.csv";
       Download.sources_population_url := VStr "https://example.org/population.csv";
       Download.downloads_tax := "data/downloads/tax.csv";
       Download.downloads_population := "data/downloads/population.csv" |} in
  let fetch := fun _ : string =>
    Some {| Download.ok := true; Download.status := 200;
            Download.text := Some "state,year" |} in
  In (Download.WriteFile "data/downloads/tax.csv" "state,year")
     (fst (Download.run fetch config))
  /\ Str.trim "state,year" <> "".
Proof.
  intros config fetch.
  assert (W : In (Download.WriteFile "data/downloads/tax.csv" "state,year")
                 (fst (Download.run fetch config))).
  { vm_compute. right. right. left. reflexivity. }
  split; [exact W|].
  destruct (written_files_are_downloads fetch config _ _ W) as [_ [N _]]. exact N.
Defined.

(** X20.  The two downloads are not one transaction.  When the tax
    source downloads well and the population source does not (the
    request is rejected, or the response has its [ok] flag unset), the
    run fails, but it has by then written the tax file: what the script
    did is to make the directory of the tax file, fetch the tax
    address, write the tax file, make the directory of the population
    file and fetch the population address, in this order. *)
Theorem population_failure_keeps_tax_file
        (fetch : string -> option Download.Response) (config : Download.Config)
        (taxUrl populationUrl : string) (response : Download.Response) (text : string)
        (U1 : Download.ensureUrl config.(Download.sources_tax_url) "tax source"
              = inr taxUrl)
        (U2 : Download.ensureUrl config.(Download.sources_population_url)
                                 "population source" = inr populationUrl)
        (F1 : fetch taxUrl = Some response)
        (O1 : Download.ok response = true)
        (T1 : Download.text response = Some text)
        (N1 : Str.isEmpty (Str.trim text) = false)
        (F2 : forall r, fetch populationUrl = Some r -> Download.ok r = false) :
  fst (Download.run fetch config)
  = [ Download.MakeDirectoryFor config.(Download.downloads_tax);
      Download.Fetch taxUrl;
      Download.WriteFile config.(Download.downloads_tax) text;
      Download.MakeDirectoryFor config.(Download.downloads_population);
      Download.Fetch populationUrl ]
  /\ exists e, snd (Download.run fetch config) = inl e.
Proof.
  destruct (fetch populationUrl) as [r|] eqn:F.
  - assert (E : Download.run fetch config
                = ([ Download.MakeDirectoryFor config.(Download.downloads_tax);
                     Download.Fetch taxUrl;
                     Download.WriteFile config.(Download.downloads_tax) text;
                     Download.MakeDirectoryFor config.(Download.downloads_population);
                     Download.Fetch populationUrl ],
                   inl (Download.DownloadFailed (Download.status r) populationUrl))).
    { unfold Download.run. rewrite U1, U2. unfold Download.downloadTo.
      rewrite F1, O1, T1, N1, F, (F2 r eq_refl). reflexivity. }
    rewrite E. split; [reflexivity | eexists; reflexivity].
  - assert (E : Download.run fetch config
                = ([ Download.MakeDirectoryFor config.(Download.downloads_tax);
                     Download.Fetch taxUrl;
                     Download.WriteFile config.(Download.downloads_tax) text;
                     Download.MakeDirectoryFor config.(Download.downloads_population);
                     Download.Fetch populationUrl ],
                   inl (Download.FetchRejected populationUrl))).
    { unfold Download.run. rewrite U1, U2. unfold Download.downloadTo.
      rewrite F1, O1, T1, N1, F. reflexivity. }
    rewrite E. split; [reflexivity | eexists; reflexivity].
Qed.

(** The statement of X20 at a server that has the tax file only. *)
Lemma population_failure_keeps_tax_file_example :
  let config :=
    {| Download.sources_tax_url := VStr "tax";
       Download.sources_population_url := VStr "population";
       Download.downloads_tax := "data/downloads/tax.csv";
       Download.downloads_population := "data/downloads/population.csv" |} in
  let response :=
    {| Download.ok := true; Download.status := 200;
       Download.text := Some "state,year" |} in
  let fetch := fun url : string =>
    if String.eqb url "tax" then Some response
    else Some {| Download.ok := false; Download.status := 404;
                 Download.text := Some "not found" |} in
  (forall r, fetch "population" = Some r -> Download.ok r = false)
  /\ exists e, snd (Download.run fetch config) = inl e.
Proof.
  intros config response fetch.
  assert (F2 : forall r, fetch "population" = Some r -> Download.ok r = false).
  { intros r E. vm_compute in E. injection E as <-. reflexivity. }
  split; [exact F2|].
  destruct (population_failure_keeps_tax_file fetch config "tax" "population"
              response "state,year" eq_refl eq_refl eq_refl eq_refl eq_refl eq_refl F2)
    as [_ H].
  exact H.
Defined.

End DownloadFacts.

(* ================================================================== *)
(** * Part 19. The scripts one after the other *)
(* ================================================================== *)

Module PipelineFacts.
Import Num Js Notions MoreNotions TextFacts DownloadFacts.

(** X21.  From the download to the normaliser: a file the download
    script has written is never rejected by the normaliser's reader as
    an empty source; the reader goes on to decode it, as bracketed
    text when its trimmed content starts with a bracket and as
    delimited text otherwise. *)
Theorem downloaded_file_not_empty (fetch : string -> option Download.Response)
        (config : Download.Config) (path content : string)
        (W : In (Download.WriteFile path content) (fst (Download.run fetch config)))
        (lib : Library) :
  Str.isEmpty (Str.trim content) = false
  /\ Normalize.parseSourceRows lib content
     = if Str.startsWith "[" (Str.trim content)
       then Normalize.parseCensusApiJson lib content
       else Normalize.parseCsv lib content.
Proof.
  assert (E : Str.isEmpty (Str.trim content) = false).
  { unfold Download.run in W.
    destruct (Download.ensureUrl _ "tax source") as [e|taxUrl]; [destruct W|].
    destruct (Download.ensureUrl _ "population source") as [e|populationUrl];
      [destruct W|].
    assert (N : Str.trim content <> "").
    { destruct (Download.downloadTo fetch taxUrl (Download.downloads_tax config) [])
        as [log1 [e|taxOutput]] eqn:D1.
      - cbn [fst] in W.
        replace log1 with (fst (Download.downloadTo fetch taxUrl
                                  (Download.downloads_tax config) []))
          in W by (rewrite D1; reflexivity).
        apply downloadTo_written in W. destruct W as [[]|[_ [N _]]]. exact N.
      - assert (W' : In (Download.WriteFile path content)
                        (fst (Download.downloadTo fetch populationUrl
                                (Download.downloads_population config) log1))).
        { destruct (Download.downloadTo fetch populationUrl
                      (Download.downloads_population config) log1) as [log2 [e|out]];
            exact W. }
        apply downloadTo_written in W'. destruct W' as [W'|[_ [N _]]]; [|exact N].
        replace log1 with (fst (Download.downloadTo fetch taxUrl
                                  (Download.downloads_tax config) []))
          in W' by (rewrite D1; reflexivity).
        apply downloadTo_written in W'. destruct W' as [[]|[_ [N _]]]. exact N. }
    destruct (Str.trim content); [contradiction | reflexivity]. }
  split; [exact E|]. unfold Normalize.parseSourceRows. rewrite E. reflexivity.
Qed.

(** The statement of X21 at a run whose two downloads succeed. *)
Lemma downloaded_file_not_empty_example :
  let config :=
    {| Download.sources_tax_url := VStr "https://example.org/tax.csv";
       Download.sources_population_url := VStr "https://example.org/population.csv";
       Download.downloads_tax := "data/downloads/tax.csv";
       Download.downloads_population := "data/downloads/population.csv" |} in
  let fetch := fun _ : string =>
    Some {| Download.ok := true; Download.status := 200;
            Download.text := Some "state,year" |} in
  In (Download.WriteFile "data/downloads/tax.csv" "state,year")
     (fst (Download.run fetch config))
  /\ Str.isEmpty (Str.trim "state,year") = false.
Proof.
  intros config fetch.
  assert (W : In (Download.WriteFile "data/downloads/tax.csv" "state,year")
                 (fst (Download.run fetch config))).
  { vm_compute. right. right. left. reflexivity. }
  split; [exact W|].
  destruct (downloaded_file_not_empty fetch config _ _ W (Examples.library None [] []))
    as [E _].
  exact E.
Defined.

Lemma blank_is_zero ws : allWhiteSpace ws = true -> toNumber (VStr ws) = zero.
Proof.
  intros W. cbn [toNumber]. unfold StringToNumber. rewrite (trim_ws _ W). reflexivity.
Qed.

(** X22.  From the normaliser to the ingestion, for a source of the
    pre-normalised shape: when the year column of a row is there but
    its cell is blank, the configured year does not step in (it only
    does for an absent column); the row's year is 0, its year cell is
    written as the text 0, and the ingestion then skips a row with that
    year cell under every configured year other than 0. *)
Theorem blank_year_cell (config : Normalize.Config) (row : record) (ws : string)
        (W : allWhiteSpace ws = true)
        (P : Normalize.pickColumn row
               (Normalize.tax_year (Normalize.normalization_tax config)) = VStr ws) :
  let written :=
    Csv.quoteCsv (prop (Csv.taxObject (Normalize.aliasedTaxRow config row)) "year") in
  (Normalize.aliasedTaxRow config row).(Normalize.row_year) = zero
  /\ written = "0"
  /\ (forall ingestConfig,
         strictNe zero (Ingest.year ingestConfig) = true ->
         Ingest.otherYear ingestConfig (VStr written) = true).
Proof.
  intros written.
  assert (Y : (Normalize.aliasedTaxRow config row).(Normalize.row_year) = zero).
  { unfold Normalize.aliasedTaxRow. cbn [Normalize.row_year]. rewrite P.
    cbn [orElse]. apply blank_is_zero, W. }
  assert (T : written = "0").
  { subst written. unfold Csv.taxObject.
    change (prop _ "year")
      with (VNum (Normalize.row_year (Normalize.aliasedTaxRow config row))).
    rewrite Y. reflexivity. }
  split; [exact Y|]. split; [exact T|].
  intros ingestConfig H. rewrite T. unfold Ingest.otherYear.
  change (toNumber (VStr "0")) with zero. rewrite H. reflexivity.
Qed.

(** The statement of X22 at a row whose year cell is empty. *)
Lemma blank_year_cell_example :
  let row := Examples.aliasedRow "Texas" "" "Property tax" "10" "5" in
  allWhiteSpace "" = true
  /\ Normalize.pickColumn row
       (Normalize.tax_year (Normalize.normalization_tax Examples.normalizeConfig))
     = VStr ""
  /\ (Normalize.aliasedTaxRow Examples.normalizeConfig row).(Normalize.row_year) = zero.
Proof.
  intros row. split; [reflexivity|]. split; [reflexivity|].
  destruct (blank_year_cell Examples.normalizeConfig row "" eq_refl eq_refl) as [H _].
  exact H.
Defined.

End PipelineFacts.
